(** * dEAduction: the MathObject model (pylib/mathobj/math_object.py)

    A shallow embedding of the Python classes [MathObject] and [BoundVar]:
    objects live in a store indexed by their identity, their [info]
    dictionaries live in a second store (several objects may share one
    dictionary), and the class attributes of [MathObject] (the registries)
    are fields of the state.  Methods are state-passing functions that may
    raise a Python exception. *)

From stdpp Require Import gmap strings list fin_maps sorting.
From Stdlib Require Import ZArith Lia.


(** ** Data model *)

(** Identity of a MathObject ([id(obj)]) and of an [info] dictionary. *)
Definition loc := nat.
Definition dloc := nat.

(** The two classes of the file; [is_bound_var] is a class attribute. *)
Inductive class := MathObjectCls | BoundVarCls.

Global Instance class_eq_dec : EqDecision class.
Proof. solve_decision. Defined.

(** The [info] dictionary, with the keys the code reads or writes. *)
Record info_dict := mkInfo {
  i_node_name : option string;
  i_math_type : option loc;
  i_name : option string;
  i_identifier : option string;
  i_value : option string;
  i_lean_name : option string;
  i_bound_var_nb : option Z
}.

Definition empty_info : info_dict :=
  mkInfo None None None None None None None.

Definition set_name (v : option string) (i : info_dict) : info_dict :=
  mkInfo (i_node_name i) (i_math_type i) v (i_identifier i) (i_value i)
         (i_lean_name i) (i_bound_var_nb i).

Definition set_lean_name (v : option string) (i : info_dict) : info_dict :=
  mkInfo (i_node_name i) (i_math_type i) (i_name i) (i_identifier i)
         (i_value i) v (i_bound_var_nb i).

Definition set_bound_var_nb (v : option Z) (i : info_dict) : info_dict :=
  mkInfo (i_node_name i) (i_math_type i) (i_name i) (i_identifier i)
         (i_value i) (i_lean_name i) v.

Definition pop_node_name (i : info_dict) : info_dict :=
  mkInfo None (i_math_type i) (i_name i) (i_identifier i) (i_value i)
         (i_lean_name i) (i_bound_var_nb i).

(** Instance attributes of a MathObject.  [children] is the object's own
    list; [_math_type = None] is Python's [None]. *)
Record obj := mkObj {
  cls : class;
  node : string;
  info : dloc;
  children : list loc;
  _math_type : option loc;
  parent : option loc;
  is_unnamed : bool;
  _local_context : list loc
}.

Definition set_children (cs : list loc) (o : obj) : obj :=
  mkObj (cls o) (node o) (info o) cs (_math_type o) (parent o)
        (is_unnamed o) (_local_context o).

Definition set_math_type (mt : option loc) (o : obj) : obj :=
  mkObj (cls o) (node o) (info o) (children o) mt (parent o)
        (is_unnamed o) (_local_context o).

Definition set_parent (p : option loc) (o : obj) : obj :=
  mkObj (cls o) (node o) (info o) (children o) (_math_type o) p
        (is_unnamed o) (_local_context o).

Definition set_is_unnamed (b : bool) (o : obj) : obj :=
  mkObj (cls o) (node o) (info o) (children o) (_math_type o) (parent o)
        b (_local_context o).

Definition set_local_context_field (lc : list loc) (o : obj) : obj :=
  mkObj (cls o) (node o) (info o) (children o) (_math_type o) (parent o)
        (is_unnamed o) lc.

(** The interpreter state: both stores and the class attributes of
    [MathObject]. *)
Record state := mkState {
  objs : gmap loc obj;
  dicts : gmap dloc info_dict;
  Variables : gmap string loc;
  constants : gmap (option string) loc;
  number_sets : list string;
  bound_var_counter : Z;
  definition_patterns : list loc;
  implicit_definitions : list string;
  last_used_implicit_definition : option string
}.

Definition with_objs (f : gmap loc obj → gmap loc obj) (s : state) : state :=
  mkState (f (objs s)) (dicts s) (Variables s) (constants s) (number_sets s)
          (bound_var_counter s) (definition_patterns s)
          (implicit_definitions s) (last_used_implicit_definition s).

Definition with_dicts (f : gmap dloc info_dict → gmap dloc info_dict)
    (s : state) : state :=
  mkState (objs s) (f (dicts s)) (Variables s) (constants s) (number_sets s)
          (bound_var_counter s) (definition_patterns s)
          (implicit_definitions s) (last_used_implicit_definition s).

Definition with_Variables (f : gmap string loc → gmap string loc)
    (s : state) : state :=
  mkState (objs s) (dicts s) (f (Variables s)) (constants s) (number_sets s)
          (bound_var_counter s) (definition_patterns s)
          (implicit_definitions s) (last_used_implicit_definition s).

Definition with_constants
    (f : gmap (option string) loc → gmap (option string) loc)
    (s : state) : state :=
  mkState (objs s) (dicts s) (Variables s) (f (constants s)) (number_sets s)
          (bound_var_counter s) (definition_patterns s)
          (implicit_definitions s) (last_used_implicit_definition s).

Definition with_number_sets (f : list string → list string)
    (s : state) : state :=
  mkState (objs s) (dicts s) (Variables s) (constants s) (f (number_sets s))
          (bound_var_counter s) (definition_patterns s)
          (implicit_definitions s) (last_used_implicit_definition s).

Definition with_counter (f : Z → Z) (s : state) : state :=
  mkState (objs s) (dicts s) (Variables s) (constants s) (number_sets s)
          (f (bound_var_counter s)) (definition_patterns s)
          (implicit_definitions s) (last_used_implicit_definition s).

Definition with_last_used (d : option string) (s : state) : state :=
  mkState (objs s) (dicts s) (Variables s) (constants s) (number_sets s)
          (bound_var_counter s) (definition_patterns s)
          (implicit_definitions s) d.

(** ** Exceptions and the state monad *)

Inductive exn :=
  AttributeError | IndexError | KeyError | ValueError | TypeError.

(** [Stuck]: a reference to an identity that is not in the store (no Python
    execution does that); [OutOfFuel]: the recursion bound was reached. *)
Inductive outcome (A : Type) :=
  | Ok (a : A)
  | Raise (e : exn)
  | Stuck
  | OutOfFuel.
Arguments Ok {A} a.
Arguments Raise {A} e.
Arguments Stuck {A}.
Arguments OutOfFuel {A}.

(** A raised exception keeps the mutations done so far. *)
Definition M (A : Type) : Type := state → outcome A * state.

Definition ret {A} (a : A) : M A := λ s, (Ok a, s).
Definition raise {A} (e : exn) : M A := λ s, (Raise e, s).
Definition stuck {A} : M A := λ s, (Stuck, s).
Definition out_of_fuel {A} : M A := λ s, (OutOfFuel, s).

Definition bind {A B} (m : M A) (k : A → M B) : M B :=
  λ s, match m s with
       | (Ok a, s') => k a s'
       | (Raise e, s') => (Raise e, s')
       | (Stuck, s') => (Stuck, s')
       | (OutOfFuel, s') => (OutOfFuel, s')
       end.

Notation "'let!' x ':=' m 'in' k" := (bind m (λ x, k))
  (at level 10, x pattern, m at level 100, k at level 200,
   format "'let!'  x  ':='  m  'in'  '/' k").
Notation "'do!' m 'in' k" := (bind m (λ _, k))
  (at level 10, m at level 100, k at level 200).

Definition get_state : M state := λ s, (Ok s, s).
Definition modify (f : state → state) : M unit := λ s, (Ok tt, f s).

(** [for x in xs: ...] collecting the results (a list comprehension). *)
Fixpoint mapM {A B} (f : A → M B) (xs : list A) : M (list B) :=
  match xs with
  | [] => ret []
  | x :: xs' => let! y := f x in let! ys := mapM f xs' in ret (y :: ys)
  end.

(** Python's [l[i]] for an int [i]: negative indices count from the end. *)
Definition py_index {A} (l : list A) (i : Z) : option A :=
  if (0 <=? i)%Z then l !! Z.to_nat i
  else if (- Z.of_nat (length l) <=? i)%Z
       then l !! Z.to_nat (Z.of_nat (length l) + i)
       else None.

Definition index {A} (l : list A) (i : Z) : M A :=
  match py_index l i with
  | Some a => ret a
  | None => raise IndexError
  end.

(** ** Store access *)

Definition get_obj (l : loc) : M obj :=
  λ s, match objs s !! l with
       | Some o => (Ok o, s)
       | None => (Stuck, s)
       end.

Definition upd_obj (l : loc) (f : obj → obj) : M unit :=
  λ s, match objs s !! l with
       | Some o => (Ok tt, with_objs (<[l := f o]>) s)
       | None => (Stuck, s)
       end.

Definition get_dict (d : dloc) : M info_dict :=
  λ s, match dicts s !! d with
       | Some i => (Ok i, s)
       | None => (Stuck, s)
       end.

Definition upd_dict (d : dloc) (f : info_dict → info_dict) : M unit :=
  λ s, match dicts s !! d with
       | Some i => (Ok tt, with_dicts (<[d := f i]>) s)
       | None => (Stuck, s)
       end.

(** [self.info] of object [l], read and updated in place. *)
Definition get_info (l : loc) : M info_dict :=
  let! o := get_obj l in get_dict (info o).

Definition upd_info (l : loc) (f : info_dict → info_dict) : M unit :=
  let! o := get_obj l in upd_dict (info o) f.

(** ** Module-level constants (math_object.py, after the class body) *)

Definition NO_MATH_TYPE : loc := 0%nat.
Definition NO_MORE_GOALS : loc := 1%nat.
Definition CURRENT_GOAL_SOLVED : loc := 2%nat.
Definition PROP : loc := 3%nat.

Definition NUMBER_SETS_LIST : list string := ["ℕ"; "ℤ"; "ℚ"; "ℝ"].

(** ** Properties and like *)

(** [is_bound_var]: [False] on [MathObject], overridden to [True] on
    [BoundVar]. *)
Definition is_bound_var (l : loc) : M bool :=
  let! o := get_obj l in ret (bool_decide (cls o = BoundVarCls)).

(** The [math_type] property: [None] reads as the sentinel [NO_MATH_TYPE]. *)
Definition math_type (l : loc) : M loc :=
  let! o := get_obj l in ret (default NO_MATH_TYPE (_math_type o)).

Definition is_no_math_type (l : loc) : bool :=
  bool_decide (l = NO_MATH_TYPE).

(** The [name] property: [info.get('name')] on [MathObject], [info['name']]
    on [BoundVar] (a missing key raises). *)
Definition name (l : loc) : M (option string) :=
  let! o := get_obj l in
  let! i := get_dict (info o) in
  match cls o with
  | MathObjectCls => ret (i_name i)
  | BoundVarCls =>
      match i_name i with
      | Some n => ret (Some n)
      | None => raise KeyError
      end
  end.

Definition value (l : loc) : M (option string) :=
  let! i := get_info l in ret (i_value i).

(** Truth value of an optional string: [None] and [''] are false. *)
Definition truthy (s : option string) : bool :=
  match s with
  | Some s' => negb (bool_decide (s' = ""))
  | None => false
  end.

Definition display_name (l : loc) : M string :=
  let! n := name l in
  ret (if truthy n then default "" n else "*no_name*").

(** ** Bound vars methods *)

Definition HAVE_BOUND_VAR_NODES : list string :=
  ["QUANT_∀"; "QUANT_∃"; "QUANT_∃!"; "SET_INTENSION"; "LAMBDA";
   "LOCAL_CONSTANT"].

Definition has_bound_var (l : loc) : M bool :=
  let! o := get_obj l in
  if bool_decide (node o ∈ HAVE_BOUND_VAR_NODES) then
    if bool_decide (length (children o) = 3%nat) then
      let! c := index (children o) 1 in is_bound_var c
    else ret false
  else ret false.

(** A method defined on [BoundVar] only: looking it up on a plain
    [MathObject] raises [AttributeError]. *)
Definition BoundVar_method {A} (l : loc) (m : M A) : M A :=
  let! o := get_obj l in
  match cls o with
  | BoundVarCls => m
  | MathObjectCls => raise AttributeError
  end.

Definition bound_var_nb (l : loc) : M (option Z) :=
  let! i := get_info l in ret (i_bound_var_nb i).

Definition mark_identical_bound_vars (self other : loc) : M unit :=
  do! modify (with_counter (λ c, c + 1)%Z) in
  let! s := get_state in
  do! upd_info self (set_bound_var_nb (Some (bound_var_counter s))) in
  upd_info other (set_bound_var_nb (Some (bound_var_counter s))).

Definition unmark_bound_var (self : loc) : M unit :=
  upd_info self (set_bound_var_nb (Some (-1)%Z)).

(** ** Tests for equality *)

(** [BoundVar.__eq__]. *)
Definition BoundVar_eq (self other : loc) : M bool :=
  if bool_decide (self = other) then ret true
  else
    let! oo := get_obj other in
    match cls oo with
    | BoundVarCls =>
        let! nb := bound_var_nb self in
        if negb (bool_decide (nb = Some (-1)%Z)) then
          let! nb' := bound_var_nb other in
          ret (bool_decide (nb = nb'))
        else
          let! n := name self in
          let! n' := name other in
          ret (bool_decide (n = n'))
    | MathObjectCls => ret false
    end.

(** Python's [a == b] on two objects of these classes: the reflected method
    of the right operand runs first when its class is a proper subclass of
    the left operand's class.  [a != b] is the negation ([object.__ne__]). *)
Definition py_eq_with (MathObject_eq : loc → loc → M bool) (a b : loc)
    : M bool :=
  let! oa := get_obj a in
  let! ob := get_obj b in
  match cls oa, cls ob with
  | MathObjectCls, MathObjectCls => MathObject_eq a b
  | MathObjectCls, BoundVarCls => BoundVar_eq b a
  | BoundVarCls, _ => BoundVar_eq a b
  end.

(** The loop [for child0, child1 in zip(...): if child0 != child1: equal =
    False]: every pair is compared, also after a mismatch. *)
Fixpoint children_loop (eq_ : loc → loc → M bool) (ps : list (loc * loc))
    (equal : bool) : M bool :=
  match ps with
  | [] => ret equal
  | (child0, child1) :: ps' =>
      let! e := eq_ child0 child1 in
      children_loop eq_ ps' (if e then equal else false)
  end.

(** [MathObject.__eq__].  [other] is an object of the store, so the test
    [other is None or not isinstance(other, MathObject)] is false. *)
Fixpoint MathObject_eq (fuel : nat) (self other : loc) {struct fuel}
    : M bool :=
  match fuel with
  | O => out_of_fuel
  | S fuel' =>
    if bool_decide (self = other) then ret true
    else if is_no_math_type self || is_no_math_type other then ret true
    else
      let! o1 := get_obj self in
      let! n1 := name self in
      let! v1 := value self in
      let! o2 := get_obj other in
      let! n2 := name other in
      let! v2 := value other in
      if negb (bool_decide ((node o1, cls o1, n1, v1) = (node o2, cls o2, n2, v2)))
      then ret false
      else
        let! mt1 := math_type self in
        let! mt2 := math_type other in
        let! e := py_eq_with (MathObject_eq fuel') mt1 mt2 in
        if negb e then ret false
        else if negb (bool_decide (length (children o1) = length (children o2)))
        then ret false
        else
          let! hbv := has_bound_var self in
          let! marked :=
            (if hbv then
               let! bound_var_1 := index (children o1) 1 in
               let! bound_var_2 := index (children o2) 1 in
               do! BoundVar_method bound_var_1
                     (mark_identical_bound_vars bound_var_1 bound_var_2) in
               ret (Some (bound_var_1, bound_var_2))
             else ret None) in
          let! equal :=
            children_loop (py_eq_with (MathObject_eq fuel'))
                          (zip (children o1) (children o2)) true in
          do! (match marked with
               | Some (bound_var_1, bound_var_2) =>
                   do! BoundVar_method bound_var_1
                         (unmark_bound_var bound_var_1) in
                   BoundVar_method bound_var_2 (unmark_bound_var bound_var_2)
               | None => ret tt
               end) in
          ret equal
  end.

Definition py_eq (fuel : nat) : loc → loc → M bool :=
  py_eq_with (MathObject_eq fuel).

(** [MathObject.contains].  The loop that prints a debug line calls
    [child.contains(other)] once per child before the sum is computed; its
    calls are kept (they run [__eq__]), the printing is not modelled. *)
Fixpoint contains (fuel : nat) (self other : loc) {struct fuel} : M Z :=
  match fuel with
  | O => out_of_fuel
  | S fuel' =>
    if bool_decide (self = NO_MATH_TYPE) then ret 0%Z
    else
      let! e := MathObject_eq fuel' self other in
      if e then ret 1%Z
      else
        let! o := get_obj self in
        let! _tests := mapM (λ child, contains fuel' child other) (children o) in
        let! counts := mapM (λ child, contains fuel' child other) (children o) in
        ret (foldr Z.add 0%Z counts)
  end.

(** ** Fundamental methods *)

(** Creation of a new object / a new dictionary, with a fresh identity. *)
Definition alloc_obj (o : obj) : M loc :=
  λ s, let l := fresh (dom (objs s)) in (Ok l, with_objs (<[l := o]>) s).

Definition alloc_dict (i : info_dict) : M dloc :=
  λ s, let d := fresh (dom (dicts s)) in (Ok d, with_dicts (<[d := i]>) s).

(** [MathObject.__init__], for an instance of class [c]. *)
Definition MathObject_init (c : class) (node_ : string) (info_ : dloc)
    (children_ : list loc) (math_type_ : option loc) : M loc :=
  let! self := alloc_obj (mkObj c node_ info_ children_ math_type_ None false [])
  in
  let! hbv := has_bound_var self in
  do! (if hbv then
         let! mt := index children_ 0 in
         let! bound_var := index children_ 1 in
         do! upd_obj bound_var (set_parent (Some self)) in
         upd_obj bound_var (set_math_type (Some mt))
       else ret tt) in
  do! (if bool_decide (node_ = "APPLICATION") then
         let! c0 := index children_ 0 in
         let! o0 := get_obj c0 in
         if bool_decide (node o0 = "APPLICATION") then
           let! c1 := index children_ 1 in
           upd_obj self (set_children (children o0 ++ [c1]))
         else ret tt
       else ret tt) in
  ret self.

(** *** BoundVar *)

Definition untouched_bound_var_names : list string :=
  ["RealSubGroup"; "_inst_1"; "_inst_2"; "inst_3"].

Definition lean_name (l : loc) : M (option string) :=
  let! i := get_info l in ret (i_lean_name i).

Definition keep_lean_name (l : loc) : M bool :=
  let! ln := lean_name l in
  match ln with
  | Some s =>
      ret (bool_decide (s ∈ untouched_bound_var_names) || String.prefix "_inst_" s)
  | None => raise AttributeError
  end.

Definition name_bound_var (l : loc) (n : option string) : M unit :=
  do! upd_info l (set_name n) in
  upd_obj l (set_is_unnamed false).

Definition set_unnamed_bound_var (l : loc) : M unit :=
  let! i := get_info l in
  let lean_name0 := default "" (i_name i) in
  let lean_name1 :=
    if bool_decide (lean_name0 ∈ ["NO NAME"; "*no_name*"]) then "" else lean_name0
  in
  do! upd_info l (λ i, set_bound_var_nb (Some (-1)%Z)
                         (set_lean_name (Some lean_name1)
                            (set_name (Some "NO NAME") i))) in
  upd_obj l (set_is_unnamed true).

(** [BoundVar.__init__]. *)
Definition BoundVar_init (node_ : string) (info_ : dloc)
    (children_ : list loc) (math_type_ : option loc) (parent_ : option loc)
    : M loc :=
  let! self := MathObject_init BoundVarCls node_ info_ children_ math_type_ in
  do! upd_obj self (set_parent parent_) in
  do! upd_obj self (set_is_unnamed true) in
  do! set_unnamed_bound_var self in
  let! keep := keep_lean_name self in
  do! (if keep then
         let! ln := lean_name self in name_bound_var self ln
       else ret tt) in
  do! upd_obj self (set_local_context_field []) in
  ret self.

(** [BoundVar.from_math_type]. *)
Definition from_math_type (math_type_ : loc) (parent_ : option loc) : M loc :=
  let parent1 := match parent_ with None => NO_MATH_TYPE | Some p => p end in
  let! info_ := alloc_dict (set_lean_name (Some "")
                              (set_name (Some "NO NAME") empty_info)) in
  BoundVar_init "LOCAL_CONSTANT" info_ [] (Some math_type_) (Some parent1).

(** [MathObject.application] and [MathObject.lambda_]. *)
Definition application (function var : loc) : M loc :=
  let! fmt := math_type function in
  let! fmto := get_obj fmt in
  let! target := index (children fmto) 1 in
  let! info_ := alloc_dict empty_info in
  MathObject_init MathObjectCls "APPLICATION" info_ [function; var] (Some target).

Definition lambda_ (var body math_type_ : loc) : M loc :=
  let! vmt := math_type var in
  let! info_ := alloc_dict empty_info in
  let! lam := MathObject_init MathObjectCls "LAMBDA" info_ [vmt; var; body]
                              (Some math_type_) in
  do! upd_obj var (set_parent (Some lam)) in
  ret lam.

(** ** Tests for math_type *)

Definition is_prop (l : loc) (is_math_type : bool) : M bool :=
  let! mt := (if is_math_type then ret l else math_type l) in
  let! o := get_obj mt in ret (bool_decide (node o = "PROP")).

Definition is_type (l : loc) (is_math_type : bool) : M bool :=
  let! mt := (if is_math_type then ret l else math_type l) in
  let! o := get_obj mt in ret (bool_decide (node o = "TYPE")).

Definition is_variable (l : loc) (is_math_type : bool) : M bool :=
  let! mt := (if is_math_type then ret l else math_type l) in
  let! o := get_obj mt in
  if bool_decide (node o = "LOCAL_CONSTANT") then
    let! mtmt := math_type mt in
    let! p := is_prop mtmt false in
    if p then ret false
    else
      let! t := is_type mtmt true in
      if t then ret false
      else ret (negb (is_no_math_type mtmt))
  else ret false.

Definition is_sequence (l : loc) (is_math_type : bool) : M bool :=
  let! mt := (if is_math_type then ret l else math_type l) in
  let! o := get_obj mt in ret (bool_decide (node o = "SEQUENCE")).

Definition is_set_family (l : loc) (is_math_type : bool) : M bool :=
  let! mt := (if is_math_type then ret l else math_type l) in
  let! o := get_obj mt in ret (bool_decide (node o = "SET_FAMILY")).

(** [a or b] and [a and b] on method calls: the right operand is evaluated
    only when needed. *)
Definition orM (a b : M bool) : M bool :=
  let! x := a in if x then ret true else b.
Definition andM (a b : M bool) : M bool :=
  let! x := a in if x then b else ret false.

(** One round of the loop of part (2) of [process_sequences_and_likes]. *)
Definition replace_child_sequence (self : loc) (idx : nat) : M unit :=
  let! o := get_obj self in
  let! child := index (children o) (Z.of_nat idx) in
  let! cond :=
    andM (is_variable child true)
         (andM (orM (is_sequence child false) (is_set_family child false))
               (let! b := is_bound_var child in ret (negb b))) in
  if cond then
    let! cmt := math_type child in
    let! cmto := get_obj cmt in
    let! var_type := index (children cmto) 0 in
    let! var := from_math_type var_type None in
    let! body := application child var in
    let! lam := lambda_ var body cmt in
    upd_obj self (λ o, set_children (<[idx := lam]> (children o)) o)
  else ret tt.

Fixpoint forM_ {A} (f : A → M unit) (xs : list A) : M unit :=
  match xs with
  | [] => ret tt
  | x :: xs' => do! f x in forM_ f xs'
  end.

Definition process_sequences_and_likes (self : loc) : M unit :=
  let! c1 :=
    andM (orM (is_variable self true) (is_bound_var self))
         (orM (is_sequence self false) (is_set_family self false)) in
  do! (if c1 then
         let! o := get_obj self in
         match children o with
         | [] =>
             let! mt := math_type self in
             let! mto := get_obj mt in
             let! bound_var_type := index (children mto) 0 in
             let! bound_var := from_math_type bound_var_type (Some self) in
             upd_obj self (set_children [bound_var_type; bound_var; PROP])
         | _ => ret tt
         end
       else ret tt) in
  let! o := get_obj self in
  if bool_decide (node o ∈ ["APPLICATION"; "LAMBDA"]) then ret tt
  else forM_ (replace_child_sequence self) (seq 0 (length (children o))).

(** ** The registries *)

(** [list.index(x)]: position of the first occurrence, [ValueError] if
    there is none. *)
Fixpoint list_index (l : list string) (x : string) : option nat :=
  match l with
  | [] => None
  | y :: l' => if bool_decide (x = y) then Some 0%nat
               else S <$> list_index l' x
  end.

Definition index_in (l : list string) (x : string) : M nat :=
  match list_index l x with
  | Some i => ret i
  | None => raise ValueError
  end.

(** [cls.number_sets[i] = v]. *)
Definition number_sets_setitem (i : nat) (v : string) : M unit :=
  let! s := get_state in
  if bool_decide (i < length (number_sets s))%nat
  then modify (with_number_sets (<[i := v]>))
  else raise IndexError.

(** The [while counter > 0] loop of [add_numbers_set]. *)
Fixpoint add_numbers_set_loop (name_ : string) (counter : nat) : M unit :=
  match counter with
  | O => ret tt
  | S counter' =>
      let! s := get_state in
      let! old_item := index (number_sets s) (Z.of_nat counter') in
      let! i := index_in NUMBER_SETS_LIST name_ in
      let! j := index_in NUMBER_SETS_LIST old_item in
      if bool_decide (i < j)%nat then
        do! number_sets_setitem counter old_item in
        do! number_sets_setitem counter' name_ in
        add_numbers_set_loop name_ counter'
      else ret tt
  end.

Definition add_numbers_set (name_ : string) : M unit :=
  let! s := get_state in
  if bool_decide (name_ ∈ NUMBER_SETS_LIST)
     && negb (bool_decide (name_ ∈ number_sets s))
  then
    do! modify (with_number_sets (λ l, l ++ [name_])) in
    let! s' := get_state in
    add_numbers_set_loop name_ (length (number_sets s') - 1)
  else ret tt.

(** [MathObject.clear]. *)
Definition clear : M unit :=
  do! modify (with_Variables (λ _, ∅)) in
  do! modify (with_number_sets (λ _, [])) in
  modify (with_counter (λ _, 0%Z)).

(** Python's [s.endswith(suffix)] and [s[:-n]] (for [n <= len(s)]). *)
Definition endswith (s suffix : string) : bool :=
  bool_decide (String.length suffix ≤ String.length s)%nat &&
  bool_decide (String.substring (String.length s - String.length suffix)
                                (String.length suffix) s = suffix).

Definition drop_last (n : nat) (s : string) : string :=
  String.substring 0 (String.length s - n) s.

(** [MathObject.from_info_and_children], called on the class [MathObject].
    [info_] is the dictionary handed over by the parser; it is updated in
    place and becomes the [info] of a new object. *)
Definition from_info_and_children (info_ : dloc) (children_ : list loc)
    : M loc :=
  (* (0) Name and math_type *)
  let! i0 := get_dict info_ in
  let! node_ := (match i_node_name i0 with
                 | Some n => ret n
                 | None => raise KeyError
                 end) in
  do! upd_dict info_ pop_node_name in
  let math_type_ := i_math_type i0 in
  let! math_object :=
    (* (1) Treatment of constants *)
    (if bool_decide (node_ = "CONSTANT") then
       let name_ := i_name i0 in
       let! s := get_state in
       match (if truthy name_ then constants s !! name_ else None) with
       | Some cached => ret cached
       | None =>
           let! mo := MathObject_init MathObjectCls node_ info_ children_
                                      math_type_ in
           do! modify (with_constants (<[name_ := mo]>)) in
           ret mo
       end
     (* (2) Treatment of global variables: avoiding duplicate *)
     else match i_identifier i0 with
     | Some identifier =>
         let! s := get_state in
         match Variables s !! identifier with
         | Some cached => ret cached
         | None =>
             let name_ := i_name i0 in
             let! mo :=
               (if truthy name_ && endswith (default "" name_) ".BoundVar"
                then
                  do! upd_dict info_
                        (set_name (Some (drop_last (String.length ".BoundVar")
                                                   (default "" name_)))) in
                  BoundVar_init node_ info_ children_ math_type_ None
                else
                  MathObject_init MathObjectCls node_ info_ children_
                                  math_type_) in
             do! modify (with_Variables (<[identifier := mo]>)) in
             ret mo
         end
     (* (3) Generic instantiation *)
     | None =>
         MathObject_init MathObjectCls node_ info_ children_ math_type_
     end) in
  (* (4) Detect sets of numbers *)
  let! dn := display_name math_object in
  do! add_numbers_set dn in
  (* (5) Special treatment for sequences and set families *)
  do! process_sequences_and_likes math_object in
  ret math_object.

(** ** Descendants *)

(** The argument of [descendant]: an [int], or a tuple or list of ints. *)
Inductive line_of_descent :=
  | LInt (i : Z)
  | LSeq (path : list Z).

Fixpoint descendant_seq (self : loc) (path : list Z) : M (option loc) :=
  match path with
  | [] => raise ValueError
  | child_number :: remaining =>
      let! o := get_obj self in
      if bool_decide (Z.of_nat (length (children o)) ≤ child_number)%Z
      then ret None
      else
        let! child := index (children o) child_number in
        match remaining with
        | [] => ret (Some child)
        | _ => descendant_seq child remaining
        end
  end.

Definition descendant (self : loc) (l : line_of_descent) : M (option loc) :=
  match l with
  | LInt i =>
      let! o := get_obj self in
      let! child := index (children o) i in
      ret (Some child)
  | LSeq path => descendant_seq self path
  end.

(** ** Implicit definitions methods *)

Section ImplicitDefinitions.

(** The methods [match] and [apply_matching] of the pattern objects are
    defined with the class [PatternMathObject], in another module; they
    are parameters here. *)
Variable pattern_match : loc → loc → M bool.
Variable apply_matching : loc → M loc.

(** The loop of [unfold_implicit_definition] over
    [range(len(definition_patterns))]. *)
Fixpoint unfold_loop (self : loc) (idx : nat) (patterns : list loc)
    (rw_math_objects : list loc) : M (list loc) :=
  match patterns with
  | [] => ret rw_math_objects
  | pattern :: rest =>
      let! po := get_obj pattern in
      let! pattern_left := index (children po) 0 in
      let! pattern_right := index (children po) 1 in
      let! m := pattern_match pattern_left self in
      let! rws :=
        (if m then
           let! s := get_state in
           let! definition := index (implicit_definitions s) (Z.of_nat idx) in
           do! modify (with_last_used (Some definition)) in
           let! rw_math_object := apply_matching pattern_right in
           ret (rw_math_objects ++ [rw_math_object])
         else ret rw_math_objects) in
      unfold_loop self (S idx) rest rws
  end.

Definition unfold_implicit_definition (self : loc) : M (list loc) :=
  let! s := get_state in
  unfold_loop self 0 (definition_patterns s) [].

Fixpoint unfold_implicit_definition_recursively (fuel : nat) (self : loc)
    {struct fuel} : M loc :=
  match fuel with
  | O => out_of_fuel
  | S fuel' =>
      (* (1) Unfold definitions at top level *)
      let! rw_math_objects := unfold_implicit_definition self in
      let math_object := match rw_math_objects with
                         | [] => self
                         | rw :: _ => rw
                         end in
      (* (2) Unfold definitions recursively for children *)
      let! o := get_obj math_object in
      let! rw_children :=
        mapM (unfold_implicit_definition_recursively fuel') (children o) in
      (* (3) Create new object with all defs unfolded *)
      let! o' := get_obj math_object in
      let! mt := math_type math_object in
      MathObject_init MathObjectCls (node o') (info o') rw_children (Some mt)
  end.

End ImplicitDefinitions.

(** ** The state after the module is loaded *)

Definition constant_obj (node_ : string) (info_ : dloc) : obj :=
  mkObj MathObjectCls node_ info_ [] None None false [].

Definition initial_state : state :=
  mkState
    (<[NO_MATH_TYPE := constant_obj "not provided" 0]>
       (<[NO_MORE_GOALS := constant_obj "NO_MORE_GOAL" 1]>
          (<[CURRENT_GOAL_SOLVED := constant_obj "CURRENT_GOAL_SOLVED" 2]>
             (<[PROP := constant_obj "PROP" 3]> ∅))))
    (<[0%nat := empty_info]> (<[1%nat := empty_info]>
       (<[2%nat := empty_info]> (<[3%nat := empty_info]> ∅))))
    ∅ ∅ [] 0%Z [] [] None.

(** A parser record: a new [info] dictionary with the given entries. *)
Definition new_info (node_name_ : string) (name_ identifier_ : option string)
    : M dloc :=
  alloc_dict (mkInfo (Some node_name_) None name_ identifier_ None None None).

(** ** Example sessions *)

(** A session that has met the constant [ℝ]. *)
Definition session_with_constant : M loc :=
  let! d := alloc_dict (mkInfo (Some "CONSTANT") None (Some "ℝ") None None
                               None None) in
  from_info_and_children d [].

(** Two unnamed bound variables of type [PROP]; the first one carries the
    match tag 1, as it does while the binder above it is being compared. *)
Definition session_with_tagged_bound_var : M (loc * loc) :=
  let! v := from_math_type PROP None in
  let! w := from_math_type PROP None in
  do! upd_info v (set_bound_var_nb (Some 1%Z)) in
  ret (v, w).

(** [self.children], read after a construction. *)
Definition get_children (l : loc) : M (list loc) :=
  let! o := get_obj l in ret (children o).

(** A new object of class [MathObject] with an empty [info]. *)
Definition new_MathObject (node_ : string) (children_ : list loc) : M loc :=
  let! d := alloc_dict empty_info in
  MathObject_init MathObjectCls node_ d children_ None.

(** [App(App(f, x), y)] against the application built with three children. *)
Definition nested_application (f x y : loc) : M (list loc) :=
  let! inner := new_MathObject "APPLICATION" [f; x] in
  let! outer := new_MathObject "APPLICATION" [inner; y] in
  get_children outer.

Definition flat_application (f x y : loc) : M (list loc) :=
  let! app := new_MathObject "APPLICATION" [f; x; y] in
  get_children app.

(** [x] comes before [y] in the list [L] (both are in it). *)
Definition index_lt (L : list string) (x y : string) : Prop :=
  ∃ i j, list_index L x = Some i ∧ list_index L y = Some j ∧ (i < j)%nat.

(** The order of the chain ℕ ⊂ ℤ ⊂ ℚ ⊂ ℝ on names. *)
Definition chain_lt : string → string → Prop := index_lt NUMBER_SETS_LIST.

Definition set_number_sets (l : list string) : state → state :=
  with_number_sets (λ _, l).

(** ** Vocabulary of the statements *)

(** A computation that never changes the state. *)
Definition pure {A} (m : M A) : Prop := ∀ s r s', m s = (r, s') → s' = s.

(** What a comparison may leave behind: the two stores of objects and the
    tables are as before, the counter did not decrease, and a dictionary
    either is as before or differs from its former content by the entry
    ['bound_var_nb'], now the default [-1]. *)
Definition tags_reset (s s' : state) : Prop :=
  objs s' = objs s ∧
  Variables s' = Variables s ∧
  constants s' = constants s ∧
  number_sets s' = number_sets s ∧
  (bound_var_counter s ≤ bound_var_counter s')%Z ∧
  ∀ d, dicts s' !! d = dicts s !! d ∨
       dicts s' !! d = set_bound_var_nb (Some (-1)%Z) <$> dicts s !! d.

(** The session of two universal statements [∀x:X, P] and [∀y:X, P], as the
    parser delivers them: objects 8 and 9, bound variables 5 and 6. *)
Definition session_forall_forall : M (loc * loc) :=
  let! dX := new_info "LOCAL_CONSTANT" (Some "X") (Some "id1") in
  let! X := from_info_and_children dX [] in
  let! dx := new_info "LOCAL_CONSTANT" (Some "x.BoundVar") (Some "id2") in
  let! x := from_info_and_children dx [] in
  let! dy := new_info "LOCAL_CONSTANT" (Some "y.BoundVar") (Some "id3") in
  let! y := from_info_and_children dy [] in
  let! dP := new_info "LOCAL_CONSTANT" (Some "P") (Some "id4") in
  let! P := from_info_and_children dP [] in
  let! d1 := new_info "QUANT_∀" None None in
  let! a := from_info_and_children d1 [X; x; P] in
  let! d2 := new_info "QUANT_∀" None None in
  let! b := from_info_and_children d2 [X; y; P] in
  ret (a, b).

(** Two nested universal statements [∀u:X, ∀x:X, P] and [∀v:X, ∀z:X, P]
    where, in the second one, the inner variable [z] reached the constructor
    without the bound-variable marker and is a plain [MathObject]. *)
Definition session_unmarked_bound_var : M (loc * loc * loc * loc) :=
  let! dX := new_info "LOCAL_CONSTANT" (Some "X") (Some "id1") in
  let! X := from_info_and_children dX [] in
  let! dP := new_info "LOCAL_CONSTANT" (Some "P") (Some "id2") in
  let! P := from_info_and_children dP [] in
  let! du := new_info "LOCAL_CONSTANT" (Some "u.BoundVar") (Some "id3") in
  let! u := from_info_and_children du [] in
  let! dx := new_info "LOCAL_CONSTANT" (Some "x.BoundVar") (Some "id4") in
  let! x := from_info_and_children dx [] in
  let! dv := new_info "LOCAL_CONSTANT" (Some "v.BoundVar") (Some "id5") in
  let! v := from_info_and_children dv [] in
  let! dz := new_info "LOCAL_CONSTANT" (Some "z") (Some "id6") in
  let! z := from_info_and_children dz [] in
  let! d1 := new_info "QUANT_∀" None None in
  let! a1 := from_info_and_children d1 [X; x; P] in
  let! d2 := new_info "QUANT_∀" None None in
  let! a := from_info_and_children d2 [X; u; a1] in
  let! d3 := new_info "QUANT_∀" None None in
  let! b1 := from_info_and_children d3 [X; z; P] in
  let! d4 := new_info "QUANT_∀" None None in
  let! b := from_info_and_children d4 [X; v; b1] in
  ret (a, b, u, v).

(** [contains] as the specification words it: 0 on the sentinel, otherwise
    1 if the root matches, plus the sum over all children. *)
Fixpoint contains_as_specified (fuel : nat) (self other : loc) {struct fuel}
    : M Z :=
  match fuel with
  | O => out_of_fuel
  | S fuel' =>
    if bool_decide (self = NO_MATH_TYPE) then ret 0%Z
    else
      let! e := MathObject_eq fuel' self other in
      let! o := get_obj self in
      let! counts :=
        mapM (λ child, contains_as_specified fuel' child other) (children o) in
      ret ((if e then 1 else 0) + foldr Z.add 0 counts)%Z
  end.

(** A term with one child, the constant [PROP]: object 4. *)
Definition session_with_child : M loc :=
  new_MathObject "PROP_NOT" [PROP].

(** A computation whose successful runs relate the state before and the
    state after by [R]. *)
Definition preserves {A} (R : relation state) (m : M A) : Prop :=
  ∀ s a s', m s = (Ok a, s') → R s s'.

(** The objects of [s] are still there in [s'], of the same class, with the
    same node and the same [info] dictionary. *)
Definition obj_kinds_kept (s s' : state) : Prop :=
  ∀ l o, objs s !! l = Some o →
         ∃ o', objs s' !! l = Some o' ∧
               cls o' = cls o ∧ node o' = node o ∧ info o' = info o.

(** Between [s] and [s'] the objects kept their kind, the two registries
    are the same, and no dictionary outside of [D] was written. *)
Definition frame (D : gset dloc) (s s' : state) : Prop :=
  obj_kinds_kept s s' ∧
  Variables s' = Variables s ∧
  constants s' = constants s ∧
  ∀ d i, d ∉ D → dicts s !! d = Some i → dicts s' !! d = Some i.

(** The dictionaries are the same in [s] and [s']. *)
Definition dicts_same (s s' : state) : Prop := dicts s' = dicts s.

(** The lean name kept by [set_unnamed_bound_var] for a dictionary. *)
Definition lean_name_of (i : info_dict) : string :=
  let n := default "" (i_name i) in
  if bool_decide (n ∈ ["NO NAME"; "*no_name*"]) then "" else n.

(** Two parser records with the same identifier, one after the other. *)
Definition two_records (node1 node2 : string) (name1 name2 : option string)
    (identifier : string) : M (loc * loc) :=
  let! d1 := new_info node1 name1 (Some identifier) in
  let! l1 := from_info_and_children d1 [] in
  let! d2 := new_info node2 name2 (Some identifier) in
  let! l2 := from_info_and_children d2 [] in
  ret (l1, l2).

(** Everything that exists in [s] is unchanged in [s'] (new objects and
    dictionaries may have been created), and the lists of definitions are
    the same. *)
Definition kept (s s' : state) : Prop :=
  objs s ⊆ objs s' ∧ dicts s ⊆ dicts s' ∧
  definition_patterns s' = definition_patterns s ∧
  implicit_definitions s' = implicit_definitions s.


(** A term of height at most [n], without bound variable, in which no
    definition matches: all its objects are plain [MathObject]s of the
    store, with their dictionary and their type; an application has a
    first child, which is not an application; and [unfold] (the method
    [unfold_implicit_definition]) finds nothing at any node, also after new
    objects have been created. *)
Fixpoint quiet_tree (unfold : loc → M (list loc)) (n : nat) (s : state)
    (t : loc) : Prop :=
  match n with
  | O => False
  | S n' =>
      ∃ o, objs s !! t = Some o ∧ cls o = MathObjectCls ∧
           is_Some (dicts s !! info o) ∧
           is_Some (objs s !! default NO_MATH_TYPE (_math_type o)) ∧
           (node o = "APPLICATION" →
            ∃ c0 o0, children o !! 0%nat = Some c0 ∧
                     objs s !! c0 = Some o0 ∧ node o0 ≠ "APPLICATION") ∧
           (∀ s', kept s s' → unfold t s' = (Ok [], s')) ∧
           Forall (quiet_tree unfold n' s) (children o)
  end.

Definition no_apply_matching : loc → M loc := λ pattern, ret pattern.

(** [l] is an object of class [MathObject], not a [BoundVar]. *)
Definition is_plain (s : state) (l : loc) : Prop :=
  ∃ o, objs s !! l = Some o ∧ cls o = MathObjectCls.

(** A stand-in for the pattern methods, for the examples: a pattern matches
    the terms that have its node, and applying it gives the pattern. *)
Definition match_node (pattern t : loc) : M bool :=
  let! po := get_obj pattern in
  let! o := get_obj t in
  ret (bool_decide (node po = node o)).

Definition with_definitions (patterns : list loc) (definitions : list string)
    (s : state) : state :=
  mkState (objs s) (dicts s) (Variables s) (constants s) (number_sets s)
          (bound_var_counter s) patterns definitions
          (last_used_implicit_definition s).

(** The term [¬PROP] (object 4) and two definitions whose left-hand sides
    are negations; their right-hand sides are the objects 6 and 9. *)
Definition session_two_definitions : M loc :=
  let! t := new_MathObject "PROP_NOT" [PROP] in
  let! left1 := new_MathObject "PROP_NOT" [] in
  let! right1 := new_MathObject "PROP_FALSE" [] in
  let! pattern1 := new_MathObject "PROP_IFF" [left1; right1] in
  let! left2 := new_MathObject "PROP_NOT" [] in
  let! right2 := new_MathObject "PROP_IMPLIES" [PROP; PROP] in
  let! pattern2 := new_MathObject "PROP_IFF" [left2; right2] in
  do! modify (with_definitions [pattern1; pattern2] ["def1"; "def2"]) in
  ret t.

(** ** Further methods of [MathObject] *)

(** [MathObject.duplicate]: [copy(self.info)] makes a new dictionary with
    the same entries; the new object is built by the constructor of
    [MathObject], whatever the class of [self]. *)
Definition duplicate (self : loc) : M loc :=
  let! i := get_info self in
  let! new_info_ := alloc_dict i in
  let! o := get_obj self in
  let! mt := math_type self in
  MathObject_init MathObjectCls (node o) new_info_ (children o) (Some mt).

(** The properties [bound_var_type], [bound_var] and [body]: the child of
    rank 0, 1, 2 if [has_bound_var()], else [None]. *)
Definition child_if_has_bound_var (self : loc) (rank : Z) : M (option loc) :=
  let! h := has_bound_var self in
  if h then
    let! o := get_obj self in
    let! c := index (children o) rank in
    ret (Some c)
  else ret None.

Definition bound_var_type (self : loc) : M (option loc) :=
  child_if_has_bound_var self 0.
Definition bound_var (self : loc) : M (option loc) :=
  child_if_has_bound_var self 1.
Definition body (self : loc) : M (option loc) :=
  child_if_has_bound_var self 2.

(** [give_name] and [has_name]. *)
Definition give_name (self : loc) (name_ : string) : M unit :=
  upd_info self (set_name (Some name_)).

Definition has_name (self : loc) (name_ : string) : M bool :=
  let! dn := display_name self in ret (bool_decide (dn = name_)).

(** ** Further tests for math_type *)

(** The first lines of every test:
    [math_type = self if is_math_type else self.math_type]. *)
Definition tested (self : loc) (is_math_type : bool) : M loc :=
  if is_math_type then ret self else math_type self.

(** [return math_type.node in nodes] ([==] for a single node). *)
Definition node_in (nodes : list string) (self : loc) (is_math_type : bool)
    : M bool :=
  let! mt := tested self is_math_type in
  let! o := get_obj mt in
  ret (bool_decide (node o ∈ nodes)).

Definition is_lambda := node_in ["LAMBDA"].
Definition is_function := node_in ["FUNCTION"].
Definition is_equality := node_in ["PROP_EQUAL"].
Definition is_non_equality := node_in ["PROP_EQUAL_NOT"].
Definition is_iff := node_in ["PROP_IFF"].
Definition is_false := node_in ["PROP_FALSE"].

Definition INEQUALITIES : list string :=
  ["PROP_<"; "PROP_>"; "PROP_≤"; "PROP_≥"; "PROP_EQUAL_NOT"].
Definition is_inequality := node_in INEQUALITIES.

Definition is_not :=
  node_in ["PROP_NOT"; "PROP_NOT_BELONGS"; "PROP_EQUAL_NOT"].

(** The tests wrapped by [allow_implicit_use], as they are called with
    [implicit=False] (the default): the wrapper then returns
    [test(math_object, is_math_type)]. *)
Definition is_and := node_in ["PROP_AND"; "PROP_∃"].
Definition is_or := node_in ["PROP_OR"].
Definition is_implication := node_in ["PROP_IMPLIES"].
Definition is_exists := node_in ["QUANT_∃"; "QUANT_∃!"].
Definition is_for_all := node_in ["QUANT_∀"].

Definition is_nat (self : loc) (is_math_type : bool) : M bool :=
  let! mt := tested self is_math_type in
  let! o := get_obj mt in
  if bool_decide (node o = "CONSTANT") then
    let! i := get_dict (info o) in
    match i_name i with
    | Some n => ret (bool_decide (n = "ℕ"))
    | None => raise KeyError
    end
  else ret false.

Definition is_atomic_belong (self : loc) (is_math_type : bool) : M bool :=
  let! mt := tested self is_math_type in
  let! o := get_obj mt in
  if bool_decide (node o = "PROP_BELONGS") then
    let! c := index (children o) 1 in
    let! oc := get_obj c in
    ret (bool_decide (node oc = "LOCAL_CONSTANT"))
  else ret false.

Definition premise (self : loc) (is_math_type : bool) : M (option loc) :=
  let! mt := tested self is_math_type in
  let! imp := is_implication self is_math_type in
  if imp then
    let! o := get_obj mt in
    let! c := index (children o) 0 in
    ret (Some c)
  else ret None.

Definition is_quantifier (self : loc) (is_math_type : bool) : M bool :=
  let! mt := tested self is_math_type in
  orM (is_exists mt true) (is_for_all mt true).

Definition is_subset (self : loc) : M bool :=
  let! mt := math_type self in
  let! o := get_obj mt in
  ret (bool_decide (node o = "SET")).

Definition is_set_equality (self : loc) (is_math_type : bool) : M bool :=
  let! e := is_equality self is_math_type in
  if negb e then ret false
  else
    let! mt := tested self is_math_type in
    let! o := get_obj mt in
    let! c := index (children o) 0 in
    is_subset c.

(** [is_instance] reads [self.info.get("name")], not the [name] property. *)
Definition is_instance (self : loc) : M bool :=
  let! i := get_info self in
  ret (truthy (i_name i) && String.prefix "_inst_" (default "" (i_name i))).

Definition concerns_numbers (self : loc) : M bool :=
  let! c :=
    orM (is_equality self true)
        (orM (is_inequality self true) (is_non_equality self true)) in
  if c then
    let! o := get_obj self in
    let! c0 := index (children o) 0 in
    let! mt := math_type c0 in
    let! name_ := display_name mt in
    ret (bool_decide (name_ ∈ NUMBER_SETS_LIST))
  else ret false.

Definition is_N (self : loc) : M bool :=
  let! dn := display_name self in ret (bool_decide (dn = "ℕ")).
Definition is_Z (self : loc) : M bool :=
  let! dn := display_name self in ret (bool_decide (dn = "ℤ")).
Definition is_Q (self : loc) : M bool :=
  let! dn := display_name self in ret (bool_decide (dn = "ℚ")).
Definition is_R (self : loc) : M bool :=
  let! dn := display_name self in
  if bool_decide (dn = "ℝ") then ret true
  else let! dn' := display_name self in ret (bool_decide (dn' = "RealSubGroup")).

(** [any([self.is_N(), self.is_Z(), self.is_Q(), self.is_R()])]: the four
    tests are run before [any] looks at them. *)
Definition is_number (self : loc) : M bool :=
  let! n := is_N self in
  let! z := is_Z self in
  let! q := is_Q self in
  let! r := is_R self in
  ret (n || z || q || r).

Definition is_application (self : loc) : M bool :=
  let! o := get_obj self in ret (bool_decide (node o = "APPLICATION")).

Definition is_constant (self : loc) : M bool :=
  let! o := get_obj self in ret (bool_decide (node o = "CONSTANT")).

Definition CONSTANT_IMPLICIT_ARGS : list string :=
  ["real.decidable_linear_order"].

Definition is_implicit_arg (self : loc) : M bool :=
  let! o := get_obj self in
  if bool_decide (node o = "TYPE") then ret true
  else
    andM (is_constant self)
         (let! dn := display_name self in
          ret (bool_decide (dn ∈ CONSTANT_IMPLICIT_ARGS))).

Definition which_number_set (self : loc) (is_math_type : bool)
    : M (option string) :=
  let! mt := tested self is_math_type in
  let! name_ := display_name mt in
  let! o := get_obj mt in
  if bool_decide (node o = "CONSTANT")
     && bool_decide (name_ ∈ ["ℕ"; "ℤ"; "ℚ"; "ℝ"])
  then ret (Some name_)
  else ret None.
(** ** Negation methods *)

(** Python's [s.replace(old, new)] for a non-empty [old]: the occurrences
    are replaced from left to right, without overlap. *)
Fixpoint str_replace_from (fuel : nat) (old new s : string) : string :=
  match fuel with
  | O => s
  | S fuel' =>
      if String.prefix old s then
        new +:+ str_replace_from fuel' old new
                  (String.substring (String.length old)
                     (String.length s - String.length old) s)
      else match s with
           | EmptyString => EmptyString
           | String c s' => String c (str_replace_from fuel' old new s')
           end
  end.

Definition str_replace (old new s : string) : string :=
  str_replace_from (S (String.length s)) old new s.

Definition body_of_negation (self : loc) : M (option loc) :=
  let! o := get_obj self in
  if bool_decide (node o = "PROP_NOT") then
    let! c := index (children o) 0 in
    ret (Some c)
  else if bool_decide (node o ∈ ["PROP_NOT_BELONGS"; "PROP_EQUAL_NOT"]) then
    let not_not_node := str_replace "_NOT" "" (node o) in
    let! mt := math_type self in
    let! b := MathObject_init MathObjectCls not_not_node (info o) (children o)
                              (Some mt) in
    ret (Some b)
  else ret None.

(** The seven tests are run, then [any] looks at them. *)
Definition is_simplifiable_body_of_neg (self : loc) (is_math_type : bool)
    : M bool :=
  let! t1 := is_not self is_math_type in
  let! t2 := is_for_all self is_math_type in
  let! t3 := is_exists self is_math_type in
  let! t4 := is_and self is_math_type in
  let! t5 := is_or self is_math_type in
  let! t6 := is_implication self is_math_type in
  let! t7 := is_inequality self is_math_type in
  ret (t1 || t2 || t3 || t4 || t5 || t6 || t7).

(** [for child in children: body = f(child); if body: return body], and
    [None] when the loop ends. *)
Fixpoint first_found (f : loc → M (option loc)) (cs : list loc)
    : M (option loc) :=
  match cs with
  | [] => ret None
  | child :: cs' =>
      let! b := f child in
      match b with
      | Some b' => ret (Some b')
      | None => first_found f cs'
      end
  end.

Fixpoint first_pushable_body_of_neg (fuel : nat) (self : loc)
    (is_math_type : bool) {struct fuel} : M (option loc) :=
  match fuel with
  | O => out_of_fuel
  | S fuel' =>
      let! mt := tested self is_math_type in
      (* (1) Self is a negation *)
      let! neg := is_not mt true in
      let! found :=
        (if neg then
           let! b := body_of_negation mt in
           match b with
           | Some b' =>
               let! simp := is_simplifiable_body_of_neg b' true in
               ret (if simp then Some b' else None)
           | None => raise AttributeError
           end
         else ret None) in
      match found with
      | Some b' => ret (Some b')
      | None =>
          (* Explore children *)
          let! o := get_obj mt in
          first_found (λ child, first_pushable_body_of_neg fuel' child true)
                      (children o)
      end
  end.

(** ** Some important classes of MathObjects *)

Fixpoint can_be_used_for_substitution (fuel : nat) (self : loc)
    (is_math_type : bool) {struct fuel} : M (bool * option loc) :=
  match fuel with
  | O => out_of_fuel
  | S fuel' =>
      let! mt := tested self is_math_type in
      let! e := orM (is_equality mt true) (is_iff mt true) in
      if e then ret (true, Some mt)
      else
        let! fa := is_for_all mt true in
        if fa then
          let! o := get_obj mt in
          let! body_ := index (children o) 2 in
          can_be_used_for_substitution fuel' body_ true
        else ret (false, None)
  end.

Fixpoint can_be_used_for_implication (fuel : nat) (self : loc)
    (is_math_type : bool) {struct fuel} : M bool :=
  match fuel with
  | O => out_of_fuel
  | S fuel' =>
      let! mt := tested self is_math_type in
      let! imp := is_implication mt true in
      if imp then ret true
      else
        let! fa := is_for_all mt true in
        if fa then
          let! o := get_obj mt in
          let! body_ := index (children o) 2 in
          can_be_used_for_implication fuel' body_ true
        else ret false
  end.

(** [is_belongs_or_included]: the set, or [None] for [False].  On
    ['PROP_INCLUDED'] the call [MathObject(node="SET", children=[sup_set])]
    lacks the required argument [info] of [__init__]: Python raises
    [TypeError] before the body of the constructor runs. *)
Definition is_belongs_or_included (self : loc) (is_math_type : bool)
    : M (option loc) :=
  let! mt := tested self is_math_type in
  let! o := get_obj mt in
  if bool_decide (node o = "PROP_BELONGS") then
    let! c := index (children o) 1 in
    ret (Some c)
  else if bool_decide (node o = "PROP_INCLUDED") then
    let! sup_set := index (children o) 1 in
    raise TypeError
  else ret None.

(** [bounded_quantification]: the premise, or [None] for [False]. *)
Definition bounded_quantification (self : loc) (is_math_type : bool)
    : M (option loc) :=
  let! mt := tested self is_math_type in
  let! fa := is_for_all mt true in
  if fa then
    let! o := get_obj mt in
    let! c2 := index (children o) 2 in
    let! imp := is_implication c2 true in
    if imp then
      let! o' := get_obj mt in
      let! c2' := index (children o') 2 in
      let! o2 := get_obj c2' in
      let! premise_ := index (children o2) 0 in
      ret (Some premise_)
    else ret None
  else ret None.

Definition bounded_quant_real_type (self : loc) (is_math_type : bool)
    : M (option loc) :=
  let! mt := tested self is_math_type in
  let! premise_ := bounded_quantification mt true in
  match premise_ with
  | Some p =>
      let! type_ := is_belongs_or_included p true in
      match type_ with
      | Some t => ret (Some t)
      | None => ret None
      end
  | None => ret None
  end.

Definition main_symbol (self : loc) (is_math_type : bool)
    : M (option string) :=
  let! t := is_and self is_math_type in
  if t then ret (Some "and") else
  let! t := is_or self is_math_type in
  if t then ret (Some "or") else
  let! t := is_not self is_math_type in
  if t then ret (Some "not") else
  let! t := is_implication self is_math_type in
  if t then ret (Some "implies") else
  let! t := is_iff self is_math_type in
  if t then ret (Some "iff") else
  let! t := is_for_all self is_math_type in
  if t then ret (Some "forall") else
  let! t := is_exists self is_math_type in
  if t then ret (Some "exists") else
  let! t := is_equality self is_math_type in
  if t then ret (Some "equal") else
  let! t := is_function self is_math_type in
  if t then ret (Some "function") else
  let! t := is_atomic_belong self is_math_type in
  if t then ret (Some "belong") else
  ret None.

(** ** Lists of bound variables *)

(** [bound_vars(math_type)].  An element of the result is what the
    property [bound_var] gave, so it could be [None]; [x == math_type] with
    [x = None] is false. *)
Fixpoint bound_vars (fuel : nat) (self : loc) (math_type_ : option loc)
    {struct fuel} : M (list (option loc)) :=
  match fuel with
  | O => out_of_fuel
  | S fuel' =>
      (* (1) Self's has direct bound var? *)
      let! h := has_bound_var self in
      let! self_vars :=
        (if h then
           let! wanted :=
             match math_type_ with
             | None => ret true
             | Some mt =>
                 let! bvt := bound_var_type self in
                 match bvt with
                 | Some t => py_eq fuel' t mt
                 | None => ret false
                 end
             end in
           if wanted then let! bv := bound_var self in ret [bv] else ret []
         else ret []) in
      (* (2) children's vars *)
      let! o := get_obj self in
      let! child_vars :=
        mapM (λ child, bound_vars fuel' child math_type_) (children o) in
      ret (self_vars ++ concat child_vars)
  end.

(** ** Substitution *)

(** The lookup [decision[contain_left, contain_right]]: the keys of the
    table are pairs of booleans, which the counts 0 and 1 are equal to. *)
Definition decision (contain_left contain_right : Z) : option string :=
  if bool_decide (contain_left = 0 ∧ contain_right = 0)%Z then Some ""
  else if bool_decide (contain_left = 1 ∧ contain_right = 0)%Z then Some ">"
  else if bool_decide (contain_left = 0 ∧ contain_right = 1)%Z then Some ">"
  else if bool_decide (contain_left = 1 ∧ contain_right = 1)%Z then Some "both"
  else None.

Definition direction_for_substitution_in (fuel : nat) (self other : loc)
    : M string :=
  let! equality := math_type self in
  let! o := get_obj equality in
  if negb (bool_decide (node o ∈ ["PROP_EQUAL"; "PROP_IFF"])) then ret ""
  else
    match children o with
    | [left_; right_] =>
        let! contain_left := contains fuel other left_ in
        let! contain_right := contains fuel other right_ in
        match decision contain_left contain_right with
        | Some d => ret d
        | None => raise KeyError
        end
    | _ => raise ValueError
    end.

(** ** Methods of [BoundVar] for pattern matching *)

(** [BoundVar.apply_matching]: [copy(self)], a new object with the
    attributes of [self] (the same [info] dictionary). *)
Definition BoundVar_apply_matching (self : loc) : M loc :=
  BoundVar_method self (let! o := get_obj self in alloc_obj o).

(** [BoundVar.recursive_match(other, ...)]. *)
Definition recursive_match (self other : loc) : M bool :=
  BoundVar_method self
    (andM (is_bound_var other)
          (let! nb := bound_var_nb self in
           let! nb' := bound_var_nb other in
           ret (bool_decide (nb = nb')))).

(** ** Vocabulary of the further statements *)

(** Every child of every object of the store is in the store. *)
Definition children_in_store (s : state) : Prop :=
  ∀ l o, objs s !! l = Some o → Forall (λ c, is_Some (objs s !! c)) (children o).

(** No application of the store has an application as its first child. *)
Definition uncurried (s : state) : Prop :=
  ∀ l o, objs s !! l = Some o → node o = "APPLICATION" →
         ∃ c0 o0, children o !! 0%nat = Some c0 ∧ objs s !! c0 = Some o0 ∧
                  node o0 ≠ "APPLICATION".
(** The test of [has_bound_var] for an object with this node and these
    children, read in the store. *)
Definition binds (s : state) (node_ : string) (children_ : list loc) : bool :=
  bool_decide (node_ ∈ HAVE_BOUND_VAR_NODES)
  && bool_decide (length children_ = 3%nat)
  && match children_ !! 1%nat with
     | Some x =>
         match objs s !! x with
         | Some ox => bool_decide (cls ox = BoundVarCls)
         | None => false
         end
     | None => false
     end.

(** The children for which the constructor of a node ['APPLICATION'] fails:
    none, or a single one that is an application. *)
Definition bad_application (s : state) (node_ : string)
    (children_ : list loc) : Prop :=
  node_ = "APPLICATION" ∧
  (children_ = [] ∨
   ∃ c0 o0, children_ = [c0] ∧ objs s !! c0 = Some o0 ∧
            node o0 = "APPLICATION").

(** The store of [s'] extends the store of [s]: objects were created, none
    was changed. *)
Definition objs_grow (s s' : state) : Prop := objs s ⊆ objs s'.

(** The dictionary of a bound variable without name. *)
Definition unnamed_info : info_dict :=
  mkInfo None None (Some "NO NAME") None None (Some "") (Some (-1)%Z).

(** What comes after the first index of a path. *)
Definition descend_further (q : list Z) (r : option loc) : M (option loc) :=
  match r with
  | Some c => descendant_seq c q
  | None => ret None
  end.

(** Between [s] and [s'] every dictionary is still there, and a dictionary
    without the entry ['node_name'] still has none. *)
Definition node_name_gone (s s' : state) : Prop :=
  ∀ d i, dicts s !! d = Some i →
         ∃ i', dicts s' !! d = Some i' ∧
               (i_node_name i = None → i_node_name i' = None).

(** The list of number sets is the same in [s] and [s']. *)
Definition number_sets_same (s s' : state) : Prop :=
  number_sets s' = number_sets s.

(** The implicit definitions and the definition on record are the same in
    [s] and [s']. *)
Definition definitions_same (s s' : state) : Prop :=
  implicit_definitions s' = implicit_definitions s ∧
  last_used_implicit_definition s' = last_used_implicit_definition s.

(** * Properties *)

(** Closed facts about concrete sessions are settled by evaluation. *)
Ltac by_computation :=
  intros;
  repeat match goal with |- _ ∧ _ => split end;
  vm_compute; reflexivity.

(** ** Running a computation step by step *)

Lemma bind_Ok {A B} (m : M A) (k : A → M B) s a s' :
  m s = (Ok a, s') → bind m k s = k a s'.
Proof. intros H. unfold bind. by rewrite H. Qed.

Lemma bind_not_Ok {A B} (m : M A) (k : A → M B) s r s' :
  m s = (r, s') → (∀ a, r ≠ Ok a) →
  ∃ r', bind m k s = (r', s') ∧ (∀ b, r' ≠ Ok b).
Proof.
  intros H Hr. unfold bind. rewrite H.
  destruct r as [a | e | |]; [by destruct (Hr a) | ..]; eauto.
Qed.

(** Inversion of a successful [bind]. *)
Lemma bind_inv_Ok {A B} (m : M A) (k : A → M B) s b s' :
  bind m k s = (Ok b, s') →
  ∃ a s1, m s = (Ok a, s1) ∧ k a s1 = (Ok b, s').
Proof.
  unfold bind. destruct (m s) as [[a | e | |] s1]; try discriminate.
  eauto.
Qed.

Lemma get_obj_Some s l o : objs s !! l = Some o → get_obj l s = (Ok o, s).
Proof. intros H. unfold get_obj. by rewrite H. Qed.

Lemma get_dict_Some s d i : dicts s !! d = Some i → get_dict d s = (Ok i, s).
Proof. intros H. unfold get_dict. by rewrite H. Qed.

Lemma get_obj_inv s l o s' :
  get_obj l s = (Ok o, s') → s' = s ∧ objs s !! l = Some o.
Proof.
  unfold get_obj. destruct (objs s !! l); [|discriminate].
  by intros [= -> ->].
Qed.

Lemma get_dict_inv s d i s' :
  get_dict d s = (Ok i, s') → s' = s ∧ dicts s !! d = Some i.
Proof.
  unfold get_dict. destruct (dicts s !! d); [|discriminate].
  by intros [= -> ->].
Qed.

Lemma py_index_ge {A} (l : list A) (i : Z) :
  (Z.of_nat (length l) ≤ i)%Z → py_index l i = None.
Proof.
  intros H. unfold py_index.
  destruct (Z.leb_spec 0 i); [|lia].
  apply lookup_ge_None. lia.
Qed.

Lemma py_index_nat {A} (l : list A) (n : nat) :
  py_index l (Z.of_nat n) = l !! n.
Proof.
  unfold py_index. destruct (Z.leb_spec 0 (Z.of_nat n)); [|lia].
  by rewrite Nat2Z.id.
Qed.

(** ** Descendants *)

(** C10: with a path (tuple or list) whose leading index is at least the
    number of children, [descendant] returns [None]; with the same index
    given as a plain [int], it raises [IndexError]. *)
Theorem descendant_int_unguarded (s : state) (t : loc) (o : obj) (i : Z)
    (remaining : list Z) :
  objs s !! t = Some o →
  (Z.of_nat (length (children o)) ≤ i)%Z →
  descendant t (LSeq (i :: remaining)) s = (Ok None, s) ∧
  descendant t (LInt i) s = (Raise IndexError, s).
Proof.
  intros Ho Hi. split.
  - cbn [descendant descendant_seq].
    rewrite (bind_Ok _ _ _ _ _ (get_obj_Some _ _ _ Ho)).
    by rewrite bool_decide_eq_true_2.
  - cbn [descendant].
    rewrite (bind_Ok _ _ _ _ _ (get_obj_Some _ _ _ Ho)).
    unfold bind, index. by rewrite py_index_ge.
Qed.

Lemma descendant_int_unguarded_witness :
  descendant PROP (LSeq [0%Z]) initial_state = (Ok None, initial_state) ∧
  descendant PROP (LInt 0) initial_state = (Raise IndexError, initial_state).
Proof.
  apply (descendant_int_unguarded initial_state PROP (constant_obj "PROP" 3)
           0%Z []).
  - reflexivity.
  - simpl. lia.
Defined.

(** The guard of the tuple/list branch only looks upwards: a leading index
    below [- len(children)] passes it and the indexing raises, as with a
    plain [int]. *)
Remark descendant_seq_negative_index :
  descendant PROP (LSeq [(-1)%Z]) initial_state
  = (Raise IndexError, initial_state).
Proof. reflexivity. Qed.

(** ** The registries: [clear] *)

(** C8 (amended): [clear] empties the [Variables] table and the list of
    number sets and puts the bound-variable counter back to 0; the
    [constants] table, like everything else, is left as it was. *)
Theorem clear_resets_all_but_constants (s : state) :
  ∃ s', clear s = (Ok tt, s') ∧
        Variables s' = ∅ ∧ number_sets s' = [] ∧ bound_var_counter s' = 0%Z ∧
        constants s' = constants s ∧
        objs s' = objs s ∧ dicts s' = dicts s.
Proof. eexists. split; [reflexivity|]. by repeat split. Qed.

(** C8 (as stated) fails: after [clear], the constant cached before the call
    is still in the [constants] table, and the next record with that name
    gets this very object. *)
Lemma clear_keeps_constants :
  let s1 := snd (session_with_constant initial_state) in
  let s2 := snd (clear s1) in
  fst (session_with_constant initial_state) = Ok 4%nat ∧
  fst (clear s1) = Ok tt ∧
  constants s2 !! Some "ℝ" = Some 4%nat ∧
  constants s2 ≠ ∅ ∧
  fst (session_with_constant s2) = Ok 4%nat.
Proof.
  intros s1 s2.
  assert (H : constants s2 !! Some "ℝ" = Some 4%nat)
    by (vm_compute; reflexivity).
  split; [vm_compute; reflexivity|].
  split; [vm_compute; reflexivity|].
  split; [exact H|].
  split; [|vm_compute; reflexivity].
  intros E. rewrite E in H. discriminate H.
Qed.

(** ** Equality of bound variables *)

Lemma get_info_Some s l o i :
  objs s !! l = Some o → dicts s !! info o = Some i →
  get_info l s = (Ok i, s).
Proof.
  intros Ho Hi. unfold get_info.
  rewrite (bind_Ok _ _ _ _ _ (get_obj_Some _ _ _ Ho)).
  by apply get_dict_Some.
Qed.

Lemma bound_var_nb_Some s l o i :
  objs s !! l = Some o → dicts s !! info o = Some i →
  bound_var_nb l s = (Ok (i_bound_var_nb i), s).
Proof.
  intros Ho Hi. unfold bound_var_nb.
  by rewrite (bind_Ok _ _ _ _ _ (get_info_Some _ _ _ _ Ho Hi)).
Qed.

Lemma name_BoundVar s l o i n :
  objs s !! l = Some o → dicts s !! info o = Some i →
  cls o = BoundVarCls → i_name i = Some n →
  name l s = (Ok (Some n), s).
Proof.
  intros Ho Hi Hc Hn. unfold name.
  rewrite (bind_Ok _ _ _ _ _ (get_obj_Some _ _ _ Ho)).
  rewrite (bind_Ok _ _ _ _ _ (get_dict_Some _ _ _ Hi)).
  by rewrite Hc, Hn.
Qed.

Lemma name_MathObject s l o i :
  objs s !! l = Some o → dicts s !! info o = Some i →
  cls o = MathObjectCls →
  name l s = (Ok (i_name i), s).
Proof.
  intros Ho Hi Hc. unfold name.
  rewrite (bind_Ok _ _ _ _ _ (get_obj_Some _ _ _ Ho)).
  rewrite (bind_Ok _ _ _ _ _ (get_dict_Some _ _ _ Hi)).
  by rewrite Hc.
Qed.

(** C4 (amended): [BoundVar.__eq__] is true on the same object; on two
    distinct bound variables it looks at the tag of [v] alone: when that tag
    is not the default -1 the answer is the equality of the two tags (so
    false when [w] is untagged), otherwise it is the equality of the names;
    against an object that is not a [BoundVar] it is false. *)
Theorem BoundVar_eq_cases (s : state) (v w : loc) (ov ow : obj)
    (iv iw : info_dict) :
  objs s !! v = Some ov → dicts s !! info ov = Some iv →
  objs s !! w = Some ow → dicts s !! info ow = Some iw →
  cls ov = BoundVarCls →
  BoundVar_eq v v s = (Ok true, s) ∧
  (v ≠ w → cls ow = BoundVarCls → i_bound_var_nb iv ≠ Some (-1)%Z →
     BoundVar_eq v w s
     = (Ok (bool_decide (i_bound_var_nb iv = i_bound_var_nb iw)), s)) ∧
  (v ≠ w → cls ow = BoundVarCls → i_bound_var_nb iv ≠ Some (-1)%Z →
     i_bound_var_nb iw = Some (-1)%Z →
     BoundVar_eq v w s = (Ok false, s)) ∧
  (v ≠ w → cls ow = BoundVarCls → i_bound_var_nb iv = Some (-1)%Z →
     is_Some (i_name iv) → is_Some (i_name iw) →
     BoundVar_eq v w s = (Ok (bool_decide (i_name iv = i_name iw)), s)) ∧
  (v ≠ w → cls ow = MathObjectCls → BoundVar_eq v w s = (Ok false, s)).
Proof.
  intros Hv Hiv Hw Hiw Hcv.
  assert (Htag : v ≠ w → cls ow = BoundVarCls →
                 i_bound_var_nb iv ≠ Some (-1)%Z →
                 BoundVar_eq v w s
                 = (Ok (bool_decide (i_bound_var_nb iv = i_bound_var_nb iw)), s)).
  { intros Hne Hcw Hnb. unfold BoundVar_eq.
    rewrite bool_decide_eq_false_2 by done.
    rewrite (bind_Ok _ _ _ _ _ (get_obj_Some _ _ _ Hw)), Hcw.
    rewrite (bind_Ok _ _ _ _ _ (bound_var_nb_Some _ _ _ _ Hv Hiv)).
    rewrite bool_decide_eq_false_2 by done. cbn [negb].
    by rewrite (bind_Ok _ _ _ _ _ (bound_var_nb_Some _ _ _ _ Hw Hiw)). }
  repeat split.
  - unfold BoundVar_eq. by rewrite bool_decide_eq_true_2.
  - exact Htag.
  - intros Hne Hcw Hnb Hnb'. rewrite Htag by done.
    rewrite bool_decide_eq_false_2; [done | congruence].
  - intros Hne Hcw Hnb [n Hn] [n' Hn']. unfold BoundVar_eq.
    rewrite bool_decide_eq_false_2 by done.
    rewrite (bind_Ok _ _ _ _ _ (get_obj_Some _ _ _ Hw)), Hcw.
    rewrite (bind_Ok _ _ _ _ _ (bound_var_nb_Some _ _ _ _ Hv Hiv)).
    rewrite bool_decide_eq_true_2 by done. cbn [negb].
    rewrite (bind_Ok _ _ _ _ _ (name_BoundVar _ _ _ _ _ Hv Hiv Hcv Hn)).
    rewrite (bind_Ok _ _ _ _ _ (name_BoundVar _ _ _ _ _ Hw Hiw Hcw Hn')).
    by rewrite Hn, Hn'.
  - intros Hne Hcw. unfold BoundVar_eq.
    rewrite bool_decide_eq_false_2 by done.
    by rewrite (bind_Ok _ _ _ _ _ (get_obj_Some _ _ _ Hw)), Hcw.
Qed.

Lemma BoundVar_eq_cases_witness :
  let s := snd (session_with_tagged_bound_var initial_state) in
  BoundVar_eq 4 4 s = (Ok true, s) ∧ BoundVar_eq 4 5 s = (Ok false, s) ∧
  BoundVar_eq 5 4 s = (Ok true, s) ∧ BoundVar_eq 4 PROP s = (Ok false, s).
Proof.
  intros s.
  edestruct (BoundVar_eq_cases s 4 5) as (H1 & _ & H3 & _ & _);
    [vm_compute; reflexivity .. | ].
  edestruct (BoundVar_eq_cases s 5 4) as (_ & _ & _ & H4 & _);
    [vm_compute; reflexivity .. | ].
  edestruct (BoundVar_eq_cases s 4 PROP) as (_ & _ & _ & _ & H5);
    [vm_compute; reflexivity .. | ].
  split; [exact H1|].
  split; [apply H3; [lia | reflexivity | discriminate | reflexivity]|].
  split; [apply H4; [lia | reflexivity | reflexivity | by eexists ..]|].
  apply H5; [unfold PROP; lia | reflexivity].
Defined.

(** C4 (as stated) fails: [v] carries the tag 1, [w] carries the default
    tag, so the two do not both carry a non-default tag, and their names are
    equal; yet [v == w] is false (and [w == v] is true). *)
Lemma BoundVar_eq_tagged_vs_untagged :
  let s := snd (session_with_tagged_bound_var initial_state) in
  let v := 4%nat in
  let w := 5%nat in
  fst (session_with_tagged_bound_var initial_state) = Ok (v, w) ∧
  (i_bound_var_nb <$> (dicts s !! 4%nat)) = Some (Some 1%Z) ∧
  (i_bound_var_nb <$> (dicts s !! 5%nat)) = Some (Some (-1)%Z) ∧
  fst (name v s) = Ok (Some "NO NAME") ∧
  fst (name w s) = Ok (Some "NO NAME") ∧
  BoundVar_eq v w s = (Ok false, s) ∧
  BoundVar_eq w v s = (Ok true, s).
Proof. by_computation. Qed.

(** ** The sentinel [NO_MATH_TYPE] *)

(** The body of [MathObject.__eq__], one level of recursion unfolded. *)
Lemma MathObject_eq_S fuel self other :
  MathObject_eq (S fuel) self other =
    if bool_decide (self = other) then ret true
    else if is_no_math_type self || is_no_math_type other then ret true
    else
      let! o1 := get_obj self in
      let! n1 := name self in
      let! v1 := value self in
      let! o2 := get_obj other in
      let! n2 := name other in
      let! v2 := value other in
      if negb (bool_decide ((node o1, cls o1, n1, v1) = (node o2, cls o2, n2, v2)))
      then ret false
      else
        let! mt1 := math_type self in
        let! mt2 := math_type other in
        let! e := py_eq fuel mt1 mt2 in
        if negb e then ret false
        else if negb (bool_decide (length (children o1) = length (children o2)))
        then ret false
        else
          let! hbv := has_bound_var self in
          let! marked :=
            (if hbv then
               let! bound_var_1 := index (children o1) 1 in
               let! bound_var_2 := index (children o2) 1 in
               do! BoundVar_method bound_var_1
                     (mark_identical_bound_vars bound_var_1 bound_var_2) in
               ret (Some (bound_var_1, bound_var_2))
             else ret None) in
          let! equal :=
            children_loop (py_eq fuel)
                          (zip (children o1) (children o2)) true in
          do! (match marked with
               | Some (bound_var_1, bound_var_2) =>
                   do! BoundVar_method bound_var_1
                         (unmark_bound_var bound_var_1) in
                   BoundVar_method bound_var_2 (unmark_bound_var bound_var_2)
               | None => ret tt
               end) in
          ret equal.
Proof. reflexivity. Qed.

(** C2: [MathObject.__eq__] answers true as soon as one side is the
    sentinel [NO_MATH_TYPE], whatever the other object is; hence the
    relation is not transitive: [NO_MORE_GOALS] and [PROP] are both equal
    to the sentinel and differ from each other. *)
Theorem MathObject_eq_sentinel_absorbing (fuel : nat) (s : state) (a b : loc) :
  a ≠ b → a = NO_MATH_TYPE ∨ b = NO_MATH_TYPE →
  MathObject_eq (S fuel) a b s = (Ok true, s) ∧
  (MathObject_eq 2 NO_MORE_GOALS NO_MATH_TYPE initial_state
     = (Ok true, initial_state) ∧
   MathObject_eq 2 NO_MATH_TYPE PROP initial_state
     = (Ok true, initial_state) ∧
   MathObject_eq 2 NO_MORE_GOALS PROP initial_state
     = (Ok false, initial_state)).
Proof.
  intros Hne Hs. split.
  - rewrite MathObject_eq_S. rewrite bool_decide_eq_false_2 by done.
    unfold is_no_math_type.
    destruct Hs as [-> | ->].
    + by rewrite bool_decide_eq_true_2.
    + rewrite (bool_decide_eq_true_2 (NO_MATH_TYPE = NO_MATH_TYPE)) by done.
      by rewrite orb_true_r.
  - by_computation.
Qed.

Lemma MathObject_eq_sentinel_absorbing_witness :
  MathObject_eq 1 PROP NO_MATH_TYPE initial_state = (Ok true, initial_state).
Proof.
  destruct (MathObject_eq_sentinel_absorbing 0 initial_state PROP NO_MATH_TYPE)
    as [H _].
  - unfold PROP, NO_MATH_TYPE. lia.
  - right. reflexivity.
  - exact H.
Defined.

(** The operator [==] is another matter when a [BoundVar] is involved: it
    runs [BoundVar.__eq__], for which the sentinel is an object like any
    other. *)
Remark py_eq_BoundVar_sentinel :
  let s := snd (session_with_tagged_bound_var initial_state) in
  py_eq 2 5 NO_MATH_TYPE s = (Ok false, s) ∧
  py_eq 2 NO_MATH_TYPE 5 s = (Ok false, s) ∧
  MathObject_eq 2 5 NO_MATH_TYPE s = (Ok true, s).
Proof. by_computation. Qed.

(** ** Construction: uncurrying *)

Lemma has_bound_var_other_node s l o :
  objs s !! l = Some o → node o ∉ HAVE_BOUND_VAR_NODES →
  has_bound_var l s = (Ok false, s).
Proof.
  intros Ho Hn. unfold has_bound_var.
  rewrite (bind_Ok _ _ _ _ _ (get_obj_Some _ _ _ Ho)).
  by rewrite bool_decide_eq_false_2.
Qed.

Lemma APPLICATION_not_binder : "APPLICATION" ∉ HAVE_BOUND_VAR_NODES.
Proof. apply (bool_decide_unpack _). vm_compute. exact I. Qed.

Lemma fresh_obj_None (s : state) : objs s !! fresh (dom (objs s)) = None.
Proof. apply not_elem_of_dom, is_fresh. Qed.

Lemma lookup_alloc_old (s : state) (o : obj) l o' :
  objs s !! l = Some o' →
  objs (with_objs (<[fresh (dom (objs s)) := o]>) s) !! l = Some o'.
Proof.
  intros H. cbn. rewrite lookup_insert_ne; [done|].
  intros E. rewrite <- E in H. by rewrite fresh_obj_None in H.
Qed.

Lemma index_lookup {A} (l : list A) (n : nat) (a : A) s :
  l !! n = Some a → index l (Z.of_nat n) s = (Ok a, s).
Proof. intros H. unfold index. by rewrite py_index_nat, H. Qed.

(** Construction of an application whose first child is not one. *)
Lemma MathObject_init_application_plain s c info_ children_ mt f of_ :
  children_ !! 0%nat = Some f → objs s !! f = Some of_ →
  node of_ ≠ "APPLICATION" →
  MathObject_init c "APPLICATION" info_ children_ mt s
  = (Ok (fresh (dom (objs s))),
     with_objs (<[fresh (dom (objs s)) :=
                    mkObj c "APPLICATION" info_ children_ mt None false []]>) s).
Proof.
  intros Hc Hf Hn. unfold MathObject_init.
  set (self := fresh (dom (objs s))).
  set (o := mkObj c "APPLICATION" info_ children_ mt None false []).
  assert (Ha : alloc_obj o s = (Ok self, with_objs (<[self := o]>) s)) by done.
  rewrite (bind_Ok _ _ _ _ _ Ha).
  assert (Hself : objs (with_objs (<[self := o]>) s) !! self = Some o)
    by apply lookup_insert_eq.
  rewrite (bind_Ok _ _ _ _ _
             (has_bound_var_other_node _ _ _ Hself APPLICATION_not_binder)).
  rewrite (bind_Ok _ _ _ tt (with_objs (<[self := o]>) s)) by done.
  rewrite bool_decide_eq_true_2 by done.
  assert (Hf' : objs (with_objs (<[self := o]>) s) !! f = Some of_)
    by by apply lookup_alloc_old.
  erewrite bind_Ok; [reflexivity|].
  rewrite (bind_Ok _ _ _ _ _ (index_lookup _ 0 _ _ Hc)).
  rewrite (bind_Ok _ _ _ _ _ (get_obj_Some _ _ _ Hf')).
  by rewrite bool_decide_eq_false_2.
Qed.

(** Construction of an application whose first child is an application. *)
Lemma MathObject_init_application_nested s c info_ children_ mt inner y oi :
  children_ !! 0%nat = Some inner → children_ !! 1%nat = Some y →
  objs s !! inner = Some oi → node oi = "APPLICATION" →
  MathObject_init c "APPLICATION" info_ children_ mt s
  = (Ok (fresh (dom (objs s))),
     with_objs (<[fresh (dom (objs s)) :=
                    mkObj c "APPLICATION" info_ (children oi ++ [y]) mt None
                          false []]>) s).
Proof.
  intros Hc Hy Hf Hn. unfold MathObject_init.
  set (self := fresh (dom (objs s))).
  set (o := mkObj c "APPLICATION" info_ children_ mt None false []).
  assert (Ha : alloc_obj o s = (Ok self, with_objs (<[self := o]>) s)) by done.
  rewrite (bind_Ok _ _ _ _ _ Ha).
  assert (Hself : objs (with_objs (<[self := o]>) s) !! self = Some o)
    by apply lookup_insert_eq.
  rewrite (bind_Ok _ _ _ _ _
             (has_bound_var_other_node _ _ _ Hself APPLICATION_not_binder)).
  rewrite (bind_Ok _ _ _ tt (with_objs (<[self := o]>) s)) by done.
  rewrite bool_decide_eq_true_2 by done.
  assert (Hf' : objs (with_objs (<[self := o]>) s) !! inner = Some oi)
    by by apply lookup_alloc_old.
  erewrite bind_Ok.
  2:{ rewrite (bind_Ok _ _ _ _ _ (index_lookup _ 0 _ _ Hc)).
      rewrite (bind_Ok _ _ _ _ _ (get_obj_Some _ _ _ Hf')).
      rewrite bool_decide_eq_true_2 by done.
      rewrite (bind_Ok _ _ _ _ _ (index_lookup _ 1 _ _ Hy)).
      unfold upd_obj. rewrite Hself. reflexivity. }
  unfold ret, with_objs. cbn. by rewrite insert_insert_eq.
Qed.

Lemma get_children_Some s l o :
  objs s !! l = Some o → get_children l s = (Ok (children o), s).
Proof.
  intros H. unfold get_children.
  by rewrite (bind_Ok _ _ _ _ _ (get_obj_Some _ _ _ H)).
Qed.

Lemma new_MathObject_application_plain s children_ f of_ :
  children_ !! 0%nat = Some f → objs s !! f = Some of_ →
  node of_ ≠ "APPLICATION" →
  new_MathObject "APPLICATION" children_ s
  = (Ok (fresh (dom (objs s))),
     with_objs (<[fresh (dom (objs s)) :=
                    mkObj MathObjectCls "APPLICATION" (fresh (dom (dicts s)))
                          children_ None None false []]>)
               (with_dicts (<[fresh (dom (dicts s)) := empty_info]>) s)).
Proof.
  intros Hc Hf Hn. unfold new_MathObject.
  rewrite (bind_Ok _ _ _ (fresh (dom (dicts s)))
             (with_dicts (<[fresh (dom (dicts s)) := empty_info]>) s))
    by done.
  by erewrite MathObject_init_application_plain.
Qed.

Lemma new_MathObject_application_nested s children_ inner y oi :
  children_ !! 0%nat = Some inner → children_ !! 1%nat = Some y →
  objs s !! inner = Some oi → node oi = "APPLICATION" →
  new_MathObject "APPLICATION" children_ s
  = (Ok (fresh (dom (objs s))),
     with_objs (<[fresh (dom (objs s)) :=
                    mkObj MathObjectCls "APPLICATION" (fresh (dom (dicts s)))
                          (children oi ++ [y]) None None false []]>)
               (with_dicts (<[fresh (dom (dicts s)) := empty_info]>) s)).
Proof.
  intros Hc Hy Hf Hn. unfold new_MathObject.
  rewrite (bind_Ok _ _ _ (fresh (dom (dicts s)))
             (with_dicts (<[fresh (dom (dicts s)) := empty_info]>) s))
    by done.
  by erewrite MathObject_init_application_nested.
Qed.

(** C7 (amended): constructing a node ['APPLICATION'] with at least two
    children, the first of which is itself an ['APPLICATION'] node, gives
    the new object the children of the inner application followed by the
    second child of the outer one.  So [App(App(f, x), y)] has the children
    [f, x, y], as the application constructed from the three children
    directly, when [f] is not an application; when [f] is an application,
    [App(App(f, x), y)] has the children of [f] followed by [x, y], and the
    application constructed from [f, x, y] directly has the children of [f]
    followed by [x] only. *)
Theorem MathObject_init_uncurry (s : state) (c : class) (info_ : dloc)
    (children_ : list loc) (mt : option loc) (inner y : loc) (oi : obj) :
  children_ !! 0%nat = Some inner → children_ !! 1%nat = Some y →
  objs s !! inner = Some oi → node oi = "APPLICATION" →
  (∃ self s',
      MathObject_init c "APPLICATION" info_ children_ mt s = (Ok self, s') ∧
      (self ∉ dom (objs s)) ∧
      get_children self s' = (Ok (children oi ++ [y]), s')) ∧
  (∀ s0 f x y0 of_,
      objs s0 !! f = Some of_ → node of_ ≠ "APPLICATION" →
      fst (nested_application f x y0 s0) = Ok [f; x; y0] ∧
      fst (flat_application f x y0 s0) = Ok [f; x; y0]) ∧
  (∀ s0 f x y0 of_,
      objs s0 !! f = Some of_ → node of_ = "APPLICATION" →
      fst (nested_application f x y0 s0) = Ok (children of_ ++ [x; y0]) ∧
      fst (flat_application f x y0 s0) = Ok (children of_ ++ [x])).
Proof.
  intros Hc Hy Hi Hn. split; [|split].
  - do 2 eexists. split; [by eapply MathObject_init_application_nested|].
    split; [apply is_fresh|].
    by erewrite get_children_Some by apply lookup_insert_eq.
  - clear. intros s f x y o Hf Hn. split.
    + unfold nested_application.
      rewrite (bind_Ok _ _ _ _ _ (new_MathObject_application_plain
                                    s [f; x] f o eq_refl Hf Hn)).
      match goal with
      | |- context [bind _ _ ?s2] =>
          rewrite (bind_Ok _ _ _ _ _ (new_MathObject_application_nested s2
                     [fresh (dom (objs s)); y] (fresh (dom (objs s))) y _
                     eq_refl eq_refl (lookup_insert_eq _ _ _) eq_refl))
      end.
      by erewrite get_children_Some by apply lookup_insert_eq.
    + unfold flat_application.
      rewrite (bind_Ok _ _ _ _ _ (new_MathObject_application_plain
                                    s [f; x; y] f o eq_refl Hf Hn)).
      by erewrite get_children_Some by apply lookup_insert_eq.
  - clear. intros s f x y o Hf Hn. split.
    + unfold nested_application.
      rewrite (bind_Ok _ _ _ _ _ (new_MathObject_application_nested
                                    s [f; x] f x o eq_refl eq_refl Hf Hn)).
      match goal with
      | |- context [bind _ _ ?s2] =>
          rewrite (bind_Ok _ _ _ _ _ (new_MathObject_application_nested s2
                     [fresh (dom (objs s)); y] (fresh (dom (objs s))) y _
                     eq_refl eq_refl (lookup_insert_eq _ _ _) eq_refl))
      end.
      erewrite get_children_Some by apply lookup_insert_eq.
      cbn. by rewrite <- app_assoc.
    + unfold flat_application.
      rewrite (bind_Ok _ _ _ _ _ (new_MathObject_application_nested
                                    s [f; x; y] f x o eq_refl eq_refl Hf Hn)).
      by erewrite get_children_Some by apply lookup_insert_eq.
Qed.

Lemma MathObject_init_uncurry_witness :
  let s := snd (new_MathObject "APPLICATION" [PROP; NO_MORE_GOALS]
                               initial_state) in
  (∃ self s',
      MathObject_init MathObjectCls "APPLICATION" 0%nat
                      [4%nat; CURRENT_GOAL_SOLVED] None s = (Ok self, s') ∧
      (self ∉ dom (objs s)) ∧
      get_children self s'
      = (Ok [PROP; NO_MORE_GOALS; CURRENT_GOAL_SOLVED], s')) ∧
  fst (nested_application PROP NO_MORE_GOALS CURRENT_GOAL_SOLVED initial_state)
  = Ok [PROP; NO_MORE_GOALS; CURRENT_GOAL_SOLVED] ∧
  fst (flat_application PROP NO_MORE_GOALS CURRENT_GOAL_SOLVED initial_state)
  = Ok [PROP; NO_MORE_GOALS; CURRENT_GOAL_SOLVED].
Proof.
  intros s.
  destruct (MathObject_init_uncurry s MathObjectCls 0%nat
              [4%nat; CURRENT_GOAL_SOLVED] None 4%nat CURRENT_GOAL_SOLVED
              (mkObj MathObjectCls "APPLICATION" 4%nat [PROP; NO_MORE_GOALS]
                     None None false []))
    as (H1 & H2 & _); [reflexivity | reflexivity | vm_compute; reflexivity
                 | reflexivity | ].
  split; [exact H1|].
  apply (H2 initial_state PROP NO_MORE_GOALS CURRENT_GOAL_SOLVED
            (constant_obj "PROP" 3)); [reflexivity | discriminate].
Defined.

(** C7 (as stated) fails when [f] is itself an application: with
    [f = App(PROP, NO_MORE_GOALS)] (object 4), [App(App(f, x), y)] has the
    children of [f] followed by [x, y], not [f, x, y], and the
    application constructed from [f, x, y] directly has three children:
    [y] is lost. *)
Lemma nested_application_of_application :
  let s := snd (new_MathObject "APPLICATION" [PROP; NO_MORE_GOALS]
                               initial_state) in
  let f := 4%nat in
  let x := CURRENT_GOAL_SOLVED in
  let y := PROP in
  (node <$> objs s !! f) = Some "APPLICATION" ∧
  fst (nested_application f x y s) = Ok [PROP; NO_MORE_GOALS; x; y] ∧
  fst (flat_application f x y s) = Ok [PROP; NO_MORE_GOALS; x] ∧
  fst (nested_application f x y s) ≠ Ok [f; x; y] ∧
  fst (nested_application f x y s) ≠ fst (flat_application f x y s).
Proof.
  intros s f x y.
  assert (Hn : fst (nested_application f x y s)
               = Ok [PROP; NO_MORE_GOALS; x; y]) by (vm_compute; reflexivity).
  assert (Hf : fst (flat_application f x y s)
               = Ok [PROP; NO_MORE_GOALS; x]) by (vm_compute; reflexivity).
  split; [vm_compute; reflexivity|].
  split; [exact Hn|]. split; [exact Hf|].
  rewrite Hn, Hf. split; discriminate.
Qed.

(** ** The list of number sets *)

Lemma list_index_lookup l x i : list_index l x = Some i → l !! i = Some x.
Proof.
  revert i. induction l as [|y l IH]; intros i; [done|]. cbn.
  case_bool_decide as E; [intros [= <-]; by subst|].
  destruct (list_index l x) as [j|] eqn:Ej; [|done].
  intros [= <-]. by apply IH.
Qed.

Lemma list_index_elem_of l x : x ∈ l → is_Some (list_index l x).
Proof.
  induction 1 as [|x y l Hne IH]; cbn.
  - rewrite bool_decide_eq_true_2 by done. by eexists.
  - case_bool_decide; [by eexists|]. destruct IH as [j ->]. by eexists.
Qed.

Lemma list_index_inj l x y i :
  list_index l x = Some i → list_index l y = Some i → x = y.
Proof.
  intros Hx Hy. apply list_index_lookup in Hx, Hy. congruence.
Qed.

Lemma index_in_Some l x i s :
  list_index l x = Some i → index_in l x s = (Ok i, s).
Proof. intros H. unfold index_in. by rewrite H. Qed.

Lemma set_number_sets_id s l : number_sets s = l → set_number_sets l s = s.
Proof. destruct s. cbn. by intros ->. Qed.

Lemma number_sets_setitem_Ok s l i v :
  (i < length l)%nat → number_sets s = l →
  number_sets_setitem i v s = (Ok tt, set_number_sets (<[i := v]> l) s).
Proof.
  intros Hi <-. unfold number_sets_setitem.
  rewrite (bind_Ok _ _ _ s s) by done.
  by rewrite bool_decide_eq_true_2.
Qed.

(** The loop moves [name_] to the left across the items that come after it
    in the chain, and stops at the first one that does not. *)
Lemma add_numbers_set_loop_spec name_ i pre : ∀ post s,
  list_index NUMBER_SETS_LIST name_ = Some i →
  Forall (λ x, x ∈ NUMBER_SETS_LIST) pre →
  number_sets s = pre ++ name_ :: post →
  ∃ pre1 pre2,
    pre = pre1 ++ pre2 ∧
    add_numbers_set_loop name_ (length pre) s
    = (Ok tt, set_number_sets (pre1 ++ name_ :: pre2 ++ post) s) ∧
    Forall (chain_lt name_) pre2 ∧
    (∀ o, last pre1 = Some o → ¬ chain_lt name_ o).
Proof.
  induction pre as [|old pre' IH] using rev_ind; intros post s Hi Hin Hs.
  - exists [], []. split; [done|]. cbn.
    split; [by rewrite set_number_sets_id|]. split; [constructor|done].
  - apply Forall_app in Hin as [Hin' Hold].
    rewrite Forall_singleton in Hold.
    destruct (list_index_elem_of _ _ Hold) as [j Hj].
    rewrite length_app, Nat.add_1_r. cbn [add_numbers_set_loop].
    rewrite (bind_Ok _ _ _ s s) by done.
    assert (Hlk : number_sets s !! length pre' = Some old).
    { rewrite Hs, <- app_assoc. cbn [app]. by apply list_lookup_middle. }
    rewrite (bind_Ok _ _ _ _ _ (index_lookup _ _ _ _ Hlk)).
    rewrite (bind_Ok _ _ _ _ _ (index_in_Some _ _ _ _ Hi)).
    rewrite (bind_Ok _ _ _ _ _ (index_in_Some _ _ _ _ Hj)).
    case_bool_decide as Hlt.
    + assert (Hs' : number_sets s = pre' ++ old :: name_ :: post)
        by by rewrite Hs, <- app_assoc.
      erewrite bind_Ok.
      2:{ apply number_sets_setitem_Ok with (l := number_sets s); [|done].
          rewrite Hs', length_app. cbn. lia. }
      erewrite bind_Ok.
      2:{ apply number_sets_setitem_Ok
            with (l := <[S (length pre') := old]> (number_sets s));
            [|reflexivity].
          rewrite length_insert, Hs', length_app. cbn. lia. }
      rewrite Hs'.
      rewrite (insert_app_r_alt pre' _ (S (length pre'))) by lia.
      replace (S (length pre') - length pre')%nat with 1%nat by lia.
      cbn [insert list_insert].
      rewrite (insert_app_r_alt pre' _ (length pre')) by lia.
      rewrite Nat.sub_diag. cbn [insert list_insert].
      destruct (IH (old :: post)
                  (set_number_sets (pre' ++ name_ :: old :: post)
                     (set_number_sets (pre' ++ old :: old :: post) s))
                  Hi Hin' eq_refl)
        as (pre1 & pre2 & -> & Hrun & Hall & Hlast).
      exists pre1, (pre2 ++ [old]). split; [by rewrite app_assoc|].
      split; [|split; [|done]].
      * rewrite Hrun. f_equal. by rewrite <- (app_assoc pre2).
      * apply Forall_app. split; [done|]. apply Forall_singleton.
        by exists i, j.
    + exists (pre' ++ [old]), []. split; [by rewrite app_nil_r|].
      split; [|split; [constructor|]].
      * cbn. by rewrite set_number_sets_id.
      * intros o. rewrite last_snoc. intros [= <-] (i' & j' & Hi' & Hj' & Hlt').
        apply Hlt. congruence.
Qed.

(** A list sorted by position in a list [L] is a sublist of [L]. *)

Lemma index_lt_tail y L a b :
  a ≠ y → index_lt (y :: L) a b → index_lt L a b.
Proof.
  intros Ha (i & j & Hi & Hj & Hlt). cbn in Hi, Hj.
  rewrite bool_decide_eq_false_2 in Hi by done.
  destruct (list_index L a) as [i'|] eqn:Ei; [|done].
  injection Hi as <-.
  case_bool_decide; [injection Hj as <-; lia|].
  destruct (list_index L b) as [j'|] eqn:Ej; [|done].
  injection Hj as <-. exists i', j'. repeat split; [done..|lia].
Qed.

Lemma index_lt_head_ne y L a b : index_lt (y :: L) a b → b ≠ y.
Proof.
  intros (i & j & Hi & Hj & Hlt) ->. cbn in Hj.
  rewrite bool_decide_eq_true_2 in Hj by done. injection Hj as <-. lia.
Qed.

Lemma StronglySorted_index_lt_tail y L l :
  Forall (λ a, a ≠ y) l →
  StronglySorted (index_lt (y :: L)) l → StronglySorted (index_lt L) l.
Proof.
  induction l as [|a l IH]; intros Hne Hs; [constructor|].
  apply Forall_cons in Hne as [Ha Hne].
  apply StronglySorted_cons in Hs as [Hall Hs].
  constructor; [by apply IH|].
  eapply Forall_impl; [exact Hall|]. intros b. by apply index_lt_tail.
Qed.

Lemma sorted_by_index_sublist L : ∀ l,
  StronglySorted (index_lt L) l → Forall (λ x, x ∈ L) l →
  l `sublist_of` L.
Proof.
  induction L as [|y L IH]; intros l Hs Hin.
  - destruct l as [|x l]; [constructor|].
    apply Forall_cons in Hin as [Hx _]. by apply elem_of_nil in Hx.
  - destruct l as [|x l]; [apply sublist_nil_l|].
    apply StronglySorted_cons in Hs as Hs'. destruct Hs' as [Hall Hs'].
    assert (Hne : Forall (λ a, a ≠ y) l).
    { eapply Forall_impl; [exact Hall|]. intros b. apply index_lt_head_ne. }
    assert (Hin' : ∀ l', Forall (λ a, a ≠ y) l' →
                         Forall (λ x, x ∈ y :: L) l' → Forall (λ x, x ∈ L) l').
    { intros l' H1 H2. rewrite Forall_forall in *. intros a Ha.
      specialize (H1 a Ha). specialize (H2 a Ha).
      apply elem_of_cons in H2 as [?|?]; done. }
    apply Forall_cons in Hin as [Hx Hin].
    destruct (decide (x = y)) as [->|Hxy].
    + apply sublist_skip, IH; [by apply (StronglySorted_index_lt_tail y)|].
      by apply Hin'.
    + apply sublist_cons, IH.
      * apply (StronglySorted_index_lt_tail y); [by constructor|done].
      * apply Hin'; by constructor.
Qed.

Lemma chain_lt_trans a b c : chain_lt a b → chain_lt b c → chain_lt a c.
Proof.
  intros (i & j & Hi & Hj & Hij) (j' & k & Hj' & Hk & Hjk).
  exists i, k. repeat split; [done..|]. rewrite Hj in Hj'. injection Hj' as <-.
  lia.
Qed.

(** The invariant of [number_sets]. *)
Lemma add_numbers_set_spec name_ s :
  StronglySorted chain_lt (number_sets s) →
  Forall (λ x, x ∈ NUMBER_SETS_LIST) (number_sets s) →
  ∃ l', add_numbers_set name_ s = (Ok tt, set_number_sets l' s) ∧
        StronglySorted chain_lt l' ∧
        Forall (λ x, x ∈ NUMBER_SETS_LIST) l'.
Proof.
  intros Hs Hin. unfold add_numbers_set.
  rewrite (bind_Ok _ _ _ s s) by done.
  destruct (bool_decide (name_ ∈ NUMBER_SETS_LIST)
            && negb (bool_decide (name_ ∈ number_sets s))) eqn:Hc.
  2:{ exists (number_sets s). by rewrite set_number_sets_id. }
  apply andb_true_iff in Hc as [Hn Hnew].
  apply bool_decide_eq_true in Hn. apply negb_true_iff in Hnew.
  apply bool_decide_eq_false in Hnew.
  destruct (list_index_elem_of _ _ Hn) as [i Hi].
  set (s1 := set_number_sets (number_sets s ++ [name_]) s).
  rewrite (bind_Ok _ _ _ tt s1) by done.
  rewrite (bind_Ok _ _ _ s1 s1) by done.
  replace (length (number_sets s1) - 1)%nat with (length (number_sets s)).
  2:{ cbn. rewrite length_app. cbn. lia. }
  destruct (add_numbers_set_loop_spec name_ i (number_sets s) [] s1 Hi Hin
              eq_refl) as (pre1 & pre2 & Hpre & Hrun & Hall & Hlast).
  rewrite app_nil_r in Hrun.
  exists (pre1 ++ name_ :: pre2). split; [exact Hrun|].
  rewrite Hpre in Hs, Hin, Hnew.
  apply StronglySorted_app in Hs as (Hcross & Hs1 & Hs2).
  apply Forall_app in Hin as [Hin1 Hin2].
  split.
  - apply StronglySorted_app. split; [|split; [done|by constructor]].
    intros x1 x2 Hx1 Hx2.
    apply elem_of_cons in Hx2 as [->|Hx2]; [|by apply Hcross].
    destruct (last pre1) as [o|] eqn:Ho;
      [|apply last_None in Ho; subst; by apply elem_of_nil in Hx1].
    assert (Hon : chain_lt o name_).
    { assert (Hoin : o ∈ NUMBER_SETS_LIST).
      { rewrite Forall_forall in Hin1. apply Hin1.
        apply last_Some in Ho as [p ->].
        apply elem_of_app. right. by apply list_elem_of_singleton. }
      destruct (list_index_elem_of _ _ Hoin) as [j Hj].
      exists j, i. repeat split; [done..|].
      destruct (decide (i < j)%nat) as [Hlt|Hge];
        [destruct (Hlast o eq_refl); by exists i, j|].
      destruct (decide (i = j)) as [->|]; [|lia].
      destruct Hnew. rewrite (list_index_inj _ _ _ _ Hi Hj).
      apply last_Some in Ho as [p ->].
      apply elem_of_app. left. apply elem_of_app. right.
      by apply list_elem_of_singleton. }
    apply last_Some in Ho as [p ->].
    apply elem_of_app in Hx1 as [Hx1|Hx1].
    + eapply chain_lt_trans; [|exact Hon].
      eapply StronglySorted_app_1_elem_of;
        [exact Hs1|done|by apply list_elem_of_singleton].
    + apply list_elem_of_singleton in Hx1 as ->. exact Hon.
  - apply Forall_app. split; [done|by constructor].
Qed.

Lemma add_numbers_set_outside name_ s :
  name_ ∉ NUMBER_SETS_LIST → add_numbers_set name_ s = (Ok tt, s).
Proof.
  intros H. unfold add_numbers_set.
  rewrite (bind_Ok _ _ _ s s) by done.
  by rewrite bool_decide_eq_false_2.
Qed.

Lemma add_numbers_set_sequence names : ∀ s,
  StronglySorted chain_lt (number_sets s) →
  Forall (λ x, x ∈ NUMBER_SETS_LIST) (number_sets s) →
  ∃ l, forM_ add_numbers_set names s = (Ok tt, set_number_sets l s) ∧
       StronglySorted chain_lt l ∧
       Forall (λ x, x ∈ NUMBER_SETS_LIST) l.
Proof.
  induction names as [|n names IH]; intros s Hs Hin.
  - exists (number_sets s). by rewrite set_number_sets_id.
  - destruct (add_numbers_set_spec n s Hs Hin) as (l1 & Hrun & Hs1 & Hin1).
    destruct (IH (set_number_sets l1 s) Hs1 Hin1) as (l2 & Hrun2 & Hs2 & Hin2).
    exists l2. split; [|done]. cbn [forM_].
    by rewrite (bind_Ok _ _ _ _ _ Hrun), Hrun2.
Qed.

Lemma NoDup_NUMBER_SETS_LIST : NoDup NUMBER_SETS_LIST.
Proof. apply (bool_decide_unpack _). vm_compute. exact I. Qed.

(** C9: starting from the empty list, any sequence of calls of
    [add_numbers_set] succeeds and leaves in [number_sets] a sublist of
    [NUMBER_SETS_LIST], hence without duplicates, sorted by position in the
    chain; a name outside the chain changes nothing; and the names ℝ, ℕ,
    ℚ, ℤ inserted in this order give [ℕ, ℤ, ℚ, ℝ]. *)
Theorem add_numbers_set_sorted_sublist (names : list string) (s : state) :
  number_sets s = [] →
  (∃ l, forM_ add_numbers_set names s = (Ok tt, set_number_sets l s) ∧
        l `sublist_of` NUMBER_SETS_LIST ∧ NoDup l ∧
        StronglySorted chain_lt l) ∧
  (∀ name_ s0, name_ ∉ NUMBER_SETS_LIST →
               add_numbers_set name_ s0 = (Ok tt, s0)) ∧
  forM_ add_numbers_set ["ℝ"; "ℕ"; "ℚ"; "ℤ"] initial_state
  = (Ok tt, set_number_sets ["ℕ"; "ℤ"; "ℚ"; "ℝ"] initial_state).
Proof.
  intros Hs. split; [|split].
  - destruct (add_numbers_set_sequence names s) as (l & Hrun & Hsl & Hin).
    { rewrite Hs. constructor. }
    { rewrite Hs. constructor. }
    exists l. split; [done|].
    assert (Hsub : l `sublist_of` NUMBER_SETS_LIST)
      by by apply sorted_by_index_sublist.
    split; [done|]. split; [|done].
    eapply sublist_NoDup; [apply NoDup_NUMBER_SETS_LIST|done].
  - apply add_numbers_set_outside.
  - vm_compute. reflexivity.
Qed.

Lemma add_numbers_set_sorted_sublist_witness :
  ∃ l, forM_ add_numbers_set ["ℚ"; "x"; "ℕ"; "ℚ"] initial_state
       = (Ok tt, set_number_sets l initial_state) ∧
       l `sublist_of` NUMBER_SETS_LIST ∧ NoDup l ∧
       StronglySorted chain_lt l.
Proof.
  destruct (add_numbers_set_sorted_sublist ["ℚ"; "x"; "ℕ"; "ℚ"] initial_state)
    as [H _]; [reflexivity | exact H].
Defined.

(** ** Computations that leave the state alone *)

Lemma pure_ret {A} (a : A) : pure (ret a).
Proof. intros s r s'. by intros [= _ <-]. Qed.

Lemma pure_raise {A} e : pure (raise (A := A) e).
Proof. intros s r s'. by intros [= _ <-]. Qed.

Lemma pure_bind {A B} (m : M A) (k : A → M B) :
  pure m → (∀ a, pure (k a)) → pure (bind m k).
Proof.
  intros Hm Hk s r s'. unfold bind.
  destruct (m s) as [[a | e | |] s1] eqn:E; apply Hm in E as ->;
    [apply Hk | by intros [= _ <-] ..].
Qed.

Lemma pure_get_obj l : pure (get_obj l).
Proof.
  intros s r s'. unfold get_obj. destruct (objs s !! l); by intros [= _ <-].
Qed.

Lemma pure_get_dict d : pure (get_dict d).
Proof.
  intros s r s'. unfold get_dict. destruct (dicts s !! d); by intros [= _ <-].
Qed.

Lemma pure_index {A} (l : list A) i : pure (index l i).
Proof.
  unfold index. destruct (py_index l i); [apply pure_ret | apply pure_raise].
Qed.

Lemma pure_if {A} (b : bool) (m1 m2 : M A) :
  pure m1 → pure m2 → pure (if b then m1 else m2).
Proof. by destruct b. Qed.

Create HintDb pure discriminated.
#[export] Hint Resolve pure_ret pure_raise pure_get_obj pure_get_dict
  pure_index : pure.
#[export] Hint Extern 2 (pure (bind _ _)) =>
  apply pure_bind; [|intros ?] : pure.
#[export] Hint Extern 2 (pure (if _ then _ else _)) => apply pure_if : pure.
#[export] Hint Extern 3 (pure (match ?x with _ => _ end)) => destruct x : pure.

Ltac solve_pure := unfold get_info; auto 20 with pure.

Lemma pure_get_info l : pure (get_info l).
Proof. solve_pure. Qed.
#[export] Hint Resolve pure_get_info : pure.

Lemma pure_is_bound_var l : pure (is_bound_var l).
Proof. unfold is_bound_var. solve_pure. Qed.

Lemma pure_math_type l : pure (math_type l).
Proof. unfold math_type. solve_pure. Qed.

Lemma pure_name l : pure (name l).
Proof. unfold name. solve_pure. Qed.

Lemma pure_value l : pure (value l).
Proof. unfold value. solve_pure. Qed.

Lemma pure_bound_var_nb l : pure (bound_var_nb l).
Proof. unfold bound_var_nb. solve_pure. Qed.
#[export] Hint Resolve pure_is_bound_var pure_math_type pure_name pure_value
  pure_bound_var_nb : pure.

Lemma pure_has_bound_var l : pure (has_bound_var l).
Proof. unfold has_bound_var. solve_pure. Qed.

Lemma pure_BoundVar_eq a b : pure (BoundVar_eq a b).
Proof. unfold BoundVar_eq. solve_pure. Qed.

Lemma pure_display_name l : pure (display_name l).
Proof. unfold display_name. solve_pure. Qed.
#[export] Hint Resolve pure_has_bound_var pure_BoundVar_eq
  pure_display_name : pure.

Lemma bind_inv_pure {A B} (m : M A) (k : A → M B) s b s' :
  pure m → bind m k s = (Ok b, s') →
  ∃ a, m s = (Ok a, s) ∧ k a s = (Ok b, s').
Proof.
  intros Hm H. apply bind_inv_Ok in H as (a & s1 & H1 & H2).
  assert (s1 = s) as -> by (eapply Hm; exact H1). eauto.
Qed.

Lemma ret_inv {A} (a b : A) s s' : ret a s = (Ok b, s') → b = a ∧ s' = s.
Proof. by intros [= -> ->]. Qed.

(** ** Match tags are reset *)

Lemma set_bound_var_nb_twice v w i :
  set_bound_var_nb v (set_bound_var_nb w i) = set_bound_var_nb v i.
Proof. reflexivity. Qed.

Lemma tags_reset_refl s : tags_reset s s.
Proof. repeat split; [lia|]. intros d. by left. Qed.

Lemma tags_reset_trans s1 s2 s3 :
  tags_reset s1 s2 → tags_reset s2 s3 → tags_reset s1 s3.
Proof.
  intros (Ho & Hv & Hc & Hn & Hk & Hd) (Ho' & Hv' & Hc' & Hn' & Hk' & Hd').
  repeat split; [congruence.. | lia |].
  intros d. destruct (Hd d) as [E|E], (Hd' d) as [E'|E']; rewrite E', E.
  - by left.
  - by right.
  - by right.
  - right. by destruct (dicts s1 !! d).
Qed.

(** Writing the entry ['bound_var_nb'] of [self.info]. *)
Lemma upd_info_tag_inv l v s s' :
  upd_info l (set_bound_var_nb v) s = (Ok tt, s') →
  ∃ o, objs s !! l = Some o ∧
       objs s' = objs s ∧ Variables s' = Variables s ∧
       constants s' = constants s ∧ number_sets s' = number_sets s ∧
       bound_var_counter s' = bound_var_counter s ∧
       ∀ d, dicts s' !! d = if decide (info o = d)
                            then set_bound_var_nb v <$> dicts s !! d
                            else dicts s !! d.
Proof.
  unfold upd_info. intros H.
  apply bind_inv_pure in H as (o & Ho & H); [|apply pure_get_obj].
  apply get_obj_inv in Ho as [_ Ho]. exists o. split; [done|].
  unfold upd_dict in H. destruct (dicts s !! info o) as [i|] eqn:Ei; [|done].
  injection H as <-. repeat split. intros d. cbn.
  rewrite lookup_insert. case_decide; [subst; by rewrite Ei|done].
Qed.

Lemma BoundVar_method_inv {A} l (m : M A) s a s' :
  BoundVar_method l m s = (Ok a, s') → m s = (Ok a, s').
Proof.
  unfold BoundVar_method. intros H.
  apply bind_inv_pure in H as (o & _ & H); [|apply pure_get_obj].
  by destruct (cls o).
Qed.

(** Marking two bound variables, comparing, and unmarking them. *)
Lemma mark_unmark_tags_reset bv1 bv2 s1 s2 s3 s3' s4 :
  mark_identical_bound_vars bv1 bv2 s1 = (Ok tt, s2) →
  tags_reset s2 s3 →
  unmark_bound_var bv1 s3 = (Ok tt, s3') →
  unmark_bound_var bv2 s3' = (Ok tt, s4) →
  tags_reset s1 s4.
Proof.
  unfold mark_identical_bound_vars, unmark_bound_var.
  intros Hm (Ho & Hv & Hc & Hn & Hk & Hd) Hu1 Hu2.
  apply bind_inv_Ok in Hm as ([] & s1a & [= <-] & Hm).
  apply bind_inv_pure in Hm as (? & [= <-] & Hm); [|by intros ??? [= _ <-]].
  apply bind_inv_Ok in Hm as ([] & s1b & Hm1 & Hm2).
  apply upd_info_tag_inv in Hm1
    as (o1 & Ho1 & Eo1 & Ev1 & Ec1 & En1 & Ek1 & Ed1).
  apply upd_info_tag_inv in Hm2
    as (o2 & Ho2 & Eo2 & Ev2 & Ec2 & En2 & Ek2 & Ed2).
  apply upd_info_tag_inv in Hu1
    as (o1' & Ho1' & Eo3 & Ev3 & Ec3 & En3 & Ek3 & Ed3).
  apply upd_info_tag_inv in Hu2
    as (o2' & Ho2' & Eo4 & Ev4 & Ec4 & En4 & Ek4 & Ed4).
  cbn in Ho1, Eo1, Ev1, Ec1, En1, Ek1.
  assert (o1' = o1) as -> by congruence.
  assert (o2' = o2) as -> by congruence.
  repeat split; [congruence.. | |].
  { rewrite Ek1 in Ek2. cbn in Ek2. lia. }
  intros d. rewrite Ed4, Ed3.
  specialize (Hd d). rewrite Ed2, Ed1 in Hd. cbn in Hd.
  repeat case_decide; destruct Hd as [-> | ->];
    destruct (dicts s1 !! d); auto.
Qed.

Section eq_tags_reset.

Variable eq_ : loc → loc → M bool.
Hypothesis eq_tags_reset :
  ∀ a b s r s', eq_ a b s = (Ok r, s') → tags_reset s s'.

Lemma py_eq_with_tags_reset a b s r s' :
  py_eq_with eq_ a b s = (Ok r, s') → tags_reset s s'.
Proof.
  unfold py_eq_with. intros H.
  apply bind_inv_pure in H as (oa & _ & H); [|apply pure_get_obj].
  apply bind_inv_pure in H as (ob & _ & H); [|apply pure_get_obj].
  destruct (cls oa), (cls ob);
    [by eapply eq_tags_reset | apply pure_BoundVar_eq in H as -> ..];
    apply tags_reset_refl.
Qed.

Lemma children_loop_tags_reset ps : ∀ equal s r s',
  children_loop (py_eq_with eq_) ps equal s = (Ok r, s') → tags_reset s s'.
Proof.
  induction ps as [|[c0 c1] ps IH]; intros equal s r s' H.
  - apply ret_inv in H as [_ ->]. apply tags_reset_refl.
  - cbn [children_loop] in H.
    apply bind_inv_Ok in H as (e & s1 & H1 & H).
    eapply tags_reset_trans; [by eapply py_eq_with_tags_reset|by eapply IH].
Qed.

End eq_tags_reset.

Lemma MathObject_eq_tags_reset fuel : ∀ a b s r s',
  MathObject_eq fuel a b s = (Ok r, s') → tags_reset s s'.
Proof.
  induction fuel as [|fuel IH]; intros a b s r s' H; [discriminate H|].
  rewrite MathObject_eq_S in H.
  case_bool_decide; [apply ret_inv in H as [_ ->]; apply tags_reset_refl|].
  destruct (is_no_math_type a || is_no_math_type b);
    [apply ret_inv in H as [_ ->]; apply tags_reset_refl|].
  apply bind_inv_pure in H as (o1 & _ & H); [|apply pure_get_obj].
  apply bind_inv_pure in H as (n1 & _ & H); [|apply pure_name].
  apply bind_inv_pure in H as (v1 & _ & H); [|apply pure_value].
  apply bind_inv_pure in H as (o2 & _ & H); [|apply pure_get_obj].
  apply bind_inv_pure in H as (n2 & _ & H); [|apply pure_name].
  apply bind_inv_pure in H as (v2 & _ & H); [|apply pure_value].
  destruct (negb _);
    [apply ret_inv in H as [_ ->]; apply tags_reset_refl|].
  apply bind_inv_pure in H as (mt1 & _ & H); [|apply pure_math_type].
  apply bind_inv_pure in H as (mt2 & _ & H); [|apply pure_math_type].
  apply bind_inv_Ok in H as (e & s1 & Hmt & H).
  apply (py_eq_with_tags_reset _ (IH)) in Hmt.
  eapply tags_reset_trans; [exact Hmt|]. clear Hmt.
  destruct (negb e);
    [apply ret_inv in H as [_ ->]; apply tags_reset_refl|].
  destruct (negb _);
    [apply ret_inv in H as [_ ->]; apply tags_reset_refl|].
  apply bind_inv_pure in H as (hbv & _ & H); [|apply pure_has_bound_var].
  apply bind_inv_Ok in H as (marked & s2 & Hmark & H).
  apply bind_inv_Ok in H as (equal & s3 & Hloop & H).
  apply (children_loop_tags_reset _ IH) in Hloop.
  apply bind_inv_Ok in H as ([] & s4 & Hunmark & H).
  apply ret_inv in H as [_ ->].
  destruct hbv.
  - apply bind_inv_pure in Hmark as (bv1 & _ & Hmark); [|apply pure_index].
    apply bind_inv_pure in Hmark as (bv2 & _ & Hmark); [|apply pure_index].
    apply bind_inv_Ok in Hmark as ([] & s2' & Hmark & Hret).
    apply ret_inv in Hret as [-> ->].
    apply BoundVar_method_inv in Hmark.
    apply bind_inv_Ok in Hunmark as ([] & s3' & Hu1 & Hu2).
    apply BoundVar_method_inv in Hu1, Hu2.
    by eapply mark_unmark_tags_reset.
  - apply ret_inv in Hmark as [-> ->]. apply ret_inv in Hunmark as [_ ->].
    done.
Qed.

Lemma py_eq_tags_reset fuel a b s r s' :
  py_eq fuel a b s = (Ok r, s') → tags_reset s s'.
Proof. apply py_eq_with_tags_reset, MathObject_eq_tags_reset. Qed.

Lemma py_eq_same fuel a s :
  is_Some (objs s !! a) → py_eq (S fuel) a a s = (Ok true, s).
Proof.
  intros [o Ho]. unfold py_eq, py_eq_with.
  rewrite !(bind_Ok _ _ _ _ _ (get_obj_Some _ _ _ Ho)).
  destruct (cls o).
  - rewrite MathObject_eq_S. by rewrite bool_decide_eq_true_2.
  - unfold BoundVar_eq. by rewrite bool_decide_eq_true_2.
Qed.

(** C1 (amended): [a == a] is true, for the method [MathObject.__eq__] and
    for the operator; and when a comparison of [a] and [b] returns, with
    either answer, every dictionary it has written carries the default tag
    [-1] (not 0) under ['bound_var_nb'], and is otherwise as before. *)
Theorem MathObject_eq_refl_and_tags_reset (fuel : nat) (a b : loc)
    (s : state) (r : bool) (s' : state) :
  MathObject_eq (S fuel) a a s = (Ok true, s) ∧
  (is_Some (objs s !! a) → py_eq (S fuel) a a s = (Ok true, s)) ∧
  (MathObject_eq fuel a b s = (Ok r, s') ∨ py_eq fuel a b s = (Ok r, s') →
   tags_reset s s' ∧
   ∀ d i', dicts s' !! d = Some i' →
           dicts s !! d = Some i' ∨ i_bound_var_nb i' = Some (-1)%Z).
Proof.
  split; [|split].
  - rewrite MathObject_eq_S. by rewrite bool_decide_eq_true_2.
  - apply py_eq_same.
  - intros H.
    assert (Ht : tags_reset s s').
    { destruct H as [H|H];
        [by eapply MathObject_eq_tags_reset | by eapply py_eq_tags_reset]. }
    split; [exact Ht|]. intros d i' Hd.
    destruct Ht as (_ & _ & _ & _ & _ & Ht).
    destruct (Ht d) as [E|E]; rewrite E in Hd; [by left|right].
    destruct (dicts s !! d); [|done]. by injection Hd as <-.
Qed.

Lemma MathObject_eq_refl_and_tags_reset_witness :
  let s := snd (session_forall_forall initial_state) in
  let s' := snd (MathObject_eq 3 8 9 s) in
  MathObject_eq 3 8 9 s = (Ok true, s') ∧
  bound_var_counter s = 0%Z ∧ bound_var_counter s' = 1%Z ∧
  tags_reset s s'.
Proof.
  intros s s'.
  assert (H : MathObject_eq 3 8 9 s = (Ok true, s')) by by_computation.
  split; [exact H|]. split; [by_computation|]. split; [by_computation|].
  destruct (MathObject_eq_refl_and_tags_reset 3 8 9 s true s')
    as (_ & _ & Ht).
  apply Ht. left. exact H.
Defined.

(** C1 (as stated) fails on the tag value: comparing [∀x:X, P] with
    [∀y:X, P] marks both bound variables with the tag 1 (the counter moves
    from 0 to 1) and leaves them with the tag [-1], which is not 0. *)
Lemma MathObject_eq_tags_not_zero :
  let s := snd (session_forall_forall initial_state) in
  let s' := snd (MathObject_eq 3 8 9 s) in
  fst (session_forall_forall initial_state) = Ok (8%nat, 9%nat) ∧
  fst (MathObject_eq 3 8 9 s) = Ok true ∧
  bound_var_counter s' = 1%Z ∧
  fst (bound_var_nb 5 s') = Ok (Some (-1)%Z) ∧
  fst (bound_var_nb 6 s') = Ok (Some (-1)%Z) ∧
  fst (bound_var_nb 5 s') ≠ Ok (Some 0%Z).
Proof.
  intros s s'.
  assert (H : fst (bound_var_nb 5 s') = Ok (Some (-1)%Z)) by by_computation.
  split; [by_computation|]. split; [by_computation|].
  split; [by_computation|]. split; [exact H|]. split; [by_computation|].
  rewrite H. discriminate.
Qed.

(** The tags are not reset when the comparison raises: with a second child
    that is not a [BoundVar] on the right-hand side, [unmark_bound_var] is
    not found, and the bound variables [u] and [v] of the enclosing binders
    keep the tag 1. *)
Remark MathObject_eq_raise_keeps_tags :
  let s := snd (session_unmarked_bound_var initial_state) in
  let s' := snd (MathObject_eq 5 11 13 s) in
  fst (session_unmarked_bound_var initial_state)
  = Ok (11%nat, 13%nat, 6%nat, 8%nat) ∧
  fst (MathObject_eq 5 11 13 s) = Raise AttributeError ∧
  fst (bound_var_nb 6 s) = Ok (Some (-1)%Z) ∧
  fst (bound_var_nb 6 s') = Ok (Some 1%Z) ∧
  fst (bound_var_nb 8 s') = Ok (Some 1%Z).
Proof. by_computation. Qed.

(** ** Containment *)

(** The body of [contains], one level of recursion unfolded. *)
Lemma contains_S fuel self other :
  contains (S fuel) self other =
    if bool_decide (self = NO_MATH_TYPE) then ret 0%Z
    else
      let! e := MathObject_eq fuel self other in
      if e then ret 1%Z
      else
        let! o := get_obj self in
        let! _tests := mapM (λ child, contains fuel child other) (children o) in
        let! counts := mapM (λ child, contains fuel child other) (children o) in
        ret (foldr Z.add 0%Z counts).
Proof. reflexivity. Qed.

Lemma mapM_nonneg {A} (f : A → M Z) (xs : list A) :
  (∀ x s r s', f x s = (Ok r, s') → (0 ≤ r)%Z) →
  ∀ s rs s', mapM f xs s = (Ok rs, s') → (0 ≤ foldr Z.add 0 rs)%Z.
Proof.
  intros Hf. induction xs as [|x xs IH]; intros s rs s' H.
  - apply ret_inv in H as [-> _]. cbn. lia.
  - cbn [mapM] in H.
    apply bind_inv_Ok in H as (y & s1 & Hy & H).
    apply bind_inv_Ok in H as (ys & s2 & Hys & H).
    apply ret_inv in H as [-> _]. cbn.
    apply Hf in Hy. apply IH in Hys. lia.
Qed.

Lemma contains_nonneg fuel : ∀ h n s r s',
  contains fuel h n s = (Ok r, s') → (0 ≤ r)%Z.
Proof.
  induction fuel as [|fuel IH]; intros h n s r s' H; [discriminate H|].
  rewrite contains_S in H.
  case_bool_decide; [apply ret_inv in H as [-> _]; lia|].
  apply bind_inv_Ok in H as (e & s1 & _ & H).
  destruct e; [apply ret_inv in H as [-> _]; lia|].
  apply bind_inv_Ok in H as (o & s2 & _ & H).
  apply bind_inv_Ok in H as (tests & s3 & _ & H).
  apply bind_inv_Ok in H as (counts & s4 & Hc & H).
  apply ret_inv in H as [-> _].
  eapply mapM_nonneg; [|exact Hc]. intros x. apply IH.
Qed.

(** C3 (amended): [contains] is 0 on the sentinel [NO_MATH_TYPE]; on
    another haystack it is 1 when the root equals the needle, without a look
    at the children, and otherwise the sum of [contains] over the children
    (never negative); and [contains(t, t)] is 1 for [t] not the sentinel. *)
Theorem contains_cases (fuel : nat) (h n : loc) (s : state) :
  contains (S fuel) NO_MATH_TYPE n s = (Ok 0%Z, s) ∧
  (h ≠ NO_MATH_TYPE →
   ∀ s', MathObject_eq fuel h n s = (Ok true, s') →
         contains (S fuel) h n s = (Ok 1%Z, s')) ∧
  (h ≠ NO_MATH_TYPE →
   ∀ s1 o tests s2 counts s3,
     MathObject_eq fuel h n s = (Ok false, s1) →
     objs s1 !! h = Some o →
     mapM (λ child, contains fuel child n) (children o) s1 = (Ok tests, s2) →
     mapM (λ child, contains fuel child n) (children o) s2 = (Ok counts, s3) →
     contains (S fuel) h n s = (Ok (foldr Z.add 0%Z counts), s3) ∧
     (0 ≤ foldr Z.add 0%Z counts)%Z) ∧
  (h ≠ NO_MATH_TYPE → contains (S (S fuel)) h h s = (Ok 1%Z, s)).
Proof.
  split; [|split; [|split]].
  - rewrite contains_S. by rewrite bool_decide_eq_true_2.
  - intros Hh s' He. rewrite contains_S.
    rewrite bool_decide_eq_false_2 by done.
    by rewrite (bind_Ok _ _ _ _ _ He).
  - intros Hh s1 o tests s2 counts s3 He Ho Ht Hc. split.
    + rewrite contains_S. rewrite bool_decide_eq_false_2 by done.
      rewrite (bind_Ok _ _ _ _ _ He).
      rewrite (bind_Ok _ _ _ _ _ (get_obj_Some _ _ _ Ho)).
      rewrite (bind_Ok _ _ _ _ _ Ht). by rewrite (bind_Ok _ _ _ _ _ Hc).
    + eapply mapM_nonneg; [|exact Hc]. intros x. apply contains_nonneg.
  - intros Hh. rewrite contains_S. rewrite bool_decide_eq_false_2 by done.
    rewrite (bind_Ok _ _ _ true s); [reflexivity|].
    rewrite MathObject_eq_S. by rewrite bool_decide_eq_true_2.
Qed.

Lemma contains_cases_witness :
  let s := snd (session_with_child initial_state) in
  contains 3 4 PROP s = (Ok 1%Z, s) ∧
  contains 3 4 NO_MORE_GOALS s = (Ok 0%Z, s) ∧
  contains 2 4 4 s = (Ok 1%Z, s).
Proof.
  intros s.
  destruct (contains_cases 2 4%nat PROP s) as (_ & _ & H3 & _).
  destruct (contains_cases 2 4%nat NO_MORE_GOALS s) as (_ & _ & H3' & _).
  destruct (contains_cases 1 PROP PROP s) as (_ & H2 & _ & _).
  destruct (contains_cases 0 4%nat 4%nat s) as (_ & _ & _ & H4).
  split; [|split].
  - apply (H3 ltac:(discriminate) s
              (mkObj MathObjectCls "PROP_NOT" 4 [PROP] None None false [])
              [1%Z] s [1%Z] s); by_computation.
  - apply (H3' ltac:(discriminate) s
               (mkObj MathObjectCls "PROP_NOT" 4 [PROP] None None false [])
               [0%Z] s [0%Z] s); by_computation.
  - apply H4. discriminate.
Defined.

(** C3 (as stated) fails: every term equals the sentinel, so the haystack
    [¬PROP] has two sub-terms equal to the needle [NO_MATH_TYPE], itself and
    its child; the count as specified is 2, [contains] answers 1. *)
Lemma contains_stops_at_matching_root :
  let s := snd (session_with_child initial_state) in
  fst (session_with_child initial_state) = Ok 4%nat ∧
  fst (get_children 4 s) = Ok [PROP] ∧
  fst (MathObject_eq 2 4 NO_MATH_TYPE s) = Ok true ∧
  fst (MathObject_eq 2 PROP NO_MATH_TYPE s) = Ok true ∧
  fst (contains 3 PROP NO_MATH_TYPE s) = Ok 1%Z ∧
  fst (contains 3 4 NO_MATH_TYPE s) = Ok 1%Z ∧
  fst (contains_as_specified 3 4 NO_MATH_TYPE s) = Ok 2%Z ∧
  fst (contains 3 4 NO_MATH_TYPE s)
  ≠ fst (contains_as_specified 3 4 NO_MATH_TYPE s).
Proof.
  intros s.
  assert (H1 : fst (contains 3 4 NO_MATH_TYPE s) = Ok 1%Z) by by_computation.
  assert (H2 : fst (contains_as_specified 3 4 NO_MATH_TYPE s) = Ok 2%Z)
    by by_computation.
  do 5 (split; [by_computation|]).
  split; [exact H1|]. split; [exact H2|]. rewrite H1, H2. discriminate.
Qed.

(** ** Frame properties of the constructors *)

Section preserves.

Context (R : relation state) `{!PreOrder R}.

Lemma preserves_ret {A} (a : A) : preserves R (ret a).
Proof. by intros s b s' [= _ <-]. Qed.

Lemma preserves_raise {A} e : preserves R (raise (A := A) e).
Proof. intros s b s' [=]. Qed.

Lemma preserves_bind {A B} (m : M A) (k : A → M B) :
  preserves R m → (∀ a, preserves R (k a)) → preserves R (bind m k).
Proof.
  intros Hm Hk s b s' H. apply bind_inv_Ok in H as (a & s1 & H1 & H2).
  etrans; [by eapply Hm | by eapply Hk].
Qed.

Lemma preserves_pure {A} (m : M A) : pure m → preserves R m.
Proof. intros Hm s a s' H. by apply Hm in H as ->. Qed.

Lemma preserves_if {A} (b : bool) (m1 m2 : M A) :
  preserves R m1 → preserves R m2 → preserves R (if b then m1 else m2).
Proof. by destruct b. Qed.

Lemma preserves_forM_ {A} (f : A → M unit) xs :
  (∀ x, preserves R (f x)) → preserves R (forM_ f xs).
Proof.
  intros Hf. induction xs as [|x xs IH]; cbn [forM_].
  - apply preserves_ret.
  - apply preserves_bind; [apply Hf | intros _; apply IH].
Qed.

Lemma preserves_get_state : preserves R get_state.
Proof. by intros s a s' [= _ <-]. Qed.

End preserves.

Global Instance frame_preorder D : PreOrder (frame D).
Proof.
  split.
  - intros s. repeat split; [|done]. intros l o Ho. by exists o.
  - intros s1 s2 s3 (Ho & Hv & Hc & Hd) (Ho' & Hv' & Hc' & Hd').
    repeat split; [|congruence..|by eauto].
    intros l o Hl. destruct (Ho l o Hl) as (o' & Hl' & ? & ? & ?).
    destruct (Ho' l o' Hl') as (o'' & Hl'' & ? & ? & ?).
    exists o''. repeat split; congruence.
Qed.

Global Instance dicts_same_preorder : PreOrder dicts_same.
Proof.
  split; [done|]. unfold dicts_same. intros s1 s2 s3 H1 H2. congruence.
Qed.

Lemma frame_mono D D' s s' : D ⊆ D' → frame D s s' → frame D' s s'.
Proof.
  intros HD (Ho & Hv & Hc & Hd). repeat split; [done..|].
  intros d i Hn. apply Hd. set_solver.
Qed.

Lemma preserves_alloc_obj D o : preserves (frame D) (alloc_obj o).
Proof.
  intros s l s' [= <- <-]. repeat split; [|done].
  intros l o' Hl. exists o'. split; [|done]. by apply lookup_alloc_old.
Qed.

Lemma preserves_alloc_dict D i : preserves (frame D) (alloc_dict i).
Proof.
  intros s l s' [= <- <-]. repeat split; [by eexists|]. cbn.
  intros d i' _ Hd. rewrite lookup_insert_ne; [done|].
  intros E. rewrite <- E in Hd.
  by rewrite (proj1 (not_elem_of_dom _ _) (is_fresh _)) in Hd.
Qed.

Lemma preserves_upd_obj D l f :
  (∀ o, cls (f o) = cls o ∧ node (f o) = node o ∧ info (f o) = info o) →
  preserves (frame D) (upd_obj l f).
Proof.
  intros Hf s [] s'. unfold upd_obj.
  destruct (objs s !! l) as [o|] eqn:Ho; [|done]. intros [= <-].
  repeat split; [|done]. intros l' o' Hl'. cbn.
  destruct (decide (l = l')) as [<-|Hne].
  - rewrite lookup_insert_eq. exists (f o). split; [done|].
    rewrite Ho in Hl'. injection Hl' as <-. apply Hf.
  - rewrite lookup_insert_ne by done. by exists o'.
Qed.

Lemma preserves_upd_dict D d f : d ∈ D → preserves (frame D) (upd_dict d f).
Proof.
  intros Hd s [] s'. unfold upd_dict.
  destruct (dicts s !! d) as [i|] eqn:Hi; [|done]. intros [= <-].
  repeat split; [by eexists|]. cbn. intros d' i' Hn Hd'.
  rewrite lookup_insert_ne; [done|]. by intros ->.
Qed.

Lemma preserves_modify_number_sets D f :
  preserves (frame D) (modify (with_number_sets f)).
Proof. intros s [] s' [= <-]. repeat split; [by eexists|done]. Qed.

Lemma dicts_same_alloc_obj o : preserves dicts_same (alloc_obj o).
Proof. by intros s l s' [= <- <-]. Qed.

Lemma dicts_same_upd_obj l f : preserves dicts_same (upd_obj l f).
Proof.
  intros s [] s'. unfold upd_obj. destruct (objs s !! l); [|done].
  by intros [= <-].
Qed.

Create HintDb frame discriminated.
#[export] Hint Resolve preserves_alloc_obj preserves_alloc_dict
  preserves_modify_number_sets dicts_same_alloc_obj dicts_same_upd_obj
  : frame.
#[export] Hint Extern 1 (preserves _ (ret _)) =>
  apply preserves_ret; apply _ : frame.
#[export] Hint Extern 1 (preserves _ (raise _)) =>
  apply preserves_raise : frame.
#[export] Hint Extern 1 (preserves _ get_state) =>
  apply preserves_get_state; apply _ : frame.
#[export] Hint Extern 1 (preserves (frame _) (upd_obj _ _)) =>
  apply preserves_upd_obj; intros ?; by repeat split : frame.
#[export] Hint Extern 5 (preserves _ _) =>
  apply preserves_pure; [apply _ | solve [auto 20 with pure]] : frame.
#[export] Hint Extern 2 (preserves _ (bind _ _)) =>
  apply preserves_bind; [apply _ | | intros ?] : frame.
#[export] Hint Extern 2 (preserves _ (if _ then _ else _)) =>
  apply preserves_if : frame.
#[export] Hint Extern 3 (preserves _ (match ?x with _ => _ end)) =>
  destruct x : frame.
#[export] Hint Extern 2 (preserves _ (forM_ _ _)) =>
  apply preserves_forM_; [apply _ | intros ?] : frame.

Ltac solve_frame := auto 30 with frame.

Lemma preserves_MathObject_init D c node_ info_ children_ mt :
  preserves (frame D) (MathObject_init c node_ info_ children_ mt).
Proof. unfold MathObject_init. solve_frame. Qed.

Lemma dicts_same_MathObject_init c node_ info_ children_ mt :
  preserves dicts_same (MathObject_init c node_ info_ children_ mt).
Proof. unfold MathObject_init. solve_frame. Qed.
#[export] Hint Resolve preserves_MathObject_init dicts_same_MathObject_init
  : frame.

(** The new object of [MathObject.__init__]. *)
Lemma MathObject_init_inv c node_ info_ children_ mt s self s' :
  MathObject_init c node_ info_ children_ mt s = (Ok self, s') →
  objs s !! self = None ∧
  ∃ o, objs s' !! self = Some o ∧
       cls o = c ∧ node o = node_ ∧ info o = info_.
Proof.
  unfold MathObject_init. intros H.
  apply bind_inv_Ok in H as (l & s1 & Ha & H).
  injection Ha as <- <-.
  assert (Hk : frame ∅ (with_objs
                 (<[fresh (dom (objs s)) :=
                      mkObj c node_ info_ children_ mt None false []]>) s) s'
               ∧ self = fresh (dom (objs s))).
  { apply bind_inv_pure in H as (hbv & _ & H); [|apply pure_has_bound_var].
    apply bind_inv_Ok in H as ([] & s2 & H2 & H).
    apply bind_inv_Ok in H as ([] & s3 & H3 & H).
    apply ret_inv in H as [-> ->]. split; [|done].
    etrans; [|eapply (_ : preserves (frame ∅) _), H3].
    eapply (_ : preserves (frame ∅) _), H2. }
  destruct Hk as [(Hk & _) ->]. split; [apply fresh_obj_None|].
  destruct (Hk (fresh (dom (objs s)))
               (mkObj c node_ info_ children_ mt None false []))
    as (o & Ho & ? & ? & ?); [apply lookup_insert_eq|].
  by exists o.
  Unshelve. all: solve_frame.
Qed.

Lemma upd_obj_inv l f s s' :
  upd_obj l f s = (Ok tt, s') →
  ∃ o, objs s !! l = Some o ∧ s' = with_objs (<[l := f o]>) s.
Proof.
  unfold upd_obj. destruct (objs s !! l) as [o|]; [|done].
  intros [= <-]. by exists o.
Qed.

Lemma upd_info_inv l f s s' :
  upd_info l f s = (Ok tt, s') →
  ∃ o i, objs s !! l = Some o ∧ dicts s !! info o = Some i ∧
         s' = with_dicts (<[info o := f i]>) s.
Proof.
  unfold upd_info. intros H.
  apply bind_inv_pure in H as (o & Ho & H); [|apply pure_get_obj].
  apply get_obj_inv in Ho as [_ Ho]. unfold upd_dict in H.
  destruct (dicts s !! info o) as [i|] eqn:Ei; [|done].
  injection H as <-. by exists o, i.
Qed.

(** Writing into [self.info] stays inside the dictionary of [self]. *)
Lemma preserves_upd_info D l f s s' o :
  objs s !! l = Some o → info o ∈ D →
  upd_info l f s = (Ok tt, s') → frame D s s'.
Proof.
  intros Ho Hd H. apply upd_info_inv in H as (o' & i & Ho' & Hi & ->).
  assert (o' = o) as -> by congruence.
  eapply (preserves_upd_dict D (info o) f Hd s tt).
  unfold upd_dict. by rewrite Hi.
Qed.

(** What [BoundVar.__init__] does: a new object of class [BoundVar] on the
    dictionary [d], whose former name became the lean name; no other
    dictionary is written. *)
Lemma BoundVar_init_inv node_ d children_ mt p s self s' i :
  dicts s !! d = Some i →
  BoundVar_init node_ d children_ mt p s = (Ok self, s') →
  frame {[d]} s s' ∧
  objs s !! self = None ∧
  (∃ o, objs s' !! self = Some o ∧
        cls o = BoundVarCls ∧ node o = node_ ∧ info o = d) ∧
  (∃ i', dicts s' !! d = Some i' ∧
         i_lean_name i' = Some (lean_name_of i) ∧
         i_bound_var_nb i' = Some (-1)%Z).
Proof.
  intros Hi H. unfold BoundVar_init in H.
  apply bind_inv_Ok in H as (l & s1 & H1 & H).
  pose proof (preserves_MathObject_init {[d]} _ _ _ _ _ _ _ _ H1) as F1.
  pose proof (dicts_same_MathObject_init _ _ _ _ _ _ _ _ H1) as E1.
  apply MathObject_init_inv in H1 as (Hnew & o1 & Ho1 & Hc1 & Hn1 & Hd1).
  apply bind_inv_Ok in H as ([] & s2 & H2 & H).
  apply upd_obj_inv in H2 as (? & Ho2 & ->).
  apply bind_inv_Ok in H as ([] & s3 & H3 & H).
  apply upd_obj_inv in H3 as (o2 & Ho3 & ->).
  cbn in Ho3. rewrite lookup_insert_eq in Ho3.
  rewrite Ho1 in Ho2. injection Ho2 as <-. injection Ho3 as <-.
  apply bind_inv_Ok in H as ([] & s4 & H4 & H).
  unfold set_unnamed_bound_var in H4.
  apply bind_inv_pure in H4 as (i3 & Hi3 & H4); [|apply pure_get_info].
  apply bind_inv_Ok in H4 as ([] & s4a & H4a & H4b).
  apply upd_info_inv in H4a as (o3 & i3' & Ho3 & Hi3' & ->).
  cbn in Ho3, Hi3'. rewrite lookup_insert_eq in Ho3. injection Ho3 as <-.
  cbn in Hi3'. rewrite Hd1 in Hi3'. rewrite E1, Hi in Hi3'.
  injection Hi3' as <-.
  unfold get_info in Hi3.
  apply bind_inv_pure in Hi3 as (o3 & Ho3 & Hi3); [|apply pure_get_obj].
  apply get_obj_inv in Ho3 as [_ Ho3]. cbn in Ho3.
  rewrite lookup_insert_eq in Ho3. injection Ho3 as <-.
  apply get_dict_inv in Hi3 as [_ Hi3]. cbn in Hi3.
  rewrite Hd1, E1, Hi in Hi3. injection Hi3 as <-.
  apply upd_obj_inv in H4b as (o4 & Ho4 & ->).
  cbn in Ho4. rewrite lookup_insert_eq in Ho4. injection Ho4 as <-.
  apply bind_inv_pure in H as (keep & _ & H);
    [|unfold keep_lean_name, lean_name; solve_pure].
  apply bind_inv_Ok in H as ([] & s5 & H5 & H).
  apply bind_inv_Ok in H as ([] & s6 & H6 & H).
  apply ret_inv in H as [-> ->].
  apply upd_obj_inv in H6 as (o6 & Ho6 & ->).
  set (i4 := set_bound_var_nb (Some (-1)%Z)
               (set_lean_name (Some (lean_name_of i))
                  (set_name (Some "NO NAME") i))) in *.
  set (o5 := set_is_unnamed true
               (set_is_unnamed true (set_parent p o1))) in *.
  assert (H5' : ∃ o5' i5,
             objs s5 = <[l := o5']> (objs s1) ∧ cls o5' = BoundVarCls ∧
             node o5' = node_ ∧ info o5' = d ∧
             dicts s5 = <[d := i5]> (dicts s1) ∧
             i_lean_name i5 = Some (lean_name_of i) ∧
             i_bound_var_nb i5 = Some (-1)%Z ∧
             Variables s5 = Variables s1 ∧ constants s5 = constants s1).
  { destruct keep.
    - apply bind_inv_pure in H5 as (ln & _ & H5);
        [|unfold lean_name; solve_pure].
      unfold name_bound_var in H5.
      apply bind_inv_Ok in H5 as ([] & s5a & H5a & H5b).
      apply upd_info_inv in H5a as (o5' & i5 & Ho5 & Hi5 & ->).
      cbn in Ho5. rewrite lookup_insert_eq in Ho5. injection Ho5 as <-.
      cbn in Hi5. rewrite Hd1, lookup_insert_eq in Hi5. injection Hi5 as <-.
      apply upd_obj_inv in H5b as (o5' & Ho5 & ->).
      cbn in Ho5. rewrite lookup_insert_eq in Ho5. injection Ho5 as <-.
      exists (set_is_unnamed false o5), (set_name ln i4). cbn.
      rewrite Hd1, !insert_insert_eq. by repeat split.
    - apply ret_inv in H5 as [_ ->]. exists o5, i4. cbn.
      rewrite Hd1, !insert_insert_eq. by repeat split. }
  destruct H5' as (o5' & i5 & Eo5 & Hc5 & Hn5 & Hd5 & Ed5 & Hl5 & Hb5 & Ev5 & Ec5).
  rewrite Eo5 in Ho6. rewrite lookup_insert_eq in Ho6. injection Ho6 as <-.
  destruct F1 as (Fo & Fv & Fc & Fd).
  split; [|split; [done|split]].
  - repeat split; cbn; [|congruence..|].
    + intros l' o' Hl'. cbn. rewrite Eo5, insert_insert_eq.
      destruct (Fo l' o' Hl') as (o'' & Hl'' & ?).
      rewrite lookup_insert_ne; [by exists o''|]. intros <-. congruence.
    + intros d' i' Hne Hd'. cbn. rewrite Ed5, E1.
      rewrite lookup_insert_ne; [done|]. set_solver.
  - cbn. rewrite Eo5, insert_insert_eq, lookup_insert_eq. eexists.
    by repeat split.
  - exists i5. cbn. by rewrite Ed5, lookup_insert_eq.
Qed.

Lemma pure_is_prop l b : pure (is_prop l b).
Proof. unfold is_prop. solve_pure. Qed.

Lemma pure_is_type l b : pure (is_type l b).
Proof. unfold is_type. solve_pure. Qed.

Lemma pure_is_sequence l b : pure (is_sequence l b).
Proof. unfold is_sequence. solve_pure. Qed.

Lemma pure_is_set_family l b : pure (is_set_family l b).
Proof. unfold is_set_family. solve_pure. Qed.
#[export] Hint Resolve pure_is_prop pure_is_type pure_is_sequence
  pure_is_set_family : pure.

Lemma pure_is_variable l b : pure (is_variable l b).
Proof. unfold is_variable. solve_pure. Qed.
#[export] Hint Resolve pure_is_variable : pure.

Lemma pure_orM a b : pure a → pure b → pure (orM a b).
Proof. intros. unfold orM. solve_pure. Qed.

Lemma pure_andM a b : pure a → pure b → pure (andM a b).
Proof. intros. unfold andM. solve_pure. Qed.
#[export] Hint Resolve pure_orM pure_andM : pure.

Lemma preserves_from_math_type D mt p : preserves (frame D) (from_math_type mt p).
Proof.
  intros s self s' H. unfold from_math_type in H.
  apply bind_inv_Ok in H as (d & s1 & Ha & H).
  pose proof (preserves_alloc_dict D _ _ _ _ Ha) as (Fo & Fv & Fc & Fd).
  injection Ha as <- <-.
  eapply BoundVar_init_inv in H as ((Fo' & Fv' & Fc' & Fd') & _);
    [|apply lookup_insert_eq].
  repeat split; [|congruence..|].
  - intros l o Hl. destruct (Fo l o Hl) as (o' & Hl' & ? & ? & ?).
    destruct (Fo' l o' Hl') as (o'' & Hl'' & ? & ? & ?).
    exists o''. repeat split; congruence.
  - intros d i Hn Hd. apply Fd'; [|by apply Fd].
    intros ->%elem_of_singleton.
    by rewrite (proj1 (not_elem_of_dom _ _) (is_fresh _)) in Hd.
Qed.
#[export] Hint Resolve preserves_from_math_type : frame.

Lemma preserves_application D f v : preserves (frame D) (application f v).
Proof. unfold application. solve_frame. Qed.

Lemma preserves_lambda_ D v b mt : preserves (frame D) (lambda_ v b mt).
Proof. unfold lambda_. solve_frame. Qed.
#[export] Hint Resolve preserves_application preserves_lambda_ : frame.

Lemma preserves_replace_child_sequence D self idx :
  preserves (frame D) (replace_child_sequence self idx).
Proof. unfold replace_child_sequence. solve_frame. Qed.
#[export] Hint Resolve preserves_replace_child_sequence : frame.

Lemma preserves_process_sequences_and_likes D self :
  preserves (frame D) (process_sequences_and_likes self).
Proof. unfold process_sequences_and_likes. solve_frame. Qed.

Lemma preserves_number_sets_setitem D i v :
  preserves (frame D) (number_sets_setitem i v).
Proof. unfold number_sets_setitem. solve_frame. Qed.
#[export] Hint Resolve preserves_number_sets_setitem : frame.

Lemma pure_index_in l x : pure (index_in l x).
Proof. unfold index_in. solve_pure. Qed.
#[export] Hint Resolve pure_index_in : pure.

Lemma preserves_add_numbers_set_loop D name_ counter :
  preserves (frame D) (add_numbers_set_loop name_ counter).
Proof.
  induction counter as [|counter IH]; cbn [add_numbers_set_loop];
    solve_frame.
Qed.
#[export] Hint Resolve preserves_add_numbers_set_loop : frame.

Lemma preserves_add_numbers_set D name_ :
  preserves (frame D) (add_numbers_set name_).
Proof. unfold add_numbers_set. solve_frame. Qed.

(** ** Registry of variables *)







(** Constants are not variables: a record of node ['CONSTANT'] is cached
    in [constants] under its name and never entered in [Variables],
    whatever else it carries. *)
Lemma from_info_and_children_constants_by_name :
  let r := two_records "CONSTANT" "CONSTANT" (Some "e") (Some "pi") "id7"
                       initial_state in
  fst r = Ok (4%nat, 5%nat) ∧ 4%nat ≠ 5%nat ∧
  Variables (snd r) !! "id7" = None ∧
  constants (snd r) !! Some "e" = Some 4%nat ∧
  constants (snd r) !! Some "pi" = Some 5%nat.
Proof.
  intros r. split; [by_computation|]. split; [lia|]. by_computation.
Qed.

(** ** Unfolding of implicit definitions *)

Global Instance kept_preorder : PreOrder kept.
Proof.
  split.
  - by intros s.
  - intros s1 s2 s3 (Ho & Hd & Hp & Hi) (Ho' & Hd' & Hp' & Hi').
    repeat split; [by etrans..|congruence|congruence].
Qed.

Lemma kept_obj s s' l o :
  kept s s' → objs s !! l = Some o → objs s' !! l = Some o.
Proof. intros (Ho & _) H. by eapply lookup_weaken. Qed.


Lemma kept_alloc_obj o : preserves kept (alloc_obj o).
Proof.
  intros s l s' [= <- <-]. repeat split; [|done..]. cbn.
  apply insert_subseteq, fresh_obj_None.
Qed.

Lemma kept_alloc_dict i : preserves kept (alloc_dict i).
Proof.
  intros s l s' [= <- <-]. repeat split; [done| |done..]. cbn.
  apply insert_subseteq, not_elem_of_dom, is_fresh.
Qed.

Lemma kept_with_last_used d : preserves kept (modify (with_last_used d)).
Proof. by intros s [] s' [= <-]. Qed.
#[export] Hint Resolve kept_alloc_obj kept_alloc_dict kept_with_last_used
  : frame.

(** [__init__] on children that are plain objects: nothing but the new
    object is written. *)
Lemma MathObject_init_plain_children c node_ d cs mt s self s' :
  Forall (λ ch, ∃ oc, objs s !! ch = Some oc ∧ cls oc = MathObjectCls) cs →
  MathObject_init c node_ d cs mt s = (Ok self, s') →
  self = fresh (dom (objs s)) ∧
  ∃ cs', s' = with_objs (<[self := mkObj c node_ d cs' mt None false []]>) s ∧
         (cs' = cs ∨
          node_ = "APPLICATION" ∧
          ∃ c0 o0 c1, cs !! 0%nat = Some c0 ∧ objs s !! c0 = Some o0 ∧
                      node o0 = "APPLICATION" ∧ cs !! 1%nat = Some c1 ∧
                      cs' = children o0 ++ [c1]).
Proof.
  intros Hcs H. unfold MathObject_init in H.
  apply bind_inv_Ok in H as (l & sa & [= <- <-] & H).
  set (self0 := fresh (dom (objs s))) in *.
  set (o := mkObj c node_ d cs mt None false []) in *.
  set (sa := with_objs (<[self0 := o]>) s) in *.
  assert (Hold : ∀ l' o', objs s !! l' = Some o' → objs sa !! l' = Some o')
    by (intros l' o'; apply lookup_alloc_old).
  apply bind_inv_pure in H as (hbv & Hh & H); [|apply pure_has_bound_var].
  assert (hbv = false) as ->.
  { unfold has_bound_var in Hh.
    rewrite (bind_Ok _ _ _ o sa) in Hh
      by (apply get_obj_Some, lookup_insert_eq).
    cbn [node children o] in Hh.
    destruct (bool_decide (node_ ∈ HAVE_BOUND_VAR_NODES));
      [|by apply ret_inv in Hh as [-> _]].
    destruct (bool_decide (length cs = 3%nat));
      [|by apply ret_inv in Hh as [-> _]].
    apply bind_inv_pure in Hh as (c1 & Hc1 & Hh); [|apply pure_index].
    unfold index in Hc1. destruct (py_index cs 1) as [c1'|] eqn:E; [|done].
    apply ret_inv in Hc1 as [-> _].
    change 1%Z with (Z.of_nat 1) in E. rewrite py_index_nat in E.
    rewrite Forall_forall in Hcs.
    destruct (Hcs c1' (list_elem_of_lookup_2 _ _ _ E)) as (oc & Hoc & Hcls).
    unfold is_bound_var in Hh.
    rewrite (bind_Ok _ _ _ _ _ (get_obj_Some _ _ _ (Hold _ _ Hoc))) in Hh.
    apply ret_inv in Hh as [-> _]. by rewrite Hcls. }
  rewrite (bind_Ok _ _ _ tt sa) in H by done.
  apply bind_inv_Ok in H as ([] & sb & Hflat & H).
  apply ret_inv in H as [-> ->]. split; [done|].
  destruct (bool_decide (node_ = "APPLICATION")) eqn:Happ;
    [|apply ret_inv in Hflat as [_ ->]; exists cs; by split; [|left]].
  apply bool_decide_eq_true in Happ.
  apply bind_inv_pure in Hflat as (c0 & Hc0 & Hflat); [|apply pure_index].
  unfold index in Hc0. destruct (py_index cs 0) as [c0'|] eqn:E0; [|done].
  apply ret_inv in Hc0 as [-> _].
  change 0%Z with (Z.of_nat 0) in E0. rewrite py_index_nat in E0.
  apply bind_inv_pure in Hflat as (o0 & Ho0 & Hflat); [|apply pure_get_obj].
  apply get_obj_inv in Ho0 as [_ Ho0].
  rewrite Forall_forall in Hcs.
  destruct (Hcs c0' (list_elem_of_lookup_2 _ _ _ E0)) as (oc & Hoc & _).
  rewrite (Hold _ _ Hoc) in Ho0. injection Ho0 as ->.
  destruct (bool_decide (node o0 = "APPLICATION")) eqn:Happ0;
    [|apply ret_inv in Hflat as [_ ->]; exists cs; by split; [|left]].
  apply bool_decide_eq_true in Happ0.
  apply bind_inv_pure in Hflat as (c1 & Hc1 & Hflat); [|apply pure_index].
  unfold index in Hc1. destruct (py_index cs 1) as [c1'|] eqn:E1; [|done].
  apply ret_inv in Hc1 as [-> _].
  change 1%Z with (Z.of_nat 1) in E1. rewrite py_index_nat in E1.
  apply upd_obj_inv in Hflat as (o' & Ho' & ->).
  cbn in Ho'. rewrite lookup_insert_eq in Ho'. injection Ho' as <-.
  exists (children o0 ++ [c1']). split.
  - unfold sa, with_objs. cbn. by rewrite insert_insert_eq.
  - right. split; [done|]. by exists c0', o0, c1'.
Qed.

Section unfold.

Variable pattern_match : loc → loc → M bool.
Variable apply_matching : loc → M loc.

(** The pattern methods create objects at most: they leave what exists as
    it is. *)
Hypothesis pattern_match_kept : ∀ p t, preserves kept (pattern_match p t).
Hypothesis apply_matching_kept : ∀ p, preserves kept (apply_matching p).

Abbreviation unfold1 :=
  (unfold_implicit_definition pattern_match apply_matching).
Abbreviation unfold_rec :=
  (unfold_implicit_definition_recursively pattern_match apply_matching).

Lemma kept_unfold_loop self patterns : ∀ idx rws,
  preserves kept
    (unfold_loop pattern_match apply_matching self idx patterns rws).
Proof using pattern_match_kept apply_matching_kept.
  induction patterns as [|p patterns IH]; intros idx rws; cbn [unfold_loop];
    auto 30 using pattern_match_kept, apply_matching_kept with frame.
Qed.

Lemma kept_unfold self : preserves kept (unfold1 self).
Proof using pattern_match_kept apply_matching_kept.
  unfold unfold_implicit_definition.
  auto using kept_unfold_loop with frame.
Qed.

(** The body of the recursive unfolding, one level unfolded. *)
Lemma unfold_rec_S fuel self :
  unfold_rec (S fuel) self =
    let! rw_math_objects := unfold1 self in
    let math_object := match rw_math_objects with
                       | [] => self
                       | rw :: _ => rw
                       end in
    let! o := get_obj math_object in
    let! rw_children := mapM (unfold_rec fuel) (children o) in
    let! o' := get_obj math_object in
    let! mt := math_type math_object in
    MathObject_init MathObjectCls (node o') (info o') rw_children (Some mt).
Proof. reflexivity. Qed.

Lemma is_plain_kept s s' l : kept s s' → is_plain s l → is_plain s' l.
Proof. intros Hk (o & Ho & Hc). exists o. eauto using kept_obj. Qed.

Lemma mapM_unfold_rec_kept (f : loc → M loc) cs :
  (∀ t s r s', f t s = (Ok r, s') → kept s s' ∧ is_plain s' r) →
  ∀ s rs s', mapM f cs s = (Ok rs, s') → kept s s' ∧ Forall (is_plain s') rs.
Proof.
  intros Hf. induction cs as [|c cs IH]; intros s rs s' H.
  - apply ret_inv in H as [-> ->]. by split.
  - cbn [mapM] in H.
    apply bind_inv_Ok in H as (r & s1 & H1 & H).
    apply bind_inv_Ok in H as (rs' & s2 & H2 & H).
    apply ret_inv in H as [-> ->].
    apply Hf in H1 as [Hk1 Hp1]. apply IH in H2 as [Hk2 Hp2].
    split; [by etrans|]. constructor; [by eapply is_plain_kept|done].
Qed.

(** The result of a successful run: a new plain object, which carries the
    node, the dictionary and the type of the first rewrite of [t] (of [t]
    itself if there is none) and whose children are the results of the
    runs on the children of that object, in order (uncurried by the
    constructor if need be); what existed before is unchanged. *)
Lemma unfold_rec_inv fuel : ∀ t s r s',
  unfold_rec fuel t s = (Ok r, s') →
  kept s s' ∧ objs s !! r = None ∧
  ∃ fuel' rws s1 om rcs s2 ro,
    fuel = S fuel' ∧
    unfold1 t s = (Ok rws, s1) ∧
    objs s1 !! (match rws with [] => t | rw :: _ => rw end) = Some om ∧
    mapM (unfold_rec fuel') (children om) s1 = (Ok rcs, s2) ∧
    objs s2 !! r = None ∧
    objs s' = <[r := ro]> (objs s2) ∧
    cls ro = MathObjectCls ∧ node ro = node om ∧ info ro = info om ∧
    _math_type ro = Some (default NO_MATH_TYPE (_math_type om)) ∧
    (children ro = rcs ∨
     node om = "APPLICATION" ∧
     ∃ c0 o0 c1, rcs !! 0%nat = Some c0 ∧ objs s2 !! c0 = Some o0 ∧
                 node o0 = "APPLICATION" ∧ rcs !! 1%nat = Some c1 ∧
                 children ro = children o0 ++ [c1]).
Proof using pattern_match_kept apply_matching_kept.
  induction fuel as [|fuel IH]; intros t s r s' H; [discriminate H|].
  rewrite unfold_rec_S in H.
  apply bind_inv_Ok in H as (rws & s1 & Hu & H). cbn zeta in H.
  set (m := match rws with [] => t | rw :: _ => rw end) in *.
  apply bind_inv_pure in H as (om & Hom & H); [|apply pure_get_obj].
  apply get_obj_inv in Hom as [_ Hom].
  apply bind_inv_Ok in H as (rcs & s2 & Hmap & H).
  pose proof Hmap as Hmap'.
  apply mapM_unfold_rec_kept in Hmap' as [Hk12 Hplain].
  2:{ intros t0 s0 r0 s0' H0. apply IH in H0
        as (Hk0 & _ & ? & ? & ? & ? & ? & ? & ro & _ & _ & _ & _ & _
            & Eo & Hc & _).
      split; [done|]. exists ro. split; [|done].
      rewrite Eo. apply lookup_insert_eq. }
  apply bind_inv_pure in H as (om' & Hom' & H); [|apply pure_get_obj].
  apply get_obj_inv in Hom' as [_ Hom'].
  rewrite (kept_obj _ _ _ _ Hk12 Hom) in Hom'. injection Hom' as <-.
  apply bind_inv_pure in H as (mt & Hmt & H); [|apply pure_math_type].
  unfold math_type in Hmt.
  rewrite (bind_Ok _ _ _ _ _
             (get_obj_Some _ _ _ (kept_obj _ _ _ _ Hk12 Hom))) in Hmt.
  apply ret_inv in Hmt as [-> _].
  apply MathObject_init_plain_children in H as (-> & cs' & -> & Hcs');
    [|exact Hplain].
  assert (Hk01 : kept s s1) by by eapply kept_unfold.
  assert (Hnew : objs s2 !! fresh (dom (objs s2)) = None)
    by apply fresh_obj_None.
  split; [|split].
  - etrans; [exact Hk01|]. etrans; [exact Hk12|].
    repeat split; [|done..]. cbn. by apply insert_subseteq.
  - eapply lookup_weaken_None; [exact Hnew|].
    destruct Hk01 as [? _], Hk12 as [? _]. by etrans.
  - exists fuel, rws, s1, om, rcs, s2.
    eexists. repeat split; [done..|].
    destruct Hcs' as [->|(Happ & c0 & o0 & c1 & ? & ? & ? & ? & ->)];
      [by left|right].
    split; [done|]. by exists c0, o0, c1.
Qed.

(** *** Terms without bound variable in which nothing matches *)



Lemma quiet_tree_mono n : ∀ s t,
  quiet_tree unfold1 n s t → quiet_tree unfold1 (S n) s t.
Proof.
  induction n as [|n IH]; intros s t; [done|].
  intros (o & Ho & Hc & Hd & Hmo & Happ & Hq & Hch).
  exists o. repeat split; [done..|].
  eapply Forall_impl; [exact Hch|]. intros ?. apply IH.
Qed.








End unfold.



Lemma no_apply_matching_kept p : preserves kept (no_apply_matching p).
Proof. apply preserves_ret, _. Qed.

Lemma match_node_kept p t : preserves kept (match_node p t).
Proof. apply preserves_pure; [apply _|]. unfold match_node. solve_pure. Qed.




(** When two definitions match, the first rewrite is the one that is
    unfolded further, and the last one is the one on record. *)
Example unfold_keeps_first_rewrite :
  let s := snd (session_two_definitions initial_state) in
  let u := unfold_implicit_definition match_node no_apply_matching 4 s in
  let r := unfold_implicit_definition_recursively match_node
             no_apply_matching 5 4 s in
  fst u = Ok [6; 9]%nat ∧
  last_used_implicit_definition (snd u) = Some "def2" ∧
  fst r = Ok 11%nat ∧
  (node <$> objs (snd r) !! 11%nat) = Some "PROP_FALSE" ∧
  (node <$> objs (snd r) !! 6%nat) = Some "PROP_FALSE" ∧
  objs s ⊆ objs (snd r).
Proof.
  intros s u r.
  do 5 (split; [by_computation|]).
  assert (H : fst r = Ok 11%nat) by by_computation.
  destruct r as [[l| | |] s'] eqn:E; try discriminate H.
  by destruct (unfold_rec_inv _ _ match_node_kept no_apply_matching_kept
                 _ _ _ _ _ E) as ((Hk & _) & _).
Qed.

(** * Further properties *)

(** ** The constructor *)

Lemma has_bound_var_binds s l o :
  objs s !! l = Some o →
  Forall (λ c, is_Some (objs s !! c)) (children o) →
  has_bound_var l s = (Ok (binds s (node o) (children o)), s).
Proof.
  intros Ho Hch. unfold has_bound_var, binds.
  rewrite (bind_Ok _ _ _ _ _ (get_obj_Some _ _ _ Ho)).
  destruct (bool_decide (node o ∈ HAVE_BOUND_VAR_NODES)); [|done].
  case_bool_decide as Hlen; [|done]. cbn [andb].
  destruct (children o) as [|c0 [|c1 cs]]; [done..|].
  apply Forall_cons in Hch as [_ Hch]. apply Forall_cons in Hch as [[o1 Ho1] _].
  rewrite (bind_Ok _ _ _ c1 s) by done. unfold is_bound_var. cbn.
  rewrite (bind_Ok _ _ _ _ _ (get_obj_Some _ _ _ Ho1)). by rewrite Ho1.
Qed.

Lemma binds_alloc s o node_ children_ :
  Forall (λ c, is_Some (objs s !! c)) children_ →
  binds (with_objs (<[fresh (dom (objs s)) := o]>) s) node_ children_
  = binds s node_ children_.
Proof.
  intros Hch. unfold binds. f_equal.
  destruct (children_ !! 1%nat) as [x|] eqn:Hx; [|done].
  eapply Forall_lookup_1 in Hch as [ox Hox]; [|exact Hx].
  by rewrite (lookup_alloc_old _ _ _ _ Hox), Hox.
Qed.

Lemma Forall_in_store_alloc s o cs :
  Forall (λ c, is_Some (objs s !! c)) cs →
  Forall (λ c, is_Some (objs (with_objs (<[fresh (dom (objs s)) := o]>) s) !! c))
         cs.
Proof.
  intros H. eapply Forall_impl; [exact H|].
  intros c [oc Hoc]. exists oc. by apply lookup_alloc_old.
Qed.

Lemma binds_not_application s children_ : binds s "APPLICATION" children_ = false.
Proof.
  unfold binds. rewrite bool_decide_eq_false_2; [done|].
  apply APPLICATION_not_binder.
Qed.

(** The constructor on a node that binds a variable. *)
Lemma MathObject_init_binder s c node_ info_ X x P mt ox :
  node_ ∈ HAVE_BOUND_VAR_NODES →
  objs s !! x = Some ox → cls ox = BoundVarCls →
  is_Some (objs s !! X) → is_Some (objs s !! P) →
  MathObject_init c node_ info_ [X; x; P] mt s
  = (Ok (fresh (dom (objs s))),
     with_objs (<[x := set_math_type (Some X)
                         (set_parent (Some (fresh (dom (objs s)))) ox)]>)
       (with_objs (<[fresh (dom (objs s)) :=
                       mkObj c node_ info_ [X; x; P] mt None false []]>) s)).
Proof.
  intros Hn Hx Hc HX HP. unfold MathObject_init.
  set (self := fresh (dom (objs s))).
  set (o := mkObj c node_ info_ [X; x; P] mt None false []).
  set (s1 := with_objs (<[self := o]>) s).
  rewrite (bind_Ok _ _ _ self s1) by done.
  assert (Hin : Forall (λ c, is_Some (objs s !! c)) [X; x; P]).
  { repeat constructor; eauto. }
  assert (Hself : objs s1 !! self = Some o) by apply lookup_insert_eq.
  assert (Hx1 : objs s1 !! x = Some ox) by by apply lookup_alloc_old.
  rewrite (bind_Ok _ _ _ true s1).
  2:{ rewrite (has_bound_var_binds s1 self o Hself)
        by by apply Forall_in_store_alloc.
      unfold binds. cbn [children node o lookup list_lookup].
      rewrite Hx1. rewrite !bool_decide_eq_true_2 by done. done. }
  erewrite bind_Ok.
  2:{ rewrite (bind_Ok _ _ _ X s1) by done.
      rewrite (bind_Ok _ _ _ x s1) by done.
      unfold upd_obj at 1. unfold bind. rewrite Hx1.
      unfold upd_obj. cbn [objs with_objs]. rewrite lookup_insert_eq.
      reflexivity. }
  assert (node_ ≠ "APPLICATION") as Hna.
  { intros ->. by apply APPLICATION_not_binder. }
  rewrite bool_decide_eq_false_2 by done.
  unfold bind, ret, with_objs. cbn. by rewrite insert_insert_eq.
Qed.

(** The constructor on a node that binds nothing and is no application. *)
Lemma MathObject_init_simple s c node_ info_ children_ mt :
  Forall (λ c, is_Some (objs s !! c)) children_ →
  binds s node_ children_ = false → node_ ≠ "APPLICATION" →
  MathObject_init c node_ info_ children_ mt s
  = (Ok (fresh (dom (objs s))),
     with_objs (<[fresh (dom (objs s)) :=
                    mkObj c node_ info_ children_ mt None false []]>) s).
Proof.
  intros Hin Hb Hn. unfold MathObject_init.
  set (self := fresh (dom (objs s))).
  set (o := mkObj c node_ info_ children_ mt None false []).
  set (s1 := with_objs (<[self := o]>) s).
  rewrite (bind_Ok _ _ _ self s1) by done.
  assert (Hself : objs s1 !! self = Some o) by apply lookup_insert_eq.
  rewrite (bind_Ok _ _ _ false s1).
  2:{ rewrite (has_bound_var_binds s1 self o Hself)
        by by apply Forall_in_store_alloc.
      cbn [node children o]. unfold s1, self. by rewrite binds_alloc, Hb. }
  rewrite (bind_Ok _ _ _ tt s1) by done.
  by rewrite bool_decide_eq_false_2.
Qed.

(** The constructor on an application that cannot be built. *)
Lemma MathObject_init_bad_application s c info_ children_ mt :
  Forall (λ c, is_Some (objs s !! c)) children_ →
  bad_application s "APPLICATION" children_ →
  MathObject_init c "APPLICATION" info_ children_ mt s
  = (Raise IndexError,
     with_objs (<[fresh (dom (objs s)) :=
                    mkObj c "APPLICATION" info_ children_ mt None false []]>) s).
Proof.
  intros Hin [_ Hbad]. unfold MathObject_init.
  set (self := fresh (dom (objs s))).
  set (o := mkObj c "APPLICATION" info_ children_ mt None false []).
  set (s1 := with_objs (<[self := o]>) s).
  rewrite (bind_Ok _ _ _ self s1) by done.
  assert (Hself : objs s1 !! self = Some o) by apply lookup_insert_eq.
  rewrite (bind_Ok _ _ _ false s1).
  2:{ rewrite (has_bound_var_binds s1 self o Hself)
        by by apply Forall_in_store_alloc.
      cbn [node children o]. by rewrite binds_not_application. }
  rewrite (bind_Ok _ _ _ tt s1) by done.
  rewrite bool_decide_eq_true_2 by done.
  destruct Hbad as [-> | (c0 & o0 & -> & Ho0 & Hn0)]; [done|].
  assert (Ho1 : objs s1 !! c0 = Some o0) by by apply lookup_alloc_old.
  unfold bind. change (index [c0] 0 s1) with (Ok c0, s1).
  cbv beta iota.
  rewrite (get_obj_Some s1 c0 o0 Ho1).
  by rewrite bool_decide_eq_true_2.
Qed.
Lemma binds_true_inv s node_ children_ :
  binds s node_ children_ = true →
  node_ ∈ HAVE_BOUND_VAR_NODES ∧
  ∃ X x P ox, children_ = [X; x; P] ∧ objs s !! x = Some ox ∧
              cls ox = BoundVarCls.
Proof.
  unfold binds. intros H.
  apply andb_true_iff in H as [H Hx]. apply andb_true_iff in H as [Hn Hl].
  apply bool_decide_eq_true in Hn, Hl. split; [done|].
  destruct children_ as [|X [|x [|P [|? ?]]]]; try done.
  cbn in Hx. destruct (objs s !! x) as [ox|] eqn:Hox; [|done].
  apply bool_decide_eq_true in Hx. by exists X, x, P, ox.
Qed.

(** Every way the constructor can run, for children that are in the
    store. *)
Lemma MathObject_init_run s c node_ info_ children_ mt :
  Forall (λ ch, is_Some (objs s !! ch)) children_ →
  let self := fresh (dom (objs s)) in
  let new cs := mkObj c node_ info_ cs mt None false [] in
  (bad_application s node_ children_ ∧
   MathObject_init c node_ info_ children_ mt s
   = (Raise IndexError, with_objs (<[self := new children_]>) s)) ∨
  (∃ X x P ox,
      node_ ∈ HAVE_BOUND_VAR_NODES ∧ children_ = [X; x; P] ∧
      objs s !! x = Some ox ∧ cls ox = BoundVarCls ∧
      MathObject_init c node_ info_ children_ mt s
      = (Ok self,
         with_objs (<[x := set_math_type (Some X)
                             (set_parent (Some self) ox)]>)
           (with_objs (<[self := new children_]>) s))) ∨
  (∃ c0 o0 c1,
      node_ = "APPLICATION" ∧ children_ !! 0%nat = Some c0 ∧
      objs s !! c0 = Some o0 ∧ node o0 = "APPLICATION" ∧
      children_ !! 1%nat = Some c1 ∧
      MathObject_init c node_ info_ children_ mt s
      = (Ok self, with_objs (<[self := new (children o0 ++ [c1])]>) s)) ∨
  ((node_ = "APPLICATION" →
    ∃ c0 o0, children_ !! 0%nat = Some c0 ∧ objs s !! c0 = Some o0 ∧
             node o0 ≠ "APPLICATION") ∧
   binds s node_ children_ = false ∧
   MathObject_init c node_ info_ children_ mt s
   = (Ok self, with_objs (<[self := new children_]>) s)).
Proof.
  intros Hin self new.
  destruct (binds s node_ children_) eqn:Hb.
  { apply binds_true_inv in Hb as (Hn & X & x & P & ox & -> & Hx & Hc).
    right; left. exists X, x, P, ox. repeat split; try done.
    apply Forall_cons in Hin as [HX Hin]. apply Forall_cons in Hin as [_ Hin].
    apply Forall_cons in Hin as [HP _].
    by apply MathObject_init_binder. }
  destruct (decide (node_ = "APPLICATION")) as [->|Hn].
  2:{ do 3 right. split; [done|]. split; [done|].
      by apply MathObject_init_simple. }
  destruct children_ as [|c0 rest].
  { left. assert (bad_application s "APPLICATION" []) by (split; auto).
    split; [done|]. by apply MathObject_init_bad_application. }
  pose proof Hin as Hin'.
  apply Forall_cons in Hin' as [[o0 Ho0] _].
  destruct (decide (node o0 = "APPLICATION")) as [Hn0|Hn0].
  2:{ do 3 right. split; [intros _; by exists c0, o0|]. split; [done|].
      by apply (MathObject_init_application_plain s c info_ _ mt c0 o0). }
  destruct rest as [|c1 rest].
  { left.
    assert (bad_application s "APPLICATION" [c0]).
    { split; [done|]. right. by exists c0, o0. }
    split; [done|]. by apply MathObject_init_bad_application. }
  do 2 right. left. exists c0, o0, c1. repeat split; try done.
  by apply (MathObject_init_application_nested s c info_ _ mt c0 c1 o0).
Qed.

(** X1: the constructor of a node that binds a variable (a quantifier, a
    set in intension, a lambda, a local constant) given three children, the
    second of which is a [BoundVar], always succeeds; it makes the new
    object the parent of that bound variable and the first child its
    math_type, and afterwards the properties [bound_var_type], [bound_var]
    and [body] of the new object are its three children. *)
Theorem MathObject_init_wires_bound_var (s : state) (c : class)
    (node_ : string) (info_ : dloc) (X x P : loc) (mt : option loc)
    (ox : obj) :
  node_ ∈ HAVE_BOUND_VAR_NODES →
  objs s !! x = Some ox → cls ox = BoundVarCls →
  is_Some (objs s !! X) → is_Some (objs s !! P) →
  ∃ self s',
    MathObject_init c node_ info_ [X; x; P] mt s = (Ok self, s') ∧
    objs s !! self = None ∧
    objs s' !! x
    = Some (set_math_type (Some X) (set_parent (Some self) ox)) ∧
    bound_var_type self s' = (Ok (Some X), s') ∧
    bound_var self s' = (Ok (Some x), s') ∧
    body self s' = (Ok (Some P), s').
Proof.
  intros Hn Hx Hc [oX HX] [oP HP].
  set (self := fresh (dom (objs s))).
  set (o := mkObj c node_ info_ [X; x; P] mt None false []).
  set (ox' := set_math_type (Some X) (set_parent (Some self) ox)).
  set (s' := with_objs (<[x := ox']>) (with_objs (<[self := o]>) s)).
  exists self, s'. split; [by apply MathObject_init_binder|].
  split; [apply fresh_obj_None|].
  assert (Hxs : x ≠ self).
  { intros E. rewrite E in Hx. unfold self in Hx.
    by rewrite fresh_obj_None in Hx. }
  assert (Hx' : objs s' !! x = Some ox') by apply lookup_insert_eq.
  split; [done|].
  assert (Hself : objs s' !! self = Some o).
  { cbn. rewrite lookup_insert_ne by done. apply lookup_insert_eq. }
  assert (Hold : ∀ l ol, objs s !! l = Some ol → is_Some (objs s' !! l)).
  { intros l ol Hl. cbn. destruct (decide (l = x)) as [->|Hlx].
    - rewrite lookup_insert_eq. eauto.
    - rewrite lookup_insert_ne by done.
      exists ol. by apply (lookup_alloc_old s o). }
  assert (Hb : has_bound_var self s' = (Ok true, s')).
  { rewrite (has_bound_var_binds s' self o Hself).
    - unfold binds. cbn [node children o lookup list_lookup].
      rewrite Hx'. by rewrite !bool_decide_eq_true_2.
    - cbn [children o]. repeat constructor; eauto. }
  unfold bound_var_type, bound_var, body, child_if_has_bound_var.
  rewrite !(bind_Ok _ _ _ _ _ Hb).
  by rewrite !(bind_Ok _ _ _ _ _ (get_obj_Some _ _ _ Hself)).
Qed.

Lemma MathObject_init_wires_bound_var_witness :
  let s := snd (from_math_type PROP None initial_state) in
  ∃ self s',
    MathObject_init MathObjectCls "QUANT_∀" 0%nat [PROP; 4%nat; PROP] None s
    = (Ok self, s') ∧
    bound_var self s' = (Ok (Some 4%nat), s').
Proof.
  intros s.
  destruct (MathObject_init_wires_bound_var s MathObjectCls "QUANT_∀" 0%nat
              PROP 4%nat PROP None
              (mkObj BoundVarCls "LOCAL_CONSTANT" 4%nat [] (Some PROP)
                     (Some NO_MATH_TYPE) true []))
    as (self & s' & H1 & _ & _ & _ & H2 & _).
  - apply (bool_decide_unpack _). vm_compute. exact I.
  - vm_compute. reflexivity.
  - reflexivity.
  - vm_compute. eauto.
  - vm_compute. eauto.
  - exists self, s'. split; [exact H1 | exact H2].
Defined.

(** X2: for children that are objects of the store, the constructor fails
    in one case only, with [IndexError]: the node is ['APPLICATION'] and
    there is no child, or a single child that is itself an application.  In
    every other case it returns a new object. *)
Theorem MathObject_init_fails_on_short_application (s : state) (c : class)
    (node_ : string) (info_ : dloc) (children_ : list loc)
    (mt : option loc) :
  Forall (λ ch, is_Some (objs s !! ch)) children_ →
  (bad_application s node_ children_ →
   fst (MathObject_init c node_ info_ children_ mt s) = Raise IndexError) ∧
  (¬ bad_application s node_ children_ →
   ∃ self, fst (MathObject_init c node_ info_ children_ mt s) = Ok self ∧
           objs s !! self = None).
Proof.
  intros Hin.
  destruct (MathObject_init_run s c node_ info_ children_ mt Hin)
    as [[Hbad H] | [(X & x & P & ox & Hn & -> & Hx & Hc & H)
       | [(c0 & o0 & c1 & -> & H0 & Ho0 & Hn0 & H1 & H) | (Ha & Hb & H)]]];
    rewrite H; cbn [fst].
  - split; [done|]. by intros [].
  - split.
    + intros [-> _]. by apply APPLICATION_not_binder in Hn.
    + intros _. eexists. split; [done|]. apply fresh_obj_None.
  - split.
    + intros [_ [-> | (c0' & o0' & -> & _)]]; done.
    + intros _. eexists. split; [done|]. apply fresh_obj_None.
  - split.
    + intros [-> Hbad]. destruct (Ha eq_refl) as (c0 & o0 & H0 & Ho0 & Hn0).
      destruct Hbad as [-> | (c0' & o0' & -> & Ho0' & Hn0')]; [done|].
      injection H0 as ->. congruence.
    + intros _. eexists. split; [done|]. apply fresh_obj_None.
Qed.

Lemma MathObject_init_fails_on_short_application_witness :
  fst (MathObject_init MathObjectCls "APPLICATION" 0%nat [] None initial_state)
  = Raise IndexError ∧
  ∃ self, fst (MathObject_init MathObjectCls "APPLICATION" 0%nat [PROP] None
                               initial_state) = Ok self ∧
          objs initial_state !! self = None.
Proof.
  split.
  - apply (MathObject_init_fails_on_short_application initial_state
             MathObjectCls "APPLICATION" 0%nat [] None); [constructor|].
    split; [reflexivity | by left].
  - apply (MathObject_init_fails_on_short_application initial_state
             MathObjectCls "APPLICATION" 0%nat [PROP] None).
    + repeat constructor. vm_compute. eauto.
    + intros [_ [H | (c0 & o0 & H & Ho & Hn)]]; [done|].
      injection H as <-. vm_compute in Ho. injection Ho as <-. done.
Defined.
(** *** Applications are kept uncurried *)

Lemma uncurried_alloc s o :
  uncurried s →
  (node o = "APPLICATION" →
   ∃ c0 o0, children o !! 0%nat = Some c0 ∧ objs s !! c0 = Some o0 ∧
            node o0 ≠ "APPLICATION") →
  uncurried (with_objs (<[fresh (dom (objs s)) := o]>) s).
Proof.
  intros Hu Ho l ol Hl Hn. cbn in Hl.
  destruct (decide (l = fresh (dom (objs s)))) as [->|Hne].
  - rewrite lookup_insert_eq in Hl. injection Hl as <-.
    destruct (Ho Hn) as (c0 & o0 & H0 & Ho0 & Hn0).
    exists c0, o0. split; [done|]. split; [|done]. by apply lookup_alloc_old.
  - rewrite lookup_insert_ne in Hl by done.
    destruct (Hu l ol Hl Hn) as (c0 & o0 & H0 & Ho0 & Hn0).
    exists c0, o0. split; [done|]. split; [|done]. by apply lookup_alloc_old.
Qed.

Lemma uncurried_update s x ox ox' :
  uncurried s → objs s !! x = Some ox →
  node ox' = node ox → children ox' = children ox →
  uncurried (with_objs (<[x := ox']>) s).
Proof.
  intros Hu Hx Hn Hc l ol Hl Hnl. cbn in Hl.
  assert (∃ ol0, objs s !! l = Some ol0 ∧ node ol0 = "APPLICATION" ∧
                 children ol = children ol0) as (ol0 & Hl0 & Hn0 & Hc0).
  { destruct (decide (l = x)) as [->|Hne].
    - rewrite lookup_insert_eq in Hl. injection Hl as <-.
      exists ox. by rewrite <- Hn.
    - rewrite lookup_insert_ne in Hl by done. by exists ol. }
  destruct (Hu l ol0 Hl0 Hn0) as (c0 & o0 & H0 & Ho0 & Hn0').
  rewrite Hc0. cbn.
  destruct (decide (c0 = x)) as [->|Hne].
  - exists x, ox'. split; [done|]. rewrite lookup_insert_eq.
    split; [done|]. rewrite Hn. congruence.
  - exists c0, o0. by rewrite lookup_insert_ne.
Qed.

(** X3: the constructor keeps the store uncurried: if no application of
    the store has an application as its first child, this is still so
    after any successful construction from children of the store. *)
Theorem MathObject_init_keeps_uncurried (s : state) (c : class)
    (node_ : string) (info_ : dloc) (children_ : list loc) (mt : option loc)
    (self : loc) (s' : state) :
  uncurried s →
  Forall (λ ch, is_Some (objs s !! ch)) children_ →
  MathObject_init c node_ info_ children_ mt s = (Ok self, s') →
  uncurried s'.
Proof.
  intros Hu Hin Hrun.
  destruct (MathObject_init_run s c node_ info_ children_ mt Hin)
    as [[Hbad H] | [(X & x & P & ox & Hn & -> & Hx & Hc & H)
       | [(c0 & o0 & c1 & -> & H0 & Ho0 & Hn0 & H1 & H) | (Ha & Hb & H)]]];
    rewrite H in Hrun; [done|..]; injection Hrun as <- <-.
  - eapply uncurried_update.
    + apply uncurried_alloc; [done|]. cbn [node]. intros ->.
      by apply APPLICATION_not_binder in Hn.
    + by apply lookup_alloc_old.
    + done.
    + done.
  - apply uncurried_alloc; [done|]. intros _. cbn [children].
    destruct (Hu c0 o0 Ho0 Hn0) as (c00 & o00 & H00 & Ho00 & Hn00).
    exists c00, o00. split; [|done]. by apply lookup_app_l_Some.
  - by apply uncurried_alloc.
Qed.

Lemma uncurried_initial_state : uncurried initial_state.
Proof.
  assert (H : map_Forall (λ _ o, node o ≠ "APPLICATION") (objs initial_state)).
  { cbn. repeat (apply map_Forall_insert_2; [done|]). apply map_Forall_empty. }
  intros l o Hl Hn. by destruct (H l o Hl).
Qed.

Lemma MathObject_init_keeps_uncurried_witness :
  uncurried (snd (MathObject_init MathObjectCls "APPLICATION" 0%nat
                                  [PROP; PROP] None initial_state)).
Proof.
  apply (MathObject_init_keeps_uncurried initial_state MathObjectCls
           "APPLICATION" 0%nat [PROP; PROP] None 4%nat).
  - apply uncurried_initial_state.
  - repeat constructor; vm_compute; eauto.
  - vm_compute. reflexivity.
Defined.
(** ** Duplicates *)

Lemma fresh_dict_None (s : state) : dicts s !! fresh (dom (dicts s)) = None.
Proof. apply not_elem_of_dom, is_fresh. Qed.

Lemma math_type_run s l o :
  objs s !! l = Some o →
  math_type l s = (Ok (default NO_MATH_TYPE (_math_type o)), s).
Proof.
  intros Ho. unfold math_type.
  by rewrite (bind_Ok _ _ _ _ _ (get_obj_Some _ _ _ Ho)).
Qed.

(** [duplicate] is the constructor run on a copy of the dictionary. *)
Lemma duplicate_run s self o i :
  objs s !! self = Some o → dicts s !! info o = Some i →
  duplicate self s
  = MathObject_init MathObjectCls (node o) (fresh (dom (dicts s)))
      (children o) (Some (default NO_MATH_TYPE (_math_type o)))
      (with_dicts (<[fresh (dom (dicts s)) := i]>) s).
Proof.
  intros Ho Hi. unfold duplicate.
  rewrite (bind_Ok _ _ _ _ _ (get_info_Some _ _ _ _ Ho Hi)).
  set (s1 := with_dicts (<[fresh (dom (dicts s)) := i]>) s).
  rewrite (bind_Ok _ _ _ (fresh (dom (dicts s))) s1) by done.
  rewrite (bind_Ok _ _ _ o s1) by by apply get_obj_Some.
  by rewrite (bind_Ok _ _ _ _ _ (math_type_run s1 self o Ho)).
Qed.

(** The duplicate and the state it is created in. *)
Lemma duplicate_copy (s : state) (self : loc) (o : obj) (i : info_dict) :
  objs s !! self = Some o → dicts s !! info o = Some i →
  Forall (λ ch, is_Some (objs s !! ch)) (children o) →
  uncurried s →
  ∃ d s' od,
    duplicate self s = (Ok d, s') ∧
    objs s !! d = None ∧ objs s' !! d = Some od ∧
    cls od = MathObjectCls ∧ node od = node o ∧
    children od = children o ∧
    _math_type od = Some (default NO_MATH_TYPE (_math_type o)) ∧
    dicts s !! info od = None ∧ dicts s' !! info od = Some i ∧
    (∀ d0 i0, dicts s !! d0 = Some i0 → dicts s' !! d0 = Some i0).
Proof.
  intros Ho Hi Hin Hu. rewrite (duplicate_run s self o i Ho Hi).
  set (nd := fresh (dom (dicts s))).
  set (s1 := with_dicts (<[nd := i]>) s).
  set (d := fresh (dom (objs s))).
  set (od := mkObj MathObjectCls (node o) nd (children o)
               (Some (default NO_MATH_TYPE (_math_type o))) None false []).
  assert (Hdicts : ∀ d0 i0, dicts s !! d0 = Some i0 →
                            dicts s1 !! d0 = Some i0).
  { intros d0 i0 H0. cbn. rewrite lookup_insert_ne; [done|].
    intros E. rewrite <- E in H0. unfold nd in H0.
    by rewrite fresh_dict_None in H0. }
  assert (Hd : objs s !! d = None) by apply fresh_obj_None.
  assert (Hde : ∀ x ox, objs s !! x = Some ox → x ≠ d).
  { intros x ox Hx ->. by rewrite Hd in Hx. }
  destruct (MathObject_init_run s1 MathObjectCls (node o) nd (children o)
              (Some (default NO_MATH_TYPE (_math_type o))) Hin)
    as [[Hbad H] | [(X & x & P & ox & Hn & Hc & Hx & Hcx & H)
       | [(c0 & o0 & c1 & Hn & H0 & Ho0 & Hn0 & H1 & H) | (Ha & Hb & H)]]];
    rewrite H.
  - destruct Hbad as [Hn Hbad]. destruct (Hu self o Ho Hn)
      as (c0 & o0 & H0 & Ho0 & Hn0).
    destruct Hbad as [E | (c0' & o0' & E & Ho0' & Hn0')];
      rewrite E in H0; [done|].
    injection H0 as ->. cbn in Ho0'. congruence.
  - eexists d, _, od. split; [reflexivity|]. split; [done|].
    split.
    { cbn. rewrite lookup_insert_ne by (by eapply Hde).
      apply lookup_insert_eq. }
    repeat split; try done.
    + apply fresh_dict_None.
    + apply lookup_insert_eq.
  - destruct (Hu self o Ho Hn) as (c0' & o0' & H0' & Ho0' & Hn0').
    rewrite H0 in H0'. injection H0' as <-. cbn in Ho0. congruence.
  - eexists d, _, od. split; [reflexivity|]. split; [done|].
    split; [apply lookup_insert_eq|].
    repeat split; try done.
    + apply fresh_dict_None.
    + apply lookup_insert_eq.
Qed.

(** X4: in an uncurried store, [duplicate] always succeeds.  The duplicate
    is a new object of class [MathObject] (also when the original is a
    [BoundVar]) with the node and the children of the original and its
    math_type; its [info] is a new dictionary with the entries of the
    original's, and no existing dictionary is changed. *)
Theorem duplicate_is_shallow_copy (s : state) (self : loc) (o : obj)
    (i : info_dict) :
  objs s !! self = Some o → dicts s !! info o = Some i →
  Forall (λ ch, is_Some (objs s !! ch)) (children o) →
  uncurried s →
  ∃ d s' od,
    duplicate self s = (Ok d, s') ∧
    objs s !! d = None ∧ objs s' !! d = Some od ∧
    cls od = MathObjectCls ∧ node od = node o ∧
    children od = children o ∧
    _math_type od = Some (default NO_MATH_TYPE (_math_type o)) ∧
    dicts s !! info od = None ∧ dicts s' !! info od = Some i ∧
    (∀ d0 i0, dicts s !! d0 = Some i0 → dicts s' !! d0 = Some i0).
Proof. apply duplicate_copy. Qed.

Lemma duplicate_is_shallow_copy_witness :
  ∃ d s' od,
    duplicate PROP initial_state = (Ok d, s') ∧
    objs s' !! d = Some od ∧ node od = "PROP" ∧
    dicts initial_state !! info od = None.
Proof.
  destruct (duplicate_is_shallow_copy initial_state PROP
              (constant_obj "PROP" 3) empty_info)
    as (d & s' & od & H1 & _ & H2 & _ & H3 & _ & _ & H4 & _).
  - reflexivity.
  - reflexivity.
  - constructor.
  - apply uncurried_initial_state.
  - by exists d, s', od.
Defined.

(** X5: duplicating an object that binds a variable takes the bound
    variable away from the original: after the call, the parent of the
    bound variable is the duplicate. *)
Theorem duplicate_takes_bound_var (s : state) (self : loc) (o : obj)
    (i : info_dict) :
  objs s !! self = Some o → dicts s !! info o = Some i →
  Forall (λ ch, is_Some (objs s !! ch)) (children o) →
  has_bound_var self s = (Ok true, s) →
  ∃ d s' x ox,
    duplicate self s = (Ok d, s') ∧ d ≠ self ∧
    bound_var self s' = (Ok (Some x), s') ∧
    objs s' !! x = Some ox ∧ parent ox = Some d.
Proof.
  intros Ho Hi Hin Hb. rewrite (duplicate_run s self o i Ho Hi).
  rewrite (has_bound_var_binds s self o Ho Hin) in Hb.
  injection Hb as Hb.
  apply binds_true_inv in Hb as (Hn & X & x & P & ox & Hc & Hx & Hcx).
  rewrite Hc in *.
  apply Forall_cons in Hin as [HX Hin]. apply Forall_cons in Hin as [_ Hin].
  apply Forall_cons in Hin as [HP _].
  set (nd := fresh (dom (dicts s))).
  set (s1 := with_dicts (<[nd := i]>) s).
  rewrite (MathObject_init_binder s1 MathObjectCls (node o) nd X x P _ ox
             Hn Hx Hcx HX HP).
  set (d := fresh (dom (objs s))).
  assert (Hd : ∀ l ol, objs s !! l = Some ol → l ≠ d).
  { intros l ol Hl ->. unfold d in Hl. by rewrite fresh_obj_None in Hl. }
  set (ox' := set_math_type (Some X) (set_parent (Some d) ox)).
  eexists d, _, x, ox'. split; [reflexivity|].
  split; [symmetry; by eapply Hd|].
  match goal with |- context [bound_var self ?st] => set (s' := st) end.
  assert (Hx' : objs s' !! x = Some ox') by apply lookup_insert_eq.
  split; [|done].
  destruct (decide (self = x)) as [->|Hsx].
  - assert (ox = o) as -> by congruence.
    unfold bound_var, child_if_has_bound_var.
    rewrite (bind_Ok _ _ _ true s').
    2:{ rewrite (has_bound_var_binds s' x ox' Hx').
        - cbn [node children ox' set_math_type set_parent]. rewrite Hc.
          unfold binds. cbn [lookup list_lookup]. rewrite Hx'.
          by rewrite !bool_decide_eq_true_2.
        - cbn [node children ox' set_math_type set_parent]. rewrite Hc.
          assert (Hk : ∀ l, is_Some (objs s !! l) → is_Some (objs s' !! l)).
          { intros l [ol Hl]. cbn. destruct (decide (l = x)) as [->|?].
            - rewrite lookup_insert_eq. eauto.
            - rewrite lookup_insert_ne by done. exists ol.
              by apply (lookup_alloc_old s1). }
          repeat constructor; eauto. }
    rewrite (bind_Ok _ _ _ _ _ (get_obj_Some _ _ _ Hx')).
    cbn [children ox' set_math_type set_parent]. by rewrite Hc.
  - assert (Hself : objs s' !! self = Some o).
    { cbn. rewrite lookup_insert_ne by done.
      rewrite lookup_insert_ne by (symmetry; by eapply Hd). done. }
    unfold bound_var, child_if_has_bound_var.
    rewrite (bind_Ok _ _ _ true s').
    2:{ rewrite (has_bound_var_binds s' self o Hself).
        - rewrite Hc. unfold binds. cbn [lookup list_lookup]. rewrite Hx'.
          by rewrite !bool_decide_eq_true_2.
        - rewrite Hc.
          assert (Hk : ∀ l, is_Some (objs s !! l) → is_Some (objs s' !! l)).
          { intros l [ol Hl]. cbn. destruct (decide (l = x)) as [->|?].
            - rewrite lookup_insert_eq. eauto.
            - rewrite lookup_insert_ne by done. exists ol.
              by apply (lookup_alloc_old s1). }
          repeat constructor; eauto. }
    rewrite (bind_Ok _ _ _ _ _ (get_obj_Some _ _ _ Hself)). by rewrite Hc.
Qed.
Lemma duplicate_takes_bound_var_witness :
  let s := snd (MathObject_init MathObjectCls "QUANT_∀" 0%nat
                  [PROP; 4%nat; PROP] None
                  (snd (from_math_type PROP None initial_state))) in
  ∃ d s' x ox,
    duplicate 5%nat s = (Ok d, s') ∧ d ≠ 5%nat ∧
    bound_var 5%nat s' = (Ok (Some x), s') ∧
    objs s' !! x = Some ox ∧ parent ox = Some d.
Proof.
  intros s.
  apply (duplicate_takes_bound_var s 5%nat
           (mkObj MathObjectCls "QUANT_∀" 0%nat [PROP; 4%nat; PROP] None None
                  false [])
           empty_info).
  - vm_compute. reflexivity.
  - vm_compute. reflexivity.
  - repeat constructor; vm_compute; eauto.
  - vm_compute. reflexivity.
Defined.

(** ** Names *)

Lemma give_name_run s self o i n :
  objs s !! self = Some o → dicts s !! info o = Some i →
  give_name self n s
  = (Ok tt, with_dicts (<[info o := set_name (Some n) i]>) s).
Proof.
  intros Ho Hi. unfold give_name, upd_info.
  rewrite (bind_Ok _ _ _ _ _ (get_obj_Some _ _ _ Ho)).
  unfold upd_dict. by rewrite Hi.
Qed.

Lemma display_name_named s l o i n :
  objs s !! l = Some o → dicts s !! info o = Some i → i_name i = Some n →
  display_name l s = (Ok (if bool_decide (n = "") then "*no_name*" else n), s).
Proof.
  intros Ho Hi Hn. unfold display_name, name.
  rewrite (bind_Ok _ _ _ (Some n) s).
  2:{ rewrite (bind_Ok _ _ _ _ _ (get_obj_Some _ _ _ Ho)).
      rewrite (bind_Ok _ _ _ _ _ (get_dict_Some _ _ _ Hi)).
      rewrite Hn. by destruct (cls o). }
  unfold ret, truthy. by case_bool_decide.
Qed.

(** X6: after [give_name(n)], [has_name(n)] holds for the object and for
    every object that shares its [info] dictionary, unless [n] is the empty
    string: an empty name is displayed as ['*no_name*']. *)
Theorem give_name_has_name (s : state) (self other : loc) (o o' : obj)
    (n : string) :
  objs s !! self = Some o → is_Some (dicts s !! info o) →
  objs s !! other = Some o' → info o' = info o →
  ∃ s',
    give_name self n s = (Ok tt, s') ∧
    has_name self n s' = (Ok (negb (bool_decide (n = ""))), s') ∧
    has_name other n s' = (Ok (negb (bool_decide (n = ""))), s') ∧
    (n = "" → has_name self "*no_name*" s' = (Ok true, s')).
Proof.
  intros Ho [i Hi] Ho' Hinfo.
  eexists. split; [by apply (give_name_run s self o i)|].
  set (s' := with_dicts (<[info o := set_name (Some n) i]>) s).
  assert (Hi' : dicts s' !! info o = Some (set_name (Some n) i))
    by apply lookup_insert_eq.
  assert (Hd : display_name self s'
               = (Ok (if bool_decide (n = "") then "*no_name*" else n), s'))
    by by apply (display_name_named s' self o (set_name (Some n) i)).
  assert (Hd' : display_name other s'
               = (Ok (if bool_decide (n = "") then "*no_name*" else n), s')).
  { apply (display_name_named s' other o' (set_name (Some n) i));
      [done | by rewrite Hinfo | done]. }
  unfold has_name. rewrite !(bind_Ok _ _ _ _ _ Hd), (bind_Ok _ _ _ _ _ Hd').
  unfold ret. repeat split.
  - case_bool_decide as E; [by subst|]. by rewrite bool_decide_eq_true_2.
  - case_bool_decide as E; [by subst|]. by rewrite bool_decide_eq_true_2.
  - intros ->. done.
Qed.

Lemma give_name_has_name_witness :
  ∃ s', give_name PROP "P" initial_state = (Ok tt, s') ∧
        has_name PROP "P" s' = (Ok true, s').
Proof.
  destruct (give_name_has_name initial_state PROP PROP
              (constant_obj "PROP" 3) (constant_obj "PROP" 3) "P")
    as (s' & H1 & H2 & _).
  - reflexivity.
  - vm_compute. eauto.
  - reflexivity.
  - reflexivity.
  - by exists s'.
Defined.

(** X7: a duplicate can be renamed without damage: after
    [d = self.duplicate(); d.give_name(n)], the dictionary of [self] has the
    entries it had before, and [d] has the new name. *)
Theorem duplicate_then_give_name (s : state) (self : loc) (o : obj)
    (i : info_dict) (n : string) :
  objs s !! self = Some o → dicts s !! info o = Some i →
  Forall (λ ch, is_Some (objs s !! ch)) (children o) →
  uncurried s → n ≠ "" →
  ∃ d s' s'',
    duplicate self s = (Ok d, s') ∧
    give_name d n s' = (Ok tt, s'') ∧
    has_name d n s'' = (Ok true, s'') ∧
    dicts s'' !! info o = Some i.
Proof.
  intros Ho Hi Hin Hu Hn.
  destruct (duplicate_copy s self o i Ho Hi Hin Hu)
    as (d & s' & od & Hrun & Hd & Hod & _ & _ & _ & _ & Hnew & Hcopy & Hold).
  pose proof (give_name_run s' d od i n Hod Hcopy) as Hg.
  set (s'' := with_dicts (<[info od := set_name (Some n) i]>) s') in *.
  exists d, s', s''. split; [done|]. split; [done|]. split.
  - unfold has_name.
    rewrite (bind_Ok _ _ _ _ _
               (display_name_named s'' d od (set_name (Some n) i) n Hod
                  (lookup_insert_eq _ _ _) eq_refl)).
    rewrite (bool_decide_eq_false_2 (n = "")) by done.
    unfold ret. by rewrite bool_decide_eq_true_2.
  - cbn. rewrite lookup_insert_ne; [by apply Hold|].
    intros E. rewrite E in Hnew. congruence.
Qed.

Lemma duplicate_then_give_name_witness :
  ∃ d s' s'',
    duplicate PROP initial_state = (Ok d, s') ∧
    give_name d "Q" s' = (Ok tt, s'') ∧
    has_name d "Q" s'' = (Ok true, s'') ∧
    dicts s'' !! 3%nat = Some empty_info.
Proof.
  apply (duplicate_then_give_name initial_state PROP (constant_obj "PROP" 3)
           empty_info "Q").
  - reflexivity.
  - reflexivity.
  - constructor.
  - apply uncurried_initial_state.
  - discriminate.
Defined.
(** ** Negations *)

Lemma node_in_run nodes s l o :
  objs s !! l = Some o →
  node_in nodes l true s = (Ok (bool_decide (node o ∈ nodes)), s).
Proof.
  intros Ho. unfold node_in, tested.
  rewrite (bind_Ok _ _ _ l s) by done.
  by rewrite (bind_Ok _ _ _ _ _ (get_obj_Some _ _ _ Ho)).
Qed.

Lemma pure_tested l b : pure (tested l b).
Proof. unfold tested. solve_pure. Qed.

#[export] Hint Resolve pure_tested : pure.

Lemma pure_node_in nodes l b : pure (node_in nodes l b).
Proof. unfold node_in. solve_pure. Qed.

#[export] Hint Resolve pure_node_in : pure.

Lemma node_in_inv nodes l s r s' :
  node_in nodes l true s = (Ok r, s') →
  s' = s ∧ ∃ o, objs s !! l = Some o ∧ r = bool_decide (node o ∈ nodes).
Proof.
  intros H. assert (s' = s) as -> by (eapply pure_node_in; exact H).
  split; [done|]. unfold node_in, tested in H.
  rewrite (bind_Ok _ _ _ l s) in H by done.
  apply bind_inv_pure in H as (o & Ho & H); [|apply pure_get_obj].
  apply get_obj_inv in Ho as [_ Ho]. injection H as <-. by exists o.
Qed.

(** The constructor on a node that is neither a binder nor an
    application. *)
Lemma MathObject_init_other_node s c node_ info_ children_ mt :
  node_ ∉ HAVE_BOUND_VAR_NODES → node_ ≠ "APPLICATION" →
  MathObject_init c node_ info_ children_ mt s
  = (Ok (fresh (dom (objs s))),
     with_objs (<[fresh (dom (objs s)) :=
                    mkObj c node_ info_ children_ mt None false []]>) s).
Proof.
  intros Hb Hn. unfold MathObject_init.
  set (self := fresh (dom (objs s))).
  set (o := mkObj c node_ info_ children_ mt None false []).
  set (s1 := with_objs (<[self := o]>) s).
  rewrite (bind_Ok _ _ _ self s1) by done.
  rewrite (bind_Ok _ _ _ false s1).
  2:{ apply (has_bound_var_other_node s1 self o); [apply lookup_insert_eq|done]. }
  rewrite (bind_Ok _ _ _ tt s1) by done.
  by rewrite bool_decide_eq_false_2.
Qed.

Lemma str_replace_NOT n :
  n ∈ ["PROP_NOT_BELONGS"; "PROP_EQUAL_NOT"] →
  str_replace "_NOT" "" n ∈ ["PROP_BELONGS"; "PROP_EQUAL"].
Proof.
  intros H. apply elem_of_cons in H as [->|H].
  { apply (bool_decide_unpack _). vm_compute. exact I. }
  apply list_elem_of_singleton in H as ->.
  apply (bool_decide_unpack _). vm_compute. exact I.
Qed.

Lemma body_of_negation_NOT s self o c cs :
  objs s !! self = Some o → node o = "PROP_NOT" → children o = c :: cs →
  body_of_negation self s = (Ok (Some c), s).
Proof.
  intros Ho Hn Hc. unfold body_of_negation.
  rewrite (bind_Ok _ _ _ _ _ (get_obj_Some _ _ _ Ho)).
  rewrite bool_decide_eq_true_2 by done. by rewrite Hc.
Qed.

Lemma body_of_negation_NOT_empty s self o :
  objs s !! self = Some o → node o = "PROP_NOT" → children o = [] →
  body_of_negation self s = (Raise IndexError, s).
Proof.
  intros Ho Hn Hc. unfold body_of_negation.
  rewrite (bind_Ok _ _ _ _ _ (get_obj_Some _ _ _ Ho)).
  rewrite bool_decide_eq_true_2 by done. by rewrite Hc.
Qed.

Lemma body_of_negation_new s self o :
  objs s !! self = Some o →
  node o ∈ ["PROP_NOT_BELONGS"; "PROP_EQUAL_NOT"] →
  body_of_negation self s
  = (Ok (Some (fresh (dom (objs s)))),
     with_objs (<[fresh (dom (objs s)) :=
                    mkObj MathObjectCls (str_replace "_NOT" "" (node o))
                          (info o) (children o)
                          (Some (default NO_MATH_TYPE (_math_type o)))
                          None false []]>) s).
Proof.
  intros Ho Hn. unfold body_of_negation.
  rewrite (bind_Ok _ _ _ _ _ (get_obj_Some _ _ _ Ho)).
  rewrite bool_decide_eq_false_2.
  2:{ intros E. rewrite E in Hn. by apply (bool_decide_pack _) in Hn. }
  rewrite bool_decide_eq_true_2 by done.
  rewrite (bind_Ok _ _ _ _ _ (math_type_run s self o Ho)).
  pose proof (str_replace_NOT _ Hn) as Hr.
  assert (Hnb : str_replace "_NOT" "" (node o) ∉ HAVE_BOUND_VAR_NODES).
  { intros Hin. apply elem_of_cons in Hr as [Hr|Hr].
    + rewrite Hr in Hin. by apply (bool_decide_pack _) in Hin.
    + apply list_elem_of_singleton in Hr. rewrite Hr in Hin.
      by apply (bool_decide_pack _) in Hin. }
  assert (Hna : str_replace "_NOT" "" (node o) ≠ "APPLICATION").
  { intros E. rewrite E in Hr. by apply (bool_decide_pack _) in Hr. }
  by rewrite (bind_Ok _ _ _ _ _ (MathObject_init_other_node s MathObjectCls
                _ (info o) (children o) _ Hnb Hna)).
Qed.

Lemma body_of_negation_other s self o :
  objs s !! self = Some o →
  node o ∉ ["PROP_NOT"; "PROP_NOT_BELONGS"; "PROP_EQUAL_NOT"] →
  body_of_negation self s = (Ok None, s).
Proof.
  intros Ho Hn. unfold body_of_negation.
  rewrite (bind_Ok _ _ _ _ _ (get_obj_Some _ _ _ Ho)).
  rewrite bool_decide_eq_false_2.
  2:{ intros E. apply Hn. rewrite E. by left. }
  rewrite bool_decide_eq_false_2; [done|].
  intros E. apply Hn. by right.
Qed.

(** X8: [body_of_negation] gives a body exactly for the objects on which
    the test [is_not] holds, that is for the nodes ['PROP_NOT'],
    ['PROP_NOT_BELONGS'] and ['PROP_EQUAL_NOT'], and [None] for the others;
    the one exception is a ['PROP_NOT'] without child, on which it raises
    [IndexError]. *)
Theorem body_of_negation_iff_is_not (s : state) (self : loc) (o : obj) :
  objs s !! self = Some o →
  ((node o = "PROP_NOT" → children o ≠ []) →
   ∃ b s', body_of_negation self s = (Ok b, s') ∧
           is_not self true s = (Ok (bool_decide (is_Some b)), s)) ∧
  (node o = "PROP_NOT" → children o = [] →
   body_of_negation self s = (Raise IndexError, s)).
Proof.
  intros Ho. split; [|by apply (body_of_negation_NOT_empty s self o)].
  intros Hc. unfold is_not. rewrite (node_in_run _ s self o Ho).
  destruct (decide (node o = "PROP_NOT")) as [Hn|Hn].
  { destruct (children o) as [|c cs] eqn:Hcs; [by destruct (Hc Hn)|].
    exists (Some c), s. split; [by eapply body_of_negation_NOT|].
    rewrite Hn. by rewrite !bool_decide_eq_true_2 by (by left || eauto). }
  destruct (decide (node o ∈ ["PROP_NOT_BELONGS"; "PROP_EQUAL_NOT"]))
    as [Hn'|Hn'].
  { eexists _, _. split; [by apply (body_of_negation_new s self o)|].
    rewrite !bool_decide_eq_true_2; [done | eauto | by right]. }
  exists None, s.
  assert (node o ∉ ["PROP_NOT"; "PROP_NOT_BELONGS"; "PROP_EQUAL_NOT"]).
  { intros H. apply elem_of_cons in H as [H|H]; done. }
  split; [by apply (body_of_negation_other s self o)|].
  rewrite bool_decide_eq_false_2 by done.
  rewrite bool_decide_eq_false_2; [done|]. by intros [? ?].
Qed.

Lemma body_of_negation_iff_is_not_witness :
  let s := snd (new_MathObject "PROP_NOT" [PROP] initial_state) in
  ∃ b s', body_of_negation 4%nat s = (Ok b, s') ∧
          is_not 4%nat true s = (Ok (bool_decide (is_Some b)), s).
Proof.
  intros s.
  destruct (body_of_negation_iff_is_not s 4%nat
              (mkObj MathObjectCls "PROP_NOT" 4%nat [PROP] None None false []))
    as [H _]; [vm_compute; reflexivity|].
  apply H. discriminate.
Defined.
(** The nodes on which [is_simplifiable_body_of_neg] holds. *)
Lemma is_simplifiable_body_of_neg_run s b ob :
  objs s !! b = Some ob →
  is_simplifiable_body_of_neg b true s
  = (Ok (bool_decide (node ob ∈ ["PROP_NOT"; "PROP_NOT_BELONGS";
                                  "PROP_EQUAL_NOT"])
         || bool_decide (node ob ∈ ["QUANT_∀"])
         || bool_decide (node ob ∈ ["QUANT_∃"; "QUANT_∃!"])
         || bool_decide (node ob ∈ ["PROP_AND"; "PROP_∃"])
         || bool_decide (node ob ∈ ["PROP_OR"])
         || bool_decide (node ob ∈ ["PROP_IMPLIES"])
         || bool_decide (node ob ∈ INEQUALITIES)), s).
Proof.
  intros Hb. unfold is_simplifiable_body_of_neg.
  unfold is_not, is_for_all, is_exists, is_and, is_or, is_implication,
    is_inequality.
  by rewrite !(bind_Ok _ _ _ _ _ (node_in_run _ s b ob Hb)).
Qed.

(** The test reads the node of the object only. *)
Lemma is_simplifiable_body_of_neg_mono s s' b ob :
  objs s !! b = Some ob → objs s ⊆ objs s' →
  is_simplifiable_body_of_neg b true s = (Ok true, s) →
  is_simplifiable_body_of_neg b true s' = (Ok true, s').
Proof.
  intros Hb Hsub H.
  rewrite (is_simplifiable_body_of_neg_run s b ob Hb) in H.
  rewrite (is_simplifiable_body_of_neg_run s' b ob)
    by by eapply lookup_weaken.
  by injection H as ->.
Qed.

(** X9: for a node ['PROP_NOT_BELONGS'] or ['PROP_EQUAL_NOT'],
    [body_of_negation] creates a new object with the node ['PROP_BELONGS']
    or ['PROP_EQUAL'] and the children of the negation, which is not the
    body of a negation that can be simplified; it shares the [info]
    dictionary of the negation, so that naming the body names the
    negation. *)
Theorem body_of_negation_shares_info (s : state) (self : loc) (o : obj)
    (i : info_dict) (n : string) :
  objs s !! self = Some o → dicts s !! info o = Some i →
  node o ∈ ["PROP_NOT_BELONGS"; "PROP_EQUAL_NOT"] →
  ∃ b s' ob s'',
    body_of_negation self s = (Ok (Some b), s') ∧
    objs s !! b = None ∧ objs s' !! b = Some ob ∧
    node ob ∈ ["PROP_BELONGS"; "PROP_EQUAL"] ∧
    children ob = children o ∧ info ob = info o ∧
    is_simplifiable_body_of_neg b true s' = (Ok false, s') ∧
    give_name b n s' = (Ok tt, s'') ∧
    dicts s'' !! info o = Some (set_name (Some n) i).
Proof.
  intros Ho Hi Hn.
  set (b := fresh (dom (objs s))).
  set (ob := mkObj MathObjectCls (str_replace "_NOT" "" (node o))
               (info o) (children o)
               (Some (default NO_MATH_TYPE (_math_type o))) None false []).
  set (s' := with_objs (<[b := ob]>) s).
  assert (Hb : objs s' !! b = Some ob) by apply lookup_insert_eq.
  exists b, s', ob, (with_dicts (<[info o := set_name (Some n) i]>) s').
  split; [by apply (body_of_negation_new s self o)|].
  split; [apply fresh_obj_None|]. split; [done|].
  pose proof (str_replace_NOT _ Hn) as Hr.
  split; [done|]. split; [done|]. split; [done|].
  split; [|split].
  - rewrite (is_simplifiable_body_of_neg_run s' b ob Hb).
    cbn [node ob].
    apply elem_of_cons in Hr as [-> | Hr]; [reflexivity|].
    apply list_elem_of_singleton in Hr as ->. reflexivity.
  - by apply (give_name_run s' b ob i n).
  - apply lookup_insert_eq.
Qed.

Lemma body_of_negation_shares_info_witness :
  let s := snd (new_MathObject "PROP_EQUAL_NOT" [PROP; PROP] initial_state) in
  ∃ b s' ob s'',
    body_of_negation 4%nat s = (Ok (Some b), s') ∧
    objs s' !! b = Some ob ∧ info ob = 4%nat ∧
    give_name b "H" s' = (Ok tt, s'') ∧
    dicts s'' !! 4%nat = Some (set_name (Some "H") empty_info).
Proof.
  intros s.
  destruct (body_of_negation_shares_info s 4%nat
              (mkObj MathObjectCls "PROP_EQUAL_NOT" 4%nat [PROP; PROP] None
                     None false [])
              empty_info "H")
    as (b & s' & ob & s'' & H1 & _ & H2 & _ & _ & H3 & _ & H4 & H5).
  - vm_compute. reflexivity.
  - vm_compute. reflexivity.
  - apply (bool_decide_unpack _). vm_compute. exact I.
  - by exists b, s', ob, s''.
Defined.

(** *** The first negation that can be pushed *)

Lemma first_found_inv (f : loc → M (option loc)) (R : relation state)
    `{!PreOrder R} cs : ∀ s r s',
  (∀ c s0 r0 s1, c ∈ cs → f c s0 = (Ok r0, s1) → R s0 s1) →
  first_found f cs s = (Ok r, s') →
  R s s' ∧
  ∀ b, r = Some b → ∃ c s0, c ∈ cs ∧ R s s0 ∧ f c s0 = (Ok (Some b), s').
Proof.
  induction cs as [|c cs IH]; intros s r s' Hf H; cbn [first_found] in H.
  { apply ret_inv in H as [-> ->]. split; [reflexivity|]. done. }
  apply bind_inv_Ok in H as (b0 & s1 & H1 & H).
  assert (R s s1) as Hs1 by (eapply Hf; [by left|exact H1]).
  destruct b0 as [b'|].
  - apply ret_inv in H as [-> ->]. split; [done|].
    intros b [= <-]. exists c, s. split; [by left|]. split; [reflexivity|done].
  - apply IH in H as [Hs' Hb].
    2:{ intros c' s0 r0 s2 Hc'. apply Hf. by right. }
    split; [by etrans|].
    intros b Hr. destruct (Hb b Hr) as (c' & s0 & Hc' & Hs0 & Hrun).
    exists c', s0. split; [by right|]. split; [by etrans|done].
Qed.

Global Instance objs_grow_preorder : PreOrder objs_grow.
Proof.
  split.
  - intros s. unfold objs_grow. reflexivity.
  - intros s1 s2 s3 H1 H2. unfold objs_grow in *. by etrans.
Qed.

(** What [body_of_negation] returns on an object of the store. *)
Lemma body_of_negation_inv s self r s' :
  body_of_negation self s = (Ok r, s') →
  objs s ⊆ objs s' ∧
  ∃ o, objs s !! self = Some o ∧
       match r with
       | None => True
       | Some b =>
           (node o = "PROP_NOT" ∧ children o !! 0%nat = Some b ∧ s' = s) ∨
           (∃ ob, objs s' !! b = Some ob ∧
                  node ob ∈ ["PROP_BELONGS"; "PROP_EQUAL"])
       end.
Proof.
  intros H.
  destruct (objs s !! self) as [o|] eqn:Ho.
  2:{ unfold body_of_negation, bind, get_obj in H. by rewrite Ho in H. }
  destruct (decide (node o = "PROP_NOT")) as [Hn|Hn].
  { destruct (children o) as [|c cs] eqn:Hc.
    - by rewrite (body_of_negation_NOT_empty s self o Ho Hn Hc) in H.
    - rewrite (body_of_negation_NOT s self o c cs Ho Hn Hc) in H.
      injection H as <- <-. split; [done|]. exists o. split; [done|].
      left. by rewrite Hc. }
  destruct (decide (node o ∈ ["PROP_NOT_BELONGS"; "PROP_EQUAL_NOT"]))
    as [Hn'|Hn'].
  { rewrite (body_of_negation_new s self o Ho Hn') in H.
    injection H as <- <-. split.
    - cbn. apply insert_subseteq, fresh_obj_None.
    - exists o. split; [done|]. right. eexists. split; [apply lookup_insert_eq|].
      by apply str_replace_NOT. }
  rewrite (body_of_negation_other s self o Ho) in H.
  - injection H as <- <-. split; [done|]. by exists o.
  - intros E. apply elem_of_cons in E as [E|E]; done.
Qed.

Lemma first_pushable_body_of_neg_inv fuel : ∀ self imt s r s',
  first_pushable_body_of_neg fuel self imt s = (Ok r, s') →
  objs s ⊆ objs s' ∧
  ∀ b, r = Some b →
       is_simplifiable_body_of_neg b true s' = (Ok true, s') ∧
       ∃ p op, objs s' !! p = Some op ∧ node op = "PROP_NOT" ∧
               children op !! 0%nat = Some b.
Proof.
  induction fuel as [|fuel IH]; intros self imt s r s' H; [done|].
  cbn [first_pushable_body_of_neg] in H.
  apply bind_inv_pure in H as (mt & _ & H); [|apply pure_tested].
  apply bind_inv_Ok in H as (neg & s0 & Hneg & H).
  apply node_in_inv in Hneg as (-> & omt & Homt & ->).
  apply bind_inv_Ok in H as (found & s1 & Hfound & H).
  assert (Hs1 : objs s ⊆ objs s1 ∧
          ∀ b, found = Some b →
               s1 = s ∧ is_simplifiable_body_of_neg b true s = (Ok true, s) ∧
               node omt = "PROP_NOT" ∧ children omt !! 0%nat = Some b).
  { case_bool_decide as Hn.
    2:{ apply ret_inv in Hfound as [-> ->]. done. }
    apply bind_inv_Ok in Hfound as (b0 & s2 & Hb0 & Hfound).
    apply body_of_negation_inv in Hb0 as (Hsub & o' & Ho' & Hcase).
    assert (o' = omt) as -> by congruence.
    destruct b0 as [b'|]; [|done].
    apply bind_inv_Ok in Hfound as (simp & s3 & Hsimp & Hfound).
    assert (s3 = s2) as ->.
    { eapply (_ : pure (is_simplifiable_body_of_neg b' true)), Hsimp. }
    apply ret_inv in Hfound as [-> ->]. split; [done|].
    intros b Hb. destruct simp; [|done]. injection Hb as ->.
    destruct Hcase as [(Hnode & Hch & ->) | (ob & Hob & Hnb)]; [done|].
    rewrite (is_simplifiable_body_of_neg_run s2 b ob Hob) in Hsimp.
    exfalso. injection Hsimp as Hsimp.
    apply elem_of_cons in Hnb as [E | Hnb].
    - rewrite E in Hsimp. by vm_compute in Hsimp.
    - apply list_elem_of_singleton in Hnb. rewrite Hnb in Hsimp.
      by vm_compute in Hsimp. }
  destruct Hs1 as [Hsub1 Hfirst].
  destruct found as [b'|].
  - apply ret_inv in H as [-> ->].
    destruct (Hfirst b' eq_refl) as (-> & Hsimp & Hnode & Hch).
    split; [done|]. intros b [= <-]. split; [done|]. by exists mt, omt.
  - apply bind_inv_pure in H as (o1 & _ & H); [|apply pure_get_obj].
    apply (first_found_inv _ objs_grow) in H as [Hgrow Hb].
    2:{ intros c sa ra sb _ Hc. by apply IH in Hc as [? _]. }
    split; [by etrans|].
    intros b ->. destruct (Hb b eq_refl) as (c & sa & _ & _ & Hrun).
    apply IH in Hrun as [_ Hrun]. by apply Hrun.
  Unshelve. unfold is_simplifiable_body_of_neg, is_not, is_for_all,
    is_exists, is_and, is_or, is_implication, is_inequality. solve_pure.
Qed.

(** X10: what [first_pushable_body_of_neg] returns, when it returns an
    object, is the first child of a node ['PROP_NOT'] and its node is one of
    those that [is_simplifiable_body_of_neg] accepts; the bodies that
    [body_of_negation] builds for ['PROP_NOT_BELONGS'] and
    ['PROP_EQUAL_NOT'] are never returned.  The search creates objects but
    changes none. *)
Theorem first_pushable_body_of_neg_sound (fuel : nat) (self : loc)
    (imt : bool) (s : state) (b : loc) (s' : state) :
  first_pushable_body_of_neg fuel self imt s = (Ok (Some b), s') →
  objs s ⊆ objs s' ∧
  is_simplifiable_body_of_neg b true s' = (Ok true, s') ∧
  ∃ p op, objs s' !! p = Some op ∧ node op = "PROP_NOT" ∧
          children op !! 0%nat = Some b.
Proof.
  intros H. apply first_pushable_body_of_neg_inv in H as [Hsub H].
  split; [done|]. by apply H.
Qed.

Lemma first_pushable_body_of_neg_sound_witness :
  let s := snd (new_MathObject "PROP_IFF" [5%nat; PROP]
             (snd (new_MathObject "PROP_NOT" [4%nat]
                (snd (new_MathObject "PROP_IMPLIES" [PROP; PROP]
                        initial_state))))) in
  ∃ s', first_pushable_body_of_neg 2 6%nat true s = (Ok (Some 4%nat), s') ∧
        is_simplifiable_body_of_neg 4%nat true s' = (Ok true, s').
Proof.
  intros s. exists s.
  assert (H : first_pushable_body_of_neg 2 6%nat true s = (Ok (Some 4%nat), s))
    by (vm_compute; reflexivity).
  split; [exact H|].
  by destruct (first_pushable_body_of_neg_sound 2 6%nat true s 4%nat s H)
    as (_ & H' & _).
Defined.
(** ** Substitution and implication *)

Lemma pure_orM_node_in n1 n2 l : pure (orM (node_in n1 l true) (node_in n2 l true)).
Proof. solve_pure. Qed.

(** X11: [can_be_used_for_substitution] changes nothing, and it returns
    either [(False, None)] or [(True, m)] where [m] is an object whose node
    is ['PROP_EQUAL'] or ['PROP_IFF']: the equality or equivalence found
    under the universal quantifiers. *)
Theorem can_be_used_for_substitution_gives_equality (fuel : nat) :
  ∀ (self : loc) (imt : bool) (s : state) (r : bool * option loc)
    (s' : state),
  can_be_used_for_substitution fuel self imt s = (Ok r, s') →
  s' = s ∧
  (r = (false, None) ∨
   ∃ m om, r = (true, Some m) ∧ objs s !! m = Some om ∧
           node om ∈ ["PROP_EQUAL"; "PROP_IFF"]).
Proof.
  induction fuel as [|fuel IH]; intros self imt s r s' H; [done|].
  cbn [can_be_used_for_substitution] in H.
  apply bind_inv_pure in H as (mt & _ & H); [|apply pure_tested].
  apply bind_inv_pure in H as (e & He & H); [|apply pure_orM_node_in].
  destruct e.
  - apply ret_inv in H as [-> ->]. split; [done|]. right.
    unfold orM, is_equality, is_iff in He.
    apply bind_inv_pure in He as (e1 & He1 & He); [|apply pure_node_in].
    apply node_in_inv in He1 as (_ & om & Hom & ->).
    exists mt, om. split; [done|]. split; [done|].
    case_bool_decide as E1.
    + apply list_elem_of_singleton in E1. rewrite E1. by left.
    + apply node_in_inv in He as (_ & om' & Hom' & E2).
      assert (om' = om) as -> by congruence.
      symmetry in E2. apply bool_decide_eq_true in E2.
      apply list_elem_of_singleton in E2. rewrite E2. right. by left.
  - apply bind_inv_pure in H as (fa & _ & H); [|apply pure_node_in].
    destruct fa.
    + apply bind_inv_pure in H as (o & _ & H); [|apply pure_get_obj].
      apply bind_inv_pure in H as (b & _ & H); [|apply pure_index].
      by apply IH in H.
    + apply ret_inv in H as [-> ->]. split; [done|]. by left.
Qed.

Lemma can_be_used_for_substitution_gives_equality_witness :
  let s := snd (new_MathObject "QUANT_∀" [PROP; PROP; 4%nat]
             (snd (new_MathObject "PROP_EQUAL" [PROP; PROP] initial_state))) in
  can_be_used_for_substitution 2 5%nat true s = (Ok (true, Some 4%nat), s) ∧
  ∃ om, objs s !! 4%nat = Some om ∧ node om ∈ ["PROP_EQUAL"; "PROP_IFF"].
Proof.
  intros s.
  assert (H : can_be_used_for_substitution 2 5%nat true s
              = (Ok (true, Some 4%nat), s)) by (vm_compute; reflexivity).
  split; [exact H|].
  destruct (can_be_used_for_substitution_gives_equality 2 5%nat true s _ s H)
    as [_ [E | (m & om & E & Hm & Hn)]]; [discriminate|].
  injection E as <-. exists om. split; [exact Hm | exact Hn].
Defined.

Lemma can_be_used_for_implication_S fuel self imt :
  can_be_used_for_implication (S fuel) self imt
  = (let! mt := tested self imt in
     let! imp := is_implication mt true in
     if imp then ret true
     else
       let! fa := is_for_all mt true in
       if fa then
         let! o := get_obj mt in
         let! body_ := index (children o) 2 in
         can_be_used_for_implication fuel body_ true
       else ret false).
Proof. reflexivity. Qed.

(** X12: a universal statement with a bounded quantification can be used
    for an implication: when [bounded_quantification] returns a premise,
    [can_be_used_for_implication] holds. *)
Theorem bounded_quantification_can_be_used_for_implication (fuel : nat)
    (self : loc) (imt : bool) (s : state) (p : loc) (s' : state) :
  bounded_quantification self imt s = (Ok (Some p), s') →
  s' = s ∧
  can_be_used_for_implication (S (S fuel)) self imt s = (Ok true, s).
Proof.
  unfold bounded_quantification. intros H.
  apply bind_inv_pure in H as (mt & Hmt & H); [|apply pure_tested].
  apply bind_inv_pure in H as (fa & Hfa & H); [|apply pure_node_in].
  destruct fa; [|done].
  apply bind_inv_pure in H as (o & Ho & H); [|apply pure_get_obj].
  apply bind_inv_pure in H as (c2 & Hc2 & H); [|apply pure_index].
  apply bind_inv_pure in H as (imp & Himp & H); [|apply pure_node_in].
  destruct imp; [|done].
  apply bind_inv_pure in H as (o' & _ & H); [|apply pure_get_obj].
  apply bind_inv_pure in H as (c2' & _ & H); [|apply pure_index].
  apply bind_inv_pure in H as (o2 & _ & H); [|apply pure_get_obj].
  apply bind_inv_pure in H as (pr & _ & H); [|apply pure_index].
  apply ret_inv in H as [_ ->]. split; [done|].
  rewrite can_be_used_for_implication_S.
  rewrite (bind_Ok _ _ _ _ _ Hmt).
  unfold is_for_all in Hfa. pose proof Hfa as Hfa'.
  apply node_in_inv in Hfa' as (_ & omt & Homt & Efa).
  symmetry in Efa. apply bool_decide_eq_true, list_elem_of_singleton in Efa.
  unfold is_implication at 1. rewrite (bind_Ok _ _ _ false s).
  2:{ rewrite (node_in_run _ s mt omt Homt). rewrite Efa. by vm_compute. }
  unfold is_for_all. rewrite (bind_Ok _ _ _ _ _ Hfa).
  rewrite (bind_Ok _ _ _ _ _ Ho), (bind_Ok _ _ _ _ _ Hc2).
  rewrite can_be_used_for_implication_S.
  rewrite (bind_Ok _ _ _ c2 s) by done.
  by rewrite (bind_Ok _ _ _ _ _ Himp).
Qed.

Lemma bounded_quantification_can_be_used_for_implication_witness :
  let s := snd (new_MathObject "QUANT_∀" [PROP; PROP; 4%nat]
             (snd (new_MathObject "PROP_IMPLIES" [PROP; PROP] initial_state)))
  in
  bounded_quantification 5%nat true s = (Ok (Some PROP), s) ∧
  can_be_used_for_implication 2 5%nat true s = (Ok true, s).
Proof.
  intros s.
  assert (H : bounded_quantification 5%nat true s = (Ok (Some PROP), s))
    by (vm_compute; reflexivity).
  split; [exact H|].
  by destruct (bounded_quantification_can_be_used_for_implication 0 5%nat
                 true s PROP s H) as [_ H'].
Defined.

Lemma index_inv {A} (l : list A) (i : Z) (a : A) s s' :
  index l i s = (Ok a, s') → py_index l i = Some a ∧ s' = s.
Proof.
  unfold index. destruct (py_index l i) as [b|]; [|done].
  intros H. by apply ret_inv in H as [-> ->].
Qed.

Lemma bind_Raise {A B} (m : M A) (k : A → M B) s e s' :
  m s = (Raise e, s') → bind m k s = (Raise e, s').
Proof. intros H. unfold bind. by rewrite H. Qed.

Lemma pure_bounded_quantification self imt :
  pure (bounded_quantification self imt).
Proof.
  unfold bounded_quantification, is_for_all, is_implication. solve_pure.
Qed.

Lemma pure_is_belongs_or_included self imt :
  pure (is_belongs_or_included self imt).
Proof. unfold is_belongs_or_included. solve_pure. Qed.

(** What a premise returned by [bounded_quantification] is. *)
Lemma bounded_quantification_inv mt s p s' :
  bounded_quantification mt true s = (Ok (Some p), s') →
  ∃ omt b ob,
    objs s !! mt = Some omt ∧ node omt = "QUANT_∀" ∧
    children omt !! 2%nat = Some b ∧
    objs s !! b = Some ob ∧ node ob = "PROP_IMPLIES" ∧
    children ob !! 0%nat = Some p.
Proof.
  unfold bounded_quantification, tested. intros H.
  rewrite (bind_Ok _ _ _ mt s) in H by done.
  apply bind_inv_pure in H as (fa & Hfa & H); [|apply pure_node_in].
  destruct fa; [|done].
  apply bind_inv_pure in H as (omt & Homt & H); [|apply pure_get_obj].
  apply get_obj_inv in Homt as [_ Homt].
  apply bind_inv_pure in H as (b & Hb & H); [|apply pure_index].
  apply index_inv in Hb as [Hb _].
  apply bind_inv_pure in H as (imp & Himp & H); [|apply pure_node_in].
  destruct imp; [|done].
  apply bind_inv_pure in H as (omt' & Homt' & H); [|apply pure_get_obj].
  apply get_obj_inv in Homt' as [_ Homt'].
  assert (omt' = omt) as -> by congruence.
  apply bind_inv_pure in H as (b' & Hb' & H); [|apply pure_index].
  apply index_inv in Hb' as [Hb' _].
  assert (b' = b) as -> by congruence.
  apply bind_inv_pure in H as (ob & Hob & H); [|apply pure_get_obj].
  apply get_obj_inv in Hob as [_ Hob].
  apply bind_inv_pure in H as (pr & Hpr & H); [|apply pure_index].
  apply index_inv in Hpr as [Hpr _].
  apply ret_inv in H as [[= ->] _].
  apply node_in_inv in Hfa as (_ & o1 & Ho1 & E1).
  apply node_in_inv in Himp as (_ & o2 & Ho2 & E2).
  assert (o1 = omt) as -> by congruence.
  assert (o2 = ob) as -> by congruence.
  symmetry in E1, E2.
  apply bool_decide_eq_true, list_elem_of_singleton in E1.
  apply bool_decide_eq_true, list_elem_of_singleton in E2.
  by exists omt, b, ob.
Qed.

(** X13: [bounded_quant_real_type] changes nothing, and a type it returns
    is always the set of a membership: the object tested is a universal
    statement whose body is an implication, the premise of which is a node
    ['PROP_BELONGS'] with that type as second child.  When the premise is
    an inclusion ['PROP_INCLUDED'] nothing is returned, against the
    docstring: the call raises [TypeError] ([IndexError] if the inclusion
    has fewer than two children). *)
Theorem bounded_quant_real_type_from_membership (self : loc) (imt : bool)
    (s : state) :
  (∀ r s', bounded_quant_real_type self imt s = (Ok r, s') →
     s' = s ∧
     ∀ t, r = Some t →
       ∃ mt omt b ob p op,
         tested self imt s = (Ok mt, s) ∧
         objs s !! mt = Some omt ∧ node omt = "QUANT_∀" ∧
         children omt !! 2%nat = Some b ∧
         objs s !! b = Some ob ∧ node ob = "PROP_IMPLIES" ∧
         children ob !! 0%nat = Some p ∧
         objs s !! p = Some op ∧ node op = "PROP_BELONGS" ∧
         children op !! 1%nat = Some t) ∧
  (∀ p op, bounded_quantification self imt s = (Ok (Some p), s) →
     objs s !! p = Some op → node op = "PROP_INCLUDED" →
     bounded_quant_real_type self imt s
     = (Raise (if bool_decide (2 ≤ length (children op))%nat
               then TypeError else IndexError), s)).
Proof.
  split.
  - intros r s' H. unfold bounded_quant_real_type in H.
    apply bind_inv_pure in H as (mt & Hmt & H); [|apply pure_tested].
    apply bind_inv_pure in H as (pr & Hpr & H);
      [|apply pure_bounded_quantification].
    destruct pr as [p|].
    2:{ apply ret_inv in H as [-> ->]. split; [done|]. by intros t. }
    apply bind_inv_pure in H as (ty & Hty & H);
      [|apply pure_is_belongs_or_included].
    assert (s' = s) as ->.
    { destruct ty; by apply ret_inv in H as [_ ->]. }
    split; [done|]. intros t ->.
    destruct ty as [t'|]; apply ret_inv in H as [[=] _]. subst t'.
    apply bounded_quantification_inv in Hpr
      as (omt & b & ob & Homt & Hn & Hb & Hob & Hnb & Hp).
    unfold is_belongs_or_included, tested in Hty.
    rewrite (bind_Ok _ _ _ p s) in Hty by done.
    apply bind_inv_pure in Hty as (op & Hop & Hty); [|apply pure_get_obj].
    apply get_obj_inv in Hop as [_ Hop].
    case_bool_decide as Hbel.
    + apply bind_inv_pure in Hty as (c & Hc & Hty); [|apply pure_index].
      apply index_inv in Hc as [Hc _].
      apply ret_inv in Hty as [[= ->] _].
      by exists mt, omt, b, ob, p, op.
    + case_bool_decide; [|done].
      apply bind_inv_pure in Hty as (c & _ & Hty); [|apply pure_index].
      done.
  - intros p op Hbq Hp Hn. unfold bounded_quant_real_type.
    unfold bounded_quantification in Hbq.
    apply bind_inv_pure in Hbq as (mt & Hmt & Hbq); [|apply pure_tested].
    rewrite (bind_Ok _ _ _ _ _ Hmt).
    rewrite (bind_Ok _ _ _ (Some p) s) by exact Hbq.
    cbv beta iota. apply bind_Raise.
    unfold is_belongs_or_included, tested.
    rewrite (bind_Ok _ _ _ p s) by done.
    rewrite (bind_Ok _ _ _ _ _ (get_obj_Some _ _ _ Hp)).
    rewrite Hn.
    rewrite (bool_decide_eq_false_2 ("PROP_INCLUDED" = "PROP_BELONGS"))
      by done.
    rewrite (bool_decide_eq_true_2 ("PROP_INCLUDED" = "PROP_INCLUDED"))
      by done.
    destruct (children op) as [|c0 [|c1 cs]]; [done..|].
    rewrite bool_decide_eq_true_2 by (cbn; lia). done.
Qed.

Lemma bounded_quant_real_type_from_membership_witness :
  let s := snd (new_MathObject "QUANT_∀" [PROP; PROP; 5%nat]
             (snd (new_MathObject "PROP_IMPLIES" [4%nat; PROP]
                (snd (new_MathObject "PROP_INCLUDED" [PROP; PROP]
                        initial_state))))) in
  bounded_quantification 6%nat true s = (Ok (Some 4%nat), s) ∧
  bounded_quant_real_type 6%nat true s = (Raise TypeError, s).
Proof.
  intros s.
  assert (H : bounded_quantification 6%nat true s = (Ok (Some 4%nat), s))
    by (vm_compute; reflexivity).
  split; [exact H|].
  destruct (bounded_quant_real_type_from_membership 6%nat true s)
    as [_ H'].
  apply (H' 4%nat
           (mkObj MathObjectCls "PROP_INCLUDED" 4%nat [PROP; PROP] None None
                  false []) H); [vm_compute; reflexivity | reflexivity].
Defined.

(** ** Bound variables *)

(** Lookups in a store that was just written are resolved. *)
Ltac run_store :=
  repeat (progress cbn [objs dicts with_objs with_dicts info set_parent
                        set_is_unnamed set_local_context_field i_name
                        i_lean_name i_bound_var_nb set_lean_name set_name
                        set_bound_var_nb empty_info default]
          || rewrite lookup_insert_eq).

Lemma upd_info_run s l o i f :
  objs s !! l = Some o → dicts s !! info o = Some i →
  upd_info l f s = (Ok tt, with_dicts (<[info o := f i]>) s).
Proof.
  intros Ho Hi. unfold upd_info.
  rewrite (bind_Ok _ _ _ _ _ (get_obj_Some _ _ _ Ho)).
  unfold upd_dict. by rewrite Hi.
Qed.

Lemma upd_obj_run s l o f :
  objs s !! l = Some o →
  upd_obj l f s = (Ok tt, with_objs (<[l := f o]>) s).
Proof. intros Ho. unfold upd_obj. by rewrite Ho. Qed.

Lemma set_unnamed_bound_var_run s v o i :
  objs s !! v = Some o → dicts s !! info o = Some i →
  set_unnamed_bound_var v s
  = (Ok tt,
     with_objs (<[v := set_is_unnamed true o]>)
       (with_dicts (<[info o := set_bound_var_nb (Some (-1)%Z)
                                  (set_lean_name (Some (lean_name_of i))
                                     (set_name (Some "NO NAME") i))]>) s)).
Proof.
  intros Ho Hi. unfold set_unnamed_bound_var.
  rewrite (bind_Ok _ _ _ _ _ (get_info_Some _ _ _ _ Ho Hi)).
  rewrite (bind_Ok _ _ _ _ _ (upd_info_run s v o i _ Ho Hi)).
  by rewrite (upd_obj_run _ v o).
Qed.

Lemma keep_lean_name_run s l o i ln :
  objs s !! l = Some o → dicts s !! info o = Some i →
  i_lean_name i = Some ln →
  keep_lean_name l s
  = (Ok (bool_decide (ln ∈ untouched_bound_var_names)
         || String.prefix "_inst_" ln), s).
Proof.
  intros Ho Hi Hl. unfold keep_lean_name, lean_name.
  rewrite (bind_Ok _ _ _ (Some ln) s); [done|].
  rewrite (bind_Ok _ _ _ _ _ (get_info_Some _ _ _ _ Ho Hi)).
  by rewrite Hl.
Qed.

Lemma state_ext (s1 s2 : state) :
  objs s1 = objs s2 → dicts s1 = dicts s2 →
  Variables s1 = Variables s2 → constants s1 = constants s2 →
  number_sets s1 = number_sets s2 →
  bound_var_counter s1 = bound_var_counter s2 →
  definition_patterns s1 = definition_patterns s2 →
  implicit_definitions s1 = implicit_definitions s2 →
  last_used_implicit_definition s1 = last_used_implicit_definition s2 →
  s1 = s2.
Proof. destruct s1, s2. cbn. by intros -> -> -> -> -> -> -> -> ->. Qed.

(** A new bound variable and the state it is created in. *)
Lemma from_math_type_run mt p s :
  from_math_type mt p s
  = (Ok (fresh (dom (objs s))),
     with_objs (<[fresh (dom (objs s)) :=
                    mkObj BoundVarCls "LOCAL_CONSTANT" (fresh (dom (dicts s)))
                          [] (Some mt) (Some (default NO_MATH_TYPE p)) true []]>)
       (with_dicts (<[fresh (dom (dicts s)) := unnamed_info]>) s)).
Proof.
  unfold from_math_type.
  set (d := fresh (dom (dicts s))).
  set (v := fresh (dom (objs s))).
  set (i0 := set_lean_name (Some "") (set_name (Some "NO NAME") empty_info)).
  set (s1 := with_dicts (<[d := i0]>) s).
  rewrite (bind_Ok _ _ _ d s1) by done.
  unfold BoundVar_init.
  set (o1 := mkObj BoundVarCls "LOCAL_CONSTANT" d [] (Some mt) None false []).
  set (s2 := with_objs (<[v := o1]>) s1).
  rewrite (bind_Ok _ _ _ v s2).
  2:{ apply (MathObject_init_simple s1); [constructor | done | done]. }
  set (o2 := set_parent (Some (default NO_MATH_TYPE p)) o1).
  set (s3 := with_objs (<[v := o2]>) s2).
  rewrite (bind_Ok _ _ _ tt s3).
  2:{ rewrite (upd_obj_run s2 v o1) by apply lookup_insert_eq.
      unfold s3, o2. by destruct p. }
  set (o3 := set_is_unnamed true o2).
  set (s4 := with_objs (<[v := o3]>) s3).
  rewrite (bind_Ok _ _ _ tt s4)
    by (apply (upd_obj_run s3 v o2), lookup_insert_eq).
  set (s5 := with_objs (<[v := set_is_unnamed true o3]>)
               (with_dicts (<[d := unnamed_info]>) s4)).
  rewrite (bind_Ok _ _ _ tt s5).
  2:{ rewrite (set_unnamed_bound_var_run s4 v o3 i0);
        [done | apply lookup_insert_eq | apply lookup_insert_eq]. }
  rewrite (bind_Ok _ _ _ false s5).
  2:{ by rewrite (keep_lean_name_run s5 v (set_is_unnamed true o3)
                    unnamed_info "")
        by (reflexivity || apply lookup_insert_eq). }
  rewrite (bind_Ok _ _ _ tt s5) by done.
  rewrite (bind_Ok _ _ _ _ _ (upd_obj_run s5 v _ _ (lookup_insert_eq _ _ _))).
  unfold ret. f_equal. apply state_ext; try reflexivity.
  - unfold s5, s4, s3, s2. cbn [objs with_objs with_dicts].
    by rewrite !insert_insert_eq.
  - unfold s5, s4, s3, s2, s1. cbn [dicts with_objs with_dicts].
    by rewrite !insert_insert_eq.
Qed.

(** X14: [BoundVar.from_math_type] always succeeds.  It creates a new
    bound variable with a new dictionary: a local constant without
    children, of the given math_type, whose parent is the given one
    ([NO_MATH_TYPE] by default), unnamed, with the name ['NO NAME'], an
    empty lean name and the default tag [-1]; nothing that existed is
    changed. *)
Theorem from_math_type_fresh_unnamed (mt : loc) (p : option loc)
    (s : state) :
  ∃ v s' o i,
    from_math_type mt p s = (Ok v, s') ∧
    objs s !! v = None ∧ objs s' !! v = Some o ∧
    cls o = BoundVarCls ∧ node o = "LOCAL_CONSTANT" ∧ children o = [] ∧
    _math_type o = Some mt ∧ parent o = Some (default NO_MATH_TYPE p) ∧
    is_unnamed o = true ∧
    dicts s !! info o = None ∧ dicts s' !! info o = Some i ∧
    i_name i = Some "NO NAME" ∧ i_lean_name i = Some "" ∧
    i_bound_var_nb i = Some (-1)%Z ∧
    objs s ⊆ objs s' ∧ dicts s ⊆ dicts s'.
Proof.
  eexists _, _, _, unnamed_info.
  split; [apply from_math_type_run|].
  split; [apply fresh_obj_None|].
  split; [apply lookup_insert_eq|].
  cbn [cls node children _math_type parent is_unnamed info].
  do 6 (split; [reflexivity|]).
  split; [apply fresh_dict_None|].
  split; [apply lookup_insert_eq|].
  do 3 (split; [reflexivity|]).
  split; cbn; apply insert_subseteq; [apply fresh_obj_None|apply fresh_dict_None].
Qed.

Lemma BoundVar_eq_run s v w ov ow iv iw :
  objs s !! v = Some ov → objs s !! w = Some ow →
  cls ov = BoundVarCls → cls ow = BoundVarCls →
  dicts s !! info ov = Some iv → dicts s !! info ow = Some iw →
  v ≠ w → is_Some (i_name iv) → is_Some (i_name iw) →
  BoundVar_eq v w s
  = (Ok (if bool_decide (i_bound_var_nb iv = Some (-1)%Z)
         then bool_decide (i_name iv = i_name iw)
         else bool_decide (i_bound_var_nb iv = i_bound_var_nb iw)), s).
Proof.
  intros Hv Hw Hcv Hcw Hiv Hiw Hne [nv Hnv] [nw Hnw]. unfold BoundVar_eq.
  rewrite bool_decide_eq_false_2 by done.
  rewrite (bind_Ok _ _ _ _ _ (get_obj_Some _ _ _ Hw)). rewrite Hcw.
  rewrite (bind_Ok _ _ _ _ _ (bound_var_nb_Some _ _ _ _ Hv Hiv)).
  case_bool_decide as Hnb; cbn [negb].
  - rewrite (bind_Ok _ _ _ _ _ (name_BoundVar _ _ _ _ _ Hv Hiv Hcv Hnv)).
    rewrite (bind_Ok _ _ _ _ _ (name_BoundVar _ _ _ _ _ Hw Hiw Hcw Hnw)).
    by rewrite Hnv, Hnw.
  - by rewrite (bind_Ok _ _ _ _ _ (bound_var_nb_Some _ _ _ _ Hw Hiw)).
Qed.

(** X15: two bound variables that were just created by
    [BoundVar.from_math_type] are equal for [BoundVar.__eq__], in both
    directions, whatever their math_types and parents: they are distinct
    objects, but both are untagged and named ['NO NAME']. *)
Theorem unnamed_bound_vars_are_equal (mt1 mt2 : loc) (p1 p2 : option loc)
    (s : state) :
  ∃ v s1 w s2,
    from_math_type mt1 p1 s = (Ok v, s1) ∧
    from_math_type mt2 p2 s1 = (Ok w, s2) ∧
    v ≠ w ∧
    BoundVar_eq v w s2 = (Ok true, s2) ∧
    BoundVar_eq w v s2 = (Ok true, s2).
Proof.
  eexists _, _, _, _.
  split; [apply from_math_type_run|].
  split; [apply from_math_type_run|].
  set (s1 := with_objs _ (with_dicts _ s)).
  set (v := fresh (dom (objs s))). set (d := fresh (dom (dicts s))).
  set (w := fresh (dom (objs s1))). set (e := fresh (dom (dicts s1))).
  assert (Hv1 : objs s1 !! v = Some (mkObj BoundVarCls "LOCAL_CONSTANT" d []
                  (Some mt1) (Some (default NO_MATH_TYPE p1)) true []))
    by apply lookup_insert_eq.
  assert (Hd1 : dicts s1 !! d = Some unnamed_info) by apply lookup_insert_eq.
  assert (Hvw : v ≠ w).
  { intros E. unfold w in E. rewrite E in Hv1.
    by rewrite fresh_obj_None in Hv1. }
  assert (Hde : d ≠ e).
  { intros E. unfold e in E. rewrite E in Hd1.
    by rewrite fresh_dict_None in Hd1. }
  split; [done|].
  match goal with |- context [BoundVar_eq v w ?st] => set (s2 := st) end.
  assert (Hv2 : objs s2 !! v = Some (mkObj BoundVarCls "LOCAL_CONSTANT" d []
                  (Some mt1) (Some (default NO_MATH_TYPE p1)) true [])).
  { cbn. by rewrite lookup_insert_ne. }
  assert (Hw2 : objs s2 !! w = Some (mkObj BoundVarCls "LOCAL_CONSTANT" e []
                  (Some mt2) (Some (default NO_MATH_TYPE p2)) true []))
    by apply lookup_insert_eq.
  assert (Hd2 : dicts s2 !! d = Some unnamed_info).
  { cbn. by rewrite lookup_insert_ne. }
  assert (He2 : dicts s2 !! e = Some unnamed_info) by apply lookup_insert_eq.
  split.
  - by rewrite (BoundVar_eq_run s2 v w _ _ unnamed_info unnamed_info Hv2 Hw2).
  - by rewrite (BoundVar_eq_run s2 w v _ _ unnamed_info unnamed_info Hw2 Hv2).
Qed.
(** Marking two bound variables: both dictionaries get the new value of
    the counter. *)
Lemma mark_identical_bound_vars_run s v w ov ow iv iw :
  objs s !! v = Some ov → objs s !! w = Some ow →
  dicts s !! info ov = Some iv → dicts s !! info ow = Some iw →
  ∃ s' iv' iw',
    mark_identical_bound_vars v w s = (Ok tt, s') ∧
    objs s' = objs s ∧
    bound_var_counter s' = (bound_var_counter s + 1)%Z ∧
    dicts s' !! info ov = Some iv' ∧ dicts s' !! info ow = Some iw' ∧
    i_bound_var_nb iv' = Some (bound_var_counter s + 1)%Z ∧
    i_bound_var_nb iw' = Some (bound_var_counter s + 1)%Z ∧
    i_name iv' = i_name iv ∧ i_name iw' = i_name iw.
Proof.
  intros Hv Hw Hiv Hiw. unfold mark_identical_bound_vars.
  set (s0 := with_counter (λ c, c + 1)%Z s).
  rewrite (bind_Ok _ _ _ tt s0) by done.
  rewrite (bind_Ok _ _ _ s0 s0) by done.
  set (k := Some (bound_var_counter s0)).
  rewrite (bind_Ok _ _ _ _ _ (upd_info_run s0 v ov iv _ Hv Hiv)).
  set (s1 := with_dicts (<[info ov := set_bound_var_nb k iv]>) s0).
  destruct (decide (info ow = info ov)) as [E|E].
  - assert (iw = iv) as -> by (rewrite E in Hiw; congruence).
    assert (Hiw1 : dicts s1 !! info ow = Some (set_bound_var_nb k iv)).
    { rewrite E. apply lookup_insert_eq. }
    rewrite (upd_info_run s1 w ow _ _ Hw Hiw1).
    eexists _, _, _. split; [reflexivity|]. split; [done|]. split; [done|].
    rewrite E. cbn [dicts with_dicts]. rewrite !lookup_insert_eq.
    by repeat split.
  - assert (Hiw1 : dicts s1 !! info ow = Some iw).
    { cbn. by rewrite lookup_insert_ne. }
    rewrite (upd_info_run s1 w ow _ _ Hw Hiw1).
    eexists _, _, _. split; [reflexivity|]. split; [done|]. split; [done|].
    cbn [dicts with_dicts].
    split; [rewrite lookup_insert_ne by done; apply lookup_insert_eq|].
    split; [apply lookup_insert_eq|]. by repeat split.
Qed.

(** X16: while two bound variables are marked by
    [mark_identical_bound_vars], they are equal for [BoundVar.__eq__] in
    both directions and [recursive_match] holds, whatever their names;
    this needs the counter not to be negative, as it is after [clear] and
    in the initial state (marking with a counter of -2 would give the
    default tag -1). *)
Theorem marked_bound_vars_are_equal (s : state) (v w : loc) (ov ow : obj)
    (iv iw : info_dict) :
  objs s !! v = Some ov → objs s !! w = Some ow →
  cls ov = BoundVarCls → cls ow = BoundVarCls →
  dicts s !! info ov = Some iv → dicts s !! info ow = Some iw →
  (0 ≤ bound_var_counter s)%Z →
  ∃ s',
    mark_identical_bound_vars v w s = (Ok tt, s') ∧
    BoundVar_eq v w s' = (Ok true, s') ∧
    BoundVar_eq w v s' = (Ok true, s') ∧
    recursive_match v w s' = (Ok true, s').
Proof.
  intros Hv Hw Hcv Hcw Hiv Hiw Hk.
  destruct (mark_identical_bound_vars_run s v w ov ow iv iw Hv Hw Hiv Hiw)
    as (s' & iv' & iw' & Hrun & Ho & _ & Hiv' & Hiw' & Hnv & Hnw & _).
  exists s'. split; [done|].
  rewrite <- Ho in Hv, Hw.
  assert (Heq : ∀ a b oa ob ia ib,
             objs s' !! a = Some oa → objs s' !! b = Some ob →
             cls ob = BoundVarCls →
             dicts s' !! info oa = Some ia → dicts s' !! info ob = Some ib →
             i_bound_var_nb ia = Some (bound_var_counter s + 1)%Z →
             i_bound_var_nb ib = Some (bound_var_counter s + 1)%Z →
             BoundVar_eq a b s' = (Ok true, s')).
  { intros a b oa ob ia ib Ha Hb Hcb Hia Hib Hna Hnb. unfold BoundVar_eq.
    case_bool_decide; [done|].
    rewrite (bind_Ok _ _ _ _ _ (get_obj_Some _ _ _ Hb)). rewrite Hcb.
    rewrite (bind_Ok _ _ _ _ _ (bound_var_nb_Some _ _ _ _ Ha Hia)).
    rewrite Hna. rewrite bool_decide_eq_false_2 by (intros [=]; lia).
    cbn [negb].
    rewrite (bind_Ok _ _ _ _ _ (bound_var_nb_Some _ _ _ _ Hb Hib)).
    rewrite Hnb. unfold ret. by rewrite bool_decide_eq_true_2. }
  split; [by eapply Heq|]. split; [by eapply Heq|].
  unfold recursive_match, BoundVar_method.
  rewrite (bind_Ok _ _ _ _ _ (get_obj_Some _ _ _ Hv)). rewrite Hcv.
  unfold andM, is_bound_var.
  rewrite (bind_Ok _ _ _ true s').
  2:{ rewrite (bind_Ok _ _ _ _ _ (get_obj_Some _ _ _ Hw)).
      unfold ret. by rewrite bool_decide_eq_true_2. }
  rewrite (bind_Ok _ _ _ _ _ (bound_var_nb_Some _ _ _ _ Hv Hiv')).
  rewrite (bind_Ok _ _ _ _ _ (bound_var_nb_Some _ _ _ _ Hw Hiw')).
  unfold ret. rewrite bool_decide_eq_true_2; [done|congruence].
Qed.

Lemma marked_bound_vars_are_equal_witness :
  let s := snd (from_math_type PROP None
                  (snd (from_math_type PROP None initial_state))) in
  ∃ s', mark_identical_bound_vars 4%nat 5%nat s = (Ok tt, s') ∧
        BoundVar_eq 4%nat 5%nat s' = (Ok true, s').
Proof.
  intros s.
  destruct (marked_bound_vars_are_equal s 4%nat 5%nat
              (mkObj BoundVarCls "LOCAL_CONSTANT" 4%nat [] (Some PROP)
                     (Some NO_MATH_TYPE) true [])
              (mkObj BoundVarCls "LOCAL_CONSTANT" 5%nat [] (Some PROP)
                     (Some NO_MATH_TYPE) true [])
              unnamed_info unnamed_info)
    as (s' & H1 & H2 & _).
  - vm_compute. reflexivity.
  - vm_compute. reflexivity.
  - reflexivity.
  - reflexivity.
  - vm_compute. reflexivity.
  - vm_compute. reflexivity.
  - vm_compute. discriminate.
  - exists s'. split; [exact H1 | exact H2].
Defined.

(** X17: [set_unnamed_bound_var] keeps the former name of a bound variable
    as its lean name, the name becoming ['NO NAME'] and the tag -1; called
    a second time, it finds the name ['NO NAME'] and the lean name is lost:
    it becomes the empty string. *)
Theorem set_unnamed_bound_var_twice (s : state) (v : loc) (o : obj)
    (i : info_dict) :
  objs s !! v = Some o → dicts s !! info o = Some i →
  ∃ s1 i1 s2 i2,
    set_unnamed_bound_var v s = (Ok tt, s1) ∧
    dicts s1 !! info o = Some i1 ∧
    i_name i1 = Some "NO NAME" ∧
    i_lean_name i1 = Some (lean_name_of i) ∧
    i_bound_var_nb i1 = Some (-1)%Z ∧
    set_unnamed_bound_var v s1 = (Ok tt, s2) ∧
    dicts s2 !! info o = Some i2 ∧
    i_name i2 = Some "NO NAME" ∧ i_lean_name i2 = Some "".
Proof.
  intros Ho Hi. eexists _, _, _, _.
  split; [by apply set_unnamed_bound_var_run|].
  split; [apply lookup_insert_eq|].
  do 3 (split; [reflexivity|]).
  split.
  - apply (set_unnamed_bound_var_run _ v (set_is_unnamed true o));
      apply lookup_insert_eq.
  - split; [apply lookup_insert_eq|]. split; reflexivity.
Qed.

Lemma set_unnamed_bound_var_twice_witness :
  let s := snd (name_bound_var 4%nat (Some "y")
                  (snd (from_math_type PROP None initial_state))) in
  ∃ s1 i1 s2 i2,
    set_unnamed_bound_var 4%nat s = (Ok tt, s1) ∧
    dicts s1 !! 4%nat = Some i1 ∧ i_lean_name i1 = Some "y" ∧
    set_unnamed_bound_var 4%nat s1 = (Ok tt, s2) ∧
    dicts s2 !! 4%nat = Some i2 ∧ i_lean_name i2 = Some "".
Proof.
  intros s.
  destruct (set_unnamed_bound_var_twice s 4%nat
              (mkObj BoundVarCls "LOCAL_CONSTANT" 4%nat [] (Some PROP)
                     (Some NO_MATH_TYPE) false [])
              (mkInfo None None (Some "y") None None (Some "")
                      (Some (-1)%Z)))
    as (s1 & i1 & s2 & i2 & H1 & H2 & _ & H3 & _ & H4 & H5 & _ & H6).
  - vm_compute. reflexivity.
  - vm_compute. reflexivity.
  - exists s1, i1, s2, i2. repeat split; assumption.
Defined.

(** X18: [BoundVar.apply_matching] returns a copy: a new bound variable
    with the attributes of the original, on the same [info] dictionary; the
    copy and the original are equal for [BoundVar.__eq__], in both
    directions. *)
Theorem BoundVar_apply_matching_copy (s : state) (v : loc) (o : obj)
    (i : info_dict) :
  objs s !! v = Some o → cls o = BoundVarCls →
  dicts s !! info o = Some i → is_Some (i_name i) →
  ∃ c s',
    BoundVar_apply_matching v s = (Ok c, s') ∧
    objs s !! c = None ∧ objs s' !! c = Some o ∧ objs s' !! v = Some o ∧
    dicts s' = dicts s ∧
    BoundVar_eq c v s' = (Ok true, s') ∧
    BoundVar_eq v c s' = (Ok true, s').
Proof.
  intros Ho Hc Hi Hn.
  set (c := fresh (dom (objs s))).
  set (s' := with_objs (<[c := o]>) s).
  exists c, s'.
  assert (Hcv : c ≠ v).
  { intros E. rewrite <- E in Ho. unfold c in Ho.
    by rewrite fresh_obj_None in Ho. }
  assert (Hc' : objs s' !! c = Some o) by apply lookup_insert_eq.
  assert (Hv' : objs s' !! v = Some o) by by apply lookup_alloc_old.
  split.
  { unfold BoundVar_apply_matching, BoundVar_method.
    rewrite (bind_Ok _ _ _ _ _ (get_obj_Some _ _ _ Ho)). rewrite Hc.
    by rewrite (bind_Ok _ _ _ _ _ (get_obj_Some _ _ _ Ho)). }
  split; [apply fresh_obj_None|]. do 3 (split; [done|]).
  assert (Hi' : dicts s' !! info o = Some i) by done.
  split.
  - rewrite (BoundVar_eq_run s' c v o o i i) by done.
    by destruct (bool_decide _); rewrite bool_decide_eq_true_2.
  - rewrite (BoundVar_eq_run s' v c o o i i) by done.
    by destruct (bool_decide _); rewrite bool_decide_eq_true_2.
Qed.

Lemma BoundVar_apply_matching_copy_witness :
  let s := snd (from_math_type PROP None initial_state) in
  ∃ c s', BoundVar_apply_matching 4%nat s = (Ok c, s') ∧
          BoundVar_eq c 4%nat s' = (Ok true, s').
Proof.
  intros s.
  destruct (BoundVar_apply_matching_copy s 4%nat
              (mkObj BoundVarCls "LOCAL_CONSTANT" 4%nat [] (Some PROP)
                     (Some NO_MATH_TYPE) true [])
              unnamed_info)
    as (c & s' & H1 & _ & _ & _ & _ & H2 & _).
  - vm_compute. reflexivity.
  - reflexivity.
  - vm_compute. reflexivity.
  - vm_compute. eauto.
  - exists c, s'. split; [exact H1 | exact H2].
Defined.
(** ** Paths of descent *)

Lemma bind_assoc {A B C} (m : M A) (k : A → M B) (k' : B → M C) s :
  bind (bind m k) k' s = bind m (λ a, bind (k a) k') s.
Proof. unfold bind. by destruct (m s) as [[a | e | |] s1]. Qed.

Lemma bind_ext {A B} (m : M A) (k k' : A → M B) s :
  (∀ a s1, k a s1 = k' a s1) → bind m k s = bind m k' s.
Proof. intros H. unfold bind. destruct (m s) as [[a | e | |] s1]; auto. Qed.

Lemma bind_cong_l {A B} (m m' : M A) (k : A → M B) s :
  m s = m' s → bind m k s = bind m' k s.
Proof. unfold bind. by intros ->. Qed.

Lemma descendant_seq_cons t i q s :
  q ≠ [] →
  descendant_seq t (i :: q) s
  = bind (descendant_seq t [i]) (descend_further q) s.
Proof.
  intros Hq. cbn [descendant_seq].
  rewrite bind_assoc. apply bind_ext. intros o s1.
  case_bool_decide; [done|].
  rewrite bind_assoc. apply bind_ext. intros c s2.
  by destruct q.
Qed.

Lemma descendant_seq_app p : ∀ t q s,
  p ≠ [] → q ≠ [] →
  descendant_seq t (p ++ q) s
  = bind (descendant_seq t p) (descend_further q) s.
Proof.
  induction p as [|i p IH]; intros t q s Hp Hq; [done|].
  destruct p as [|j p].
  { by apply descendant_seq_cons. }
  change ((i :: j :: p) ++ q) with (i :: ((j :: p) ++ q)).
  rewrite descendant_seq_cons by done.
  rewrite (bind_cong_l (descendant_seq t (i :: j :: p)) _ _ _
             (descendant_seq_cons t i (j :: p) s ltac:(done))).
  rewrite bind_assoc. apply bind_ext. intros [c|] s1; [|done].
  cbn [descend_further]. by apply IH.
Qed.

(** X19: paths of descent compose: following the path [p ++ q] (both
    non-empty) is following [p] and then, from the object reached, [q]; if
    [p] leads out of range ([None]), so does [p ++ q].  A path of one index
    within range gives the child that the plain integer gives, and the
    empty path raises [ValueError]. *)
Theorem descendant_paths_compose (t : loc) (p q : list Z) (s : state) :
  p ≠ [] → q ≠ [] →
  descendant t (LSeq (p ++ q)) s
  = (let! r := descendant t (LSeq p) in
     match r with
     | Some c => descendant c (LSeq q)
     | None => ret None
     end) s ∧
  (∀ i o, objs s !! t = Some o → (0 ≤ i < Z.of_nat (length (children o)))%Z →
          descendant t (LSeq [i]) s = descendant t (LInt i) s) ∧
  descendant t (LSeq []) s = (Raise ValueError, s).
Proof.
  intros Hp Hq. split; [|split; [|done]].
  - cbn [descendant]. by apply descendant_seq_app.
  - intros i o Ho Hi. cbn [descendant descendant_seq].
    rewrite !(bind_Ok _ _ _ _ _ (get_obj_Some _ _ _ Ho)).
    rewrite bool_decide_eq_false_2 by lia. done.
Qed.

Lemma descendant_paths_compose_witness :
  let s := snd (new_MathObject "PROP_AND" [4%nat; PROP]
             (snd (new_MathObject "PROP_NOT" [PROP] initial_state))) in
  descendant 5%nat (LSeq ([0%Z] ++ [0%Z])) s
  = (let! r := descendant 5%nat (LSeq [0%Z]) in
     match r with
     | Some c => descendant c (LSeq [0%Z])
     | None => ret None
     end) s.
Proof.
  intros s.
  destruct (descendant_paths_compose 5%nat [0%Z] [0%Z] s) as [H _];
    [discriminate | discriminate | exact H].
Defined.

(** ** Sets of numbers *)

Lemma display_name_inv l s dn s' :
  display_name l s = (Ok dn, s') → s' = s.
Proof. intros H. eapply pure_display_name, H. Qed.

(** X20: when [which_number_set] names a set of numbers, the object is a
    constant, the name is one of ℕ, ℤ, ℚ, ℝ, and [is_number] holds; the
    state is left as it is. *)
Theorem which_number_set_is_number (self : loc) (s : state) (n : string)
    (s' : state) :
  which_number_set self true s = (Ok (Some n), s') →
  s' = s ∧ n ∈ NUMBER_SETS_LIST ∧
  is_constant self s = (Ok true, s) ∧
  is_number self s = (Ok true, s).
Proof.
  unfold which_number_set, tested. intros H.
  rewrite (bind_Ok _ _ _ self s) in H by done.
  apply bind_inv_pure in H as (dn & Hdn & H); [|apply pure_display_name].
  apply bind_inv_pure in H as (o & Ho & H); [|apply pure_get_obj].
  destruct (bool_decide (node o = "CONSTANT")) eqn:Hn; [|done].
  destruct (bool_decide (dn ∈ ["ℕ"; "ℤ"; "ℚ"; "ℝ"])) eqn:Hin; [|done].
  cbn [andb] in H. apply ret_inv in H as [[= ->] ->].
  apply bool_decide_eq_true in Hin. split; [done|]. split; [done|].
  split.
  - unfold is_constant. rewrite (bind_Ok _ _ _ _ _ Ho). by rewrite Hn.
  - unfold is_number.
    assert (HN : is_N self s = (Ok (bool_decide (dn = "ℕ")), s))
      by (unfold is_N; by rewrite (bind_Ok _ _ _ _ _ Hdn)).
    assert (HZ : is_Z self s = (Ok (bool_decide (dn = "ℤ")), s))
      by (unfold is_Z; by rewrite (bind_Ok _ _ _ _ _ Hdn)).
    assert (HQ : is_Q self s = (Ok (bool_decide (dn = "ℚ")), s))
      by (unfold is_Q; by rewrite (bind_Ok _ _ _ _ _ Hdn)).
    assert (HR : is_R self s
                 = (Ok (bool_decide (dn = "ℝ")
                        || bool_decide (dn = "RealSubGroup")), s)).
    { unfold is_R. rewrite (bind_Ok _ _ _ _ _ Hdn).
      destruct (bool_decide (dn = "ℝ")); [done|].
      by rewrite (bind_Ok _ _ _ _ _ Hdn). }
    rewrite (bind_Ok _ _ _ _ _ HN), (bind_Ok _ _ _ _ _ HZ),
      (bind_Ok _ _ _ _ _ HQ), (bind_Ok _ _ _ _ _ HR).
    unfold ret. do 2 f_equal.
    repeat (apply elem_of_cons in Hin as [-> | Hin]; [reflexivity|]).
    by apply elem_of_nil in Hin.
Qed.

Lemma which_number_set_is_number_witness :
  let s := snd (session_with_constant initial_state) in
  is_number 4%nat s = (Ok true, s).
Proof.
  intros s.
  assert (H : which_number_set 4%nat true s = (Ok (Some "ℝ"), s))
    by (vm_compute; reflexivity).
  destruct (which_number_set_is_number 4%nat s "ℝ" s H) as (_ & _ & _ & H').
  exact H'.
Defined.


Lemma add_numbers_set_present name_ s :
  name_ ∈ number_sets s → add_numbers_set name_ s = (Ok tt, s).
Proof.
  intros H. unfold add_numbers_set.
  rewrite (bind_Ok _ _ _ s s) by done.
  rewrite (bool_decide_eq_true_2 (name_ ∈ number_sets s)) by done.
  by rewrite andb_false_r.
Qed.

(** X21: inserting a name of the chain into a list of names of the chain
    always succeeds; afterwards the name is in the list, together with all
    the names that were there and no other (the list is one longer if the
    name is new), and inserting it again changes nothing. *)
Theorem add_numbers_set_inserts (name_ : string) (s : state) :
  Forall (λ x, x ∈ NUMBER_SETS_LIST) (number_sets s) →
  name_ ∈ NUMBER_SETS_LIST →
  ∃ l',
    add_numbers_set name_ s = (Ok tt, set_number_sets l' s) ∧
    name_ ∈ l' ∧
    (∀ x, x ∈ l' ↔ x = name_ ∨ x ∈ number_sets s) ∧
    (name_ ∉ number_sets s → length l' = S (length (number_sets s))) ∧
    add_numbers_set name_ (set_number_sets l' s)
    = (Ok tt, set_number_sets l' s).
Proof.
  intros Hin Hn.
  destruct (decide (name_ ∈ number_sets s)) as [Hold|Hnew].
  { exists (number_sets s). rewrite set_number_sets_id by done.
    split; [by apply add_numbers_set_present|]. split; [done|].
    split; [|split; [done|by apply add_numbers_set_present]].
    intros x. split; [auto|]. by intros [->|]. }
  destruct (list_index_elem_of _ _ Hn) as [i Hi].
  set (s1 := set_number_sets (number_sets s ++ [name_]) s).
  destruct (add_numbers_set_loop_spec name_ i (number_sets s) [] s1 Hi Hin
              eq_refl) as (pre1 & pre2 & Hpre & Hrun & _ & _).
  rewrite app_nil_r in Hrun.
  exists (pre1 ++ name_ :: pre2).
  assert (Hmem : name_ ∈ pre1 ++ name_ :: pre2).
  { apply elem_of_app. right. by left. }
  split.
  { unfold add_numbers_set. rewrite (bind_Ok _ _ _ s s) by done.
    rewrite bool_decide_eq_true_2 by done.
    rewrite bool_decide_eq_false_2 by done. cbn [negb andb].
    rewrite (bind_Ok _ _ _ tt s1) by done.
    rewrite (bind_Ok _ _ _ s1 s1) by done.
    replace (length (number_sets s1) - 1)%nat with (length (number_sets s)).
    2:{ cbn. rewrite length_app. cbn. lia. }
    exact Hrun. }
  split; [done|]. split; [|split].
  - intros x. rewrite Hpre. rewrite !elem_of_app, elem_of_cons. tauto.
  - intros _. rewrite Hpre, !length_app. cbn. lia.
  - by apply add_numbers_set_present.
Qed.

Lemma add_numbers_set_inserts_witness :
  ∃ l', add_numbers_set "ℤ" (set_number_sets ["ℕ"; "ℝ"] initial_state)
        = (Ok tt, set_number_sets l' (set_number_sets ["ℕ"; "ℝ"] initial_state))
        ∧ "ℤ" ∈ l'.
Proof.
  destruct (add_numbers_set_inserts "ℤ"
              (set_number_sets ["ℕ"; "ℝ"] initial_state))
    as (l' & H1 & H2 & _).
  - repeat constructor; apply (bool_decide_unpack _); vm_compute; exact I.
  - apply (bool_decide_unpack _). vm_compute. exact I.
  - exists l'. split; [exact H1 | exact H2].
Defined.

(** ** Direction of a substitution *)

(** X22: [direction_for_substitution_in] never answers ['<']: when it
    returns, the answer is [''], ['>'] or ['both'] (the table gives ['>']
    both when only the left member and when only the right member of the
    equality appears). *)
Theorem direction_for_substitution_in_never_left (fuel : nat)
    (self other : loc) (s : state) (d : string) (s' : state) :
  direction_for_substitution_in fuel self other s = (Ok d, s') →
  d ∈ [""; ">"; "both"].
Proof.
  unfold direction_for_substitution_in. intros H.
  apply bind_inv_Ok in H as (eq_ & s1 & _ & H).
  apply bind_inv_Ok in H as (o & s2 & _ & H).
  destruct (negb _).
  { apply ret_inv in H as [-> _]. by left. }
  destruct (children o) as [|l [|r [|? ?]]]; try done.
  apply bind_inv_Ok in H as (cl & s3 & _ & H).
  apply bind_inv_Ok in H as (cr & s4 & _ & H).
  unfold decision in H.
  repeat (case_bool_decide;
          [apply ret_inv in H as [-> _];
           apply (bool_decide_unpack _); vm_compute; exact I|]).
  done.
Qed.

Lemma direction_for_substitution_in_never_left_witness :
  let s := snd (MathObject_init MathObjectCls "LOCAL_CONSTANT" 0%nat []
                  (Some 4%nat)
                  (snd (new_MathObject "PROP_EQUAL" [PROP; NO_MORE_GOALS]
                          initial_state))) in
  direction_for_substitution_in 3 5%nat NO_MORE_GOALS s = (Ok ">", s) ∧
  ">" ∈ [""; ">"; "both"].
Proof.
  intros s.
  assert (H : direction_for_substitution_in 3 5%nat NO_MORE_GOALS s
              = (Ok ">", s)) by (vm_compute; reflexivity).
  split; [exact H|].
  exact (direction_for_substitution_in_never_left 3 5%nat NO_MORE_GOALS s
           ">" s H).
Defined.

(** ** Lists of bound variables *)

Lemma has_bound_var_true_inv l s s' :
  has_bound_var l s = (Ok true, s') →
  ∃ o X x P ox, objs s !! l = Some o ∧ children o = [X; x; P] ∧
                node o ∈ HAVE_BOUND_VAR_NODES ∧
                objs s !! x = Some ox ∧ cls ox = BoundVarCls.
Proof.
  unfold has_bound_var. intros H.
  apply bind_inv_pure in H as (o & Ho & H); [|apply pure_get_obj].
  apply get_obj_inv in Ho as [_ Ho].
  case_bool_decide as Hn; [|done]. case_bool_decide as Hl; [|done].
  destruct (children o) as [|X [|x [|P [|? ?]]]] eqn:Hc; try done.
  rewrite (bind_Ok _ _ _ x s) in H by done.
  unfold is_bound_var in H.
  apply bind_inv_pure in H as (ox & Hox & H); [|apply pure_get_obj].
  apply get_obj_inv in Hox as [_ Hox].
  injection H as H _. apply bool_decide_eq_true in H.
  by exists o, X, x, P, ox.
Qed.

Lemma has_bound_var_true_intro l s o X x P ox :
  objs s !! l = Some o → children o = [X; x; P] →
  node o ∈ HAVE_BOUND_VAR_NODES →
  objs s !! x = Some ox → cls ox = BoundVarCls →
  has_bound_var l s = (Ok true, s).
Proof.
  intros Ho Hc Hn Hx Hcx. unfold has_bound_var.
  rewrite (bind_Ok _ _ _ _ _ (get_obj_Some _ _ _ Ho)).
  rewrite bool_decide_eq_true_2 by done. rewrite Hc.
  rewrite bool_decide_eq_true_2 by done.
  rewrite (bind_Ok _ _ _ x s) by done.
  unfold is_bound_var. rewrite (bind_Ok _ _ _ _ _ (get_obj_Some _ _ _ Hx)).
  unfold ret. by rewrite bool_decide_eq_true_2.
Qed.

Lemma pure_child_if_has_bound_var l k : pure (child_if_has_bound_var l k).
Proof. unfold child_if_has_bound_var. solve_pure. Qed.

Lemma mapM_bound_vars_inv (f : loc → M (list (option loc)))
    (I : state → Prop) (P : option loc → Prop) cs : ∀ s vss s',
  (∀ c s0 vs s1, I s0 → f c s0 = (Ok vs, s1) → I s1 ∧ Forall P vs) →
  I s → mapM f cs s = (Ok vss, s') →
  I s' ∧ Forall P (concat vss).
Proof.
  induction cs as [|c cs IH]; intros s vss s' Hf HI H; cbn [mapM] in H.
  { apply ret_inv in H as [-> ->]. split; [done|]. constructor. }
  apply bind_inv_Ok in H as (vs & s1 & H1 & H).
  apply bind_inv_Ok in H as (vss' & s2 & H2 & H).
  apply ret_inv in H as [-> ->].
  apply Hf in H1 as [I1 HP1]; [|done].
  apply IH in H2 as [I2 HP2]; [|done..].
  split; [done|]. cbn [concat]. by apply Forall_app.
Qed.

Lemma bound_vars_inv fuel : ∀ self mt s vs s',
  bound_vars fuel self mt s = (Ok vs, s') →
  objs s' = objs s ∧
  Forall (λ v, ∃ x ox, v = Some x ∧ objs s' !! x = Some ox ∧
                       cls ox = BoundVarCls) vs.
Proof.
  induction fuel as [|fuel IH]; intros self mt s vs s' H; [done|].
  cbn [bound_vars] in H.
  apply bind_inv_pure in H as (h & Hh & H); [|apply pure_has_bound_var].
  apply bind_inv_Ok in H as (self_vars & s1 & Hself & H).
  apply bind_inv_pure in H as (o & _ & H); [|apply pure_get_obj].
  apply bind_inv_Ok in H as (child_vars & s2 & Hch & H).
  apply ret_inv in H as [-> ->].
  assert (Hs1 : objs s1 = objs s ∧
                Forall (λ v, ∃ x ox, v = Some x ∧ objs s !! x = Some ox ∧
                                     cls ox = BoundVarCls) self_vars).
  { destruct h.
    2:{ apply ret_inv in Hself as [-> ->]. split; [done|]. constructor. }
    apply has_bound_var_true_inv in Hh
      as (o' & X & x & P & ox & Ho' & Hc & Hn & Hx & Hcx).
    apply bind_inv_Ok in Hself as (wanted & s0 & Hw & Hself).
    assert (E0 : objs s0 = objs s).
    { destruct mt as [mt|].
      - apply bind_inv_pure in Hw as (bvt & _ & Hw);
          [|apply pure_child_if_has_bound_var].
        destruct bvt as [t|].
        + by apply py_eq_tags_reset in Hw as [-> _].
        + by apply ret_inv in Hw as [_ ->].
      - by apply ret_inv in Hw as [_ ->]. }
    destruct wanted.
    2:{ apply ret_inv in Hself as [-> ->]. split; [done|]. constructor. }
    apply bind_inv_pure in Hself as (bv & Hbv & Hself);
      [|apply pure_child_if_has_bound_var].
    apply ret_inv in Hself as [-> ->]. split; [done|].
    constructor; [|constructor].
    unfold bound_var, child_if_has_bound_var in Hbv.
    rewrite <- E0 in Ho', Hx.
    rewrite (bind_Ok _ _ _ _ _
               (has_bound_var_true_intro self s0 o' X x P ox Ho' Hc Hn Hx Hcx))
      in Hbv.
    rewrite (bind_Ok _ _ _ _ _ (get_obj_Some _ _ _ Ho')) in Hbv.
    rewrite Hc in Hbv. injection Hbv as <-.
    exists x, ox. rewrite <- E0. done. }
  destruct Hs1 as [E1 Hself_vars].
  apply (mapM_bound_vars_inv _ (λ s0, objs s0 = objs s)
           (λ v, ∃ x ox, v = Some x ∧ objs s !! x = Some ox ∧
                         cls ox = BoundVarCls)) in Hch as [E2 Hchild];
    [| |done].
  - split; [done|]. rewrite E2.
    by apply Forall_app.
  - intros c s0 vs' s1' E0 Hrun. apply IH in Hrun as [E HP].
    split; [congruence|]. by rewrite E, E0 in HP.
Qed.

(** X23: every element of the list that [bound_vars] returns is a
    [BoundVar] of the store (never [None], never a plain [MathObject]),
    whether a math_type is given or not; the call changes no object. *)
Theorem bound_vars_are_bound_vars (fuel : nat) (self : loc)
    (mt : option loc) (s : state) (vs : list (option loc)) (s' : state) :
  bound_vars fuel self mt s = (Ok vs, s') →
  objs s' = objs s ∧
  Forall (λ v, ∃ x ox, v = Some x ∧ objs s !! x = Some ox ∧
                       cls ox = BoundVarCls) vs.
Proof.
  intros H. apply bound_vars_inv in H as [E H]. split; [done|].
  by rewrite E in H.
Qed.

Lemma bound_vars_are_bound_vars_witness :
  let s := snd (session_forall_forall initial_state) in
  bound_vars 2 8%nat None s = (Ok [Some 5%nat], s) ∧
  ∃ ox, objs s !! 5%nat = Some ox ∧ cls ox = BoundVarCls.
Proof.
  intros s.
  assert (H : bound_vars 2 8%nat None s = (Ok [Some 5%nat], s))
    by (vm_compute; reflexivity).
  split; [exact H|].
  destruct (bound_vars_are_bound_vars 2 8%nat None s _ s H) as [_ HF].
  apply Forall_cons in HF as [(x & ox & E & Hx & Hc) _].
  injection E as <-. exists ox. split; [exact Hx | exact Hc].
Defined.

(** ** Parser records are consumed *)

Global Instance node_name_gone_preorder : PreOrder node_name_gone.
Proof.
  split.
  - intros s d i Hd. by exists i.
  - intros s1 s2 s3 H1 H2 d i Hd.
    destruct (H1 d i Hd) as (i' & Hd' & Hn').
    destruct (H2 d i' Hd') as (i'' & Hd'' & Hn'').
    exists i''. split; [done|]. auto.
Qed.

Lemma gone_same_dicts {A} (m : M A) :
  (∀ s a s', m s = (Ok a, s') → dicts s' = dicts s) →
  preserves node_name_gone m.
Proof.
  intros Hm s a s' H d i Hd. exists i. split; [|done].
  by rewrite (Hm s a s' H).
Qed.

Lemma gone_alloc_obj o : preserves node_name_gone (alloc_obj o).
Proof. apply gone_same_dicts. intros s a s' [= <- <-]. reflexivity. Qed.

Lemma gone_upd_obj l f : preserves node_name_gone (upd_obj l f).
Proof.
  apply gone_same_dicts. intros s [] s'. unfold upd_obj.
  destruct (objs s !! l); [|done]. intros [= <-]. reflexivity.
Qed.

Lemma gone_modify_number_sets f :
  preserves node_name_gone (modify (with_number_sets f)).
Proof. apply gone_same_dicts. intros s [] s' [= <-]. reflexivity. Qed.

Lemma gone_modify_constants f :
  preserves node_name_gone (modify (with_constants f)).
Proof. apply gone_same_dicts. intros s [] s' [= <-]. reflexivity. Qed.

Lemma gone_modify_Variables f :
  preserves node_name_gone (modify (with_Variables f)).
Proof. apply gone_same_dicts. intros s [] s' [= <-]. reflexivity. Qed.

Lemma gone_alloc_dict i : preserves node_name_gone (alloc_dict i).
Proof.
  intros s d s' [= <- <-] d0 i0 Hd0. exists i0. split; [|done]. cbn.
  rewrite lookup_insert_ne; [done|]. intros E. rewrite <- E in Hd0.
  by rewrite (proj1 (not_elem_of_dom _ _) (is_fresh _)) in Hd0.
Qed.

Lemma gone_upd_dict d f :
  (∀ i, i_node_name i = None → i_node_name (f i) = None) →
  preserves node_name_gone (upd_dict d f).
Proof.
  intros Hf s [] s'. unfold upd_dict.
  destruct (dicts s !! d) as [i|] eqn:Hi; [|done]. intros [= <-] d0 i0 Hd0.
  cbn. destruct (decide (d = d0)) as [<-|Hne].
  - rewrite lookup_insert_eq. exists (f i). split; [done|].
    assert (i0 = i) as -> by congruence. apply Hf.
  - rewrite lookup_insert_ne by done. by exists i0.
Qed.

Lemma gone_upd_info l f :
  (∀ i, i_node_name i = None → i_node_name (f i) = None) →
  preserves node_name_gone (upd_info l f).
Proof.
  intros Hf. unfold upd_info. apply preserves_bind; [apply _ | |].
  - apply preserves_pure; [apply _ | apply pure_get_obj].
  - intros o. by apply gone_upd_dict.
Qed.

Create HintDb gone discriminated.
#[export] Hint Resolve gone_alloc_obj gone_upd_obj gone_modify_number_sets
  gone_modify_constants gone_modify_Variables gone_alloc_dict : gone.
#[export] Hint Extern 1 (preserves node_name_gone (upd_info _ _)) =>
  apply gone_upd_info; intros ?; done : gone.
#[export] Hint Extern 1 (preserves node_name_gone (upd_dict _ _)) =>
  apply gone_upd_dict; intros ?; done : gone.

Ltac solve_gone := auto 30 with frame gone.

Lemma gone_MathObject_init c node_ info_ children_ mt :
  preserves node_name_gone (MathObject_init c node_ info_ children_ mt).
Proof. unfold MathObject_init. solve_gone. Qed.

#[export] Hint Resolve gone_MathObject_init : gone.

Lemma gone_BoundVar_init node_ d children_ mt p :
  preserves node_name_gone (BoundVar_init node_ d children_ mt p).
Proof.
  unfold BoundVar_init, set_unnamed_bound_var, keep_lean_name, lean_name,
    name_bound_var.
  solve_gone.
Qed.

#[export] Hint Resolve gone_BoundVar_init : gone.

Lemma gone_from_math_type mt p :
  preserves node_name_gone (from_math_type mt p).
Proof. unfold from_math_type. solve_gone. Qed.

Lemma gone_application f v : preserves node_name_gone (application f v).
Proof. unfold application. solve_gone. Qed.

Lemma gone_lambda_ v b mt : preserves node_name_gone (lambda_ v b mt).
Proof. unfold lambda_. solve_gone. Qed.

#[export] Hint Resolve gone_from_math_type gone_application gone_lambda_
  : gone.

Lemma gone_replace_child_sequence self idx :
  preserves node_name_gone (replace_child_sequence self idx).
Proof. unfold replace_child_sequence. solve_gone. Qed.

#[export] Hint Resolve gone_replace_child_sequence : gone.

Lemma gone_process_sequences_and_likes self :
  preserves node_name_gone (process_sequences_and_likes self).
Proof. unfold process_sequences_and_likes. solve_gone. Qed.

Lemma gone_number_sets_setitem i v :
  preserves node_name_gone (number_sets_setitem i v).
Proof. unfold number_sets_setitem. solve_gone. Qed.

#[export] Hint Resolve gone_number_sets_setitem : gone.

Lemma gone_add_numbers_set_loop name_ counter :
  preserves node_name_gone (add_numbers_set_loop name_ counter).
Proof.
  induction counter as [|c IH]; cbn [add_numbers_set_loop]; solve_gone.
Qed.

#[export] Hint Resolve gone_add_numbers_set_loop : gone.

Lemma gone_add_numbers_set name_ :
  preserves node_name_gone (add_numbers_set name_).
Proof. unfold add_numbers_set. solve_gone. Qed.

#[export] Hint Resolve gone_add_numbers_set gone_process_sequences_and_likes
  : gone.

Lemma from_info_and_children_no_node_name d cs s i :
  dicts s !! d = Some i → i_node_name i = None →
  from_info_and_children d cs s = (Raise KeyError, s).
Proof.
  intros Hd Hn. unfold from_info_and_children.
  rewrite (bind_Ok _ _ _ _ _ (get_dict_Some _ _ _ Hd)). by rewrite Hn.
Qed.

(** X24: a parser record is consumed by [from_info_and_children]: the
    call pops ['node_name'] from the dictionary and nothing puts it back,
    so that a second call on the same dictionary, with any children, raises
    [KeyError] and changes nothing. *)
Theorem from_info_and_children_consumes_record (d : dloc) (cs : list loc)
    (s : state) (l : loc) (s' : state) :
  from_info_and_children d cs s = (Ok l, s') →
  (∃ i', dicts s' !! d = Some i' ∧ i_node_name i' = None) ∧
  ∀ cs', from_info_and_children d cs' s' = (Raise KeyError, s').
Proof.
  intros H.
  assert (Hgone : ∃ i', dicts s' !! d = Some i' ∧ i_node_name i' = None).
  { unfold from_info_and_children in H.
    apply bind_inv_pure in H as (i0 & Hi0 & H); [|apply pure_get_dict].
    apply bind_inv_pure in H as (node_ & _ & H);
      [|destruct (i_node_name i0); solve_pure].
    apply bind_inv_Ok in H as ([] & s1 & Hpop & H).
    unfold upd_dict in Hpop.
    destruct (dicts s !! d) as [i|] eqn:Hd; [|done].
    injection Hpop as <-.
    assert (Hrest : node_name_gone (with_dicts (<[d := pop_node_name i]>) s) s').
    { revert H. generalize (with_dicts (<[d := pop_node_name i]>) s).
      intros s1 H. eapply (_ : preserves node_name_gone _), H. }
    destruct (Hrest d (pop_node_name i)) as (i' & Hi' & Hn');
      [apply lookup_insert_eq|].
    exists i'. split; [done|]. by apply Hn'. }
  split; [done|]. intros cs'. destruct Hgone as (i' & Hi' & Hn').
  by eapply from_info_and_children_no_node_name.
  Unshelve.
  apply preserves_bind; [apply _ | | intros ?].
  - destruct (bool_decide (node_ = "CONSTANT")).
    + apply preserves_bind; [apply _ | solve_gone | intros ?].
      destruct (if truthy _ then _ else _); solve_gone.
    + destruct (i_identifier i0); [|solve_gone].
      apply preserves_bind; [apply _ | solve_gone | intros ?].
      destruct (Variables _ !! _); [solve_gone|].
      apply preserves_bind; [apply _ | | intros ?; solve_gone].
      destruct (_ && _); solve_gone.
  - solve_gone.
Qed.

Lemma from_info_and_children_consumes_record_witness :
  let s := snd (new_info "PROP_AND" None None initial_state) in
  ∃ l s', from_info_and_children 4%nat [PROP; PROP] s = (Ok l, s') ∧
          from_info_and_children 4%nat [PROP; PROP] s' = (Raise KeyError, s').
Proof.
  intros s.
  assert (H : from_info_and_children 4%nat [PROP; PROP] s
              = (Ok 4%nat, snd (from_info_and_children 4%nat [PROP; PROP] s)))
    by (vm_compute; reflexivity).
  exists 4%nat, (snd (from_info_and_children 4%nat [PROP; PROP] s)).
  split; [exact H|].
  by destruct (from_info_and_children_consumes_record 4%nat [PROP; PROP] s
                 4%nat _ H) as [_ H'].
Defined.

(** ** Applications and lambdas *)

(** X25: [MathObject.application(function, var)] takes the math_type of the
    new object from the second child of the math_type of [function]: when
    that math_type has fewer than two children, as [NO_MATH_TYPE] has
    (a function without math_type), the call raises [IndexError] and
    changes nothing; otherwise, for a function that is not itself an
    application, it returns a new object ['APPLICATION'] with the children
    [function, var] and that math_type. *)
Theorem application_needs_function_type (function var : loc) (s : state)
    (of_ omt : obj) :
  objs s !! function = Some of_ →
  objs s !! default NO_MATH_TYPE (_math_type of_) = Some omt →
  ((length (children omt) < 2)%nat →
   application function var s = (Raise IndexError, s)) ∧
  (∀ target, children omt !! 1%nat = Some target →
             node of_ ≠ "APPLICATION" →
             ∃ app s' oa,
               application function var s = (Ok app, s') ∧
               objs s !! app = None ∧ objs s' !! app = Some oa ∧
               node oa = "APPLICATION" ∧ children oa = [function; var] ∧
               _math_type oa = Some target).
Proof.
  intros Hf Hmt. unfold application.
  rewrite (bind_Ok _ _ _ _ _ (math_type_run s function of_ Hf)).
  rewrite (bind_Ok _ _ _ _ _ (get_obj_Some _ _ _ Hmt)).
  split.
  - intros Hlen. unfold bind, index.
    change 1%Z with (Z.of_nat 1). rewrite py_index_nat.
    by rewrite lookup_ge_None_2 by lia.
  - intros target Ht Hn.
    rewrite (bind_Ok _ _ _ _ _ (index_lookup _ 1 _ _ Ht)).
    set (d := fresh (dom (dicts s))).
    set (s1 := with_dicts (<[d := empty_info]>) s).
    rewrite (bind_Ok _ _ _ d s1) by done.
    rewrite (MathObject_init_application_plain s1 MathObjectCls d
               [function; var] (Some target) function of_ eq_refl Hf Hn).
    eexists _, _, _. split; [reflexivity|].
    split; [exact (fresh_obj_None s1)|]. split; [apply lookup_insert_eq|].
    done.
Qed.

Lemma application_needs_function_type_witness :
  application PROP PROP initial_state = (Raise IndexError, initial_state).
Proof.
  destruct (application_needs_function_type PROP PROP initial_state
              (constant_obj "PROP" 3) (constant_obj "not provided" 0))
    as [H _]; [reflexivity | reflexivity |].
  apply H. cbn. lia.
Defined.

(** X26: [MathObject.lambda_(var, body, math_type)] on a bound variable
    builds a binder: the new object has the node ['LAMBDA'] and the given
    math_type, its properties [bound_var_type], [bound_var] and [body] are
    the math_type of [var], [var] and [body], and [var] has the new object
    as parent and the math_type it had. *)
Theorem lambda_binds_variable (var body_ T : loc) (s : state) (ov : obj) :
  objs s !! var = Some ov → cls ov = BoundVarCls →
  is_Some (objs s !! default NO_MATH_TYPE (_math_type ov)) →
  is_Some (objs s !! body_) →
  ∃ lam s' ol ov',
    lambda_ var body_ T s = (Ok lam, s') ∧
    objs s !! lam = None ∧ objs s' !! lam = Some ol ∧
    node ol = "LAMBDA" ∧ _math_type ol = Some T ∧
    bound_var_type lam s'
    = (Ok (Some (default NO_MATH_TYPE (_math_type ov))), s') ∧
    bound_var lam s' = (Ok (Some var), s') ∧
    body lam s' = (Ok (Some body_), s') ∧
    objs s' !! var = Some ov' ∧ parent ov' = Some lam ∧
    _math_type ov' = Some (default NO_MATH_TYPE (_math_type ov)).
Proof.
  intros Hv Hc HX HP. unfold lambda_.
  set (X := default NO_MATH_TYPE (_math_type ov)) in *.
  rewrite (bind_Ok _ _ _ _ _ (math_type_run s var ov Hv)). fold X.
  set (d := fresh (dom (dicts s))).
  set (s1 := with_dicts (<[d := empty_info]>) s).
  rewrite (bind_Ok _ _ _ d s1) by done.
  assert (Hn : "LAMBDA" ∈ HAVE_BOUND_VAR_NODES).
  { apply (bool_decide_unpack _). vm_compute. exact I. }
  rewrite (bind_Ok _ _ _ _ _
             (MathObject_init_binder s1 MathObjectCls "LAMBDA" d X var body_
                (Some T) ov Hn Hv Hc HX HP)).
  set (lam := fresh (dom (objs s))).
  set (ol := mkObj MathObjectCls "LAMBDA" d [X; var; body_] (Some T) None
               false []).
  set (ov1 := set_math_type (Some X) (set_parent (Some lam) ov)).
  set (s2 := with_objs (<[var := ov1]>) (with_objs (<[lam := ol]>) s1)).
  assert (Hv2 : objs s2 !! var = Some ov1) by apply lookup_insert_eq.
  rewrite (bind_Ok _ _ _ _ _ (upd_obj_run s2 var ov1 _ Hv2)).
  set (ov' := set_parent (Some lam) ov1).
  set (s' := with_objs (<[var := ov']>) s2).
  assert (Hvl : var ≠ lam).
  { intros E. rewrite E in Hv. unfold lam in Hv.
    by rewrite fresh_obj_None in Hv. }
  assert (Hv' : objs s' !! var = Some ov') by apply lookup_insert_eq.
  assert (Hl' : objs s' !! lam = Some ol).
  { cbn. rewrite !lookup_insert_ne by done. apply lookup_insert_eq. }
  assert (Hold : ∀ l, is_Some (objs s !! l) → is_Some (objs s' !! l)).
  { intros l [o Hl]. cbn. destruct (decide (l = var)) as [->|Hne].
    - rewrite lookup_insert_eq. eauto.
    - rewrite !lookup_insert_ne by done. exists o.
      by apply (lookup_alloc_old s1). }
  assert (Hb : has_bound_var lam s' = (Ok true, s')).
  { by apply (has_bound_var_true_intro lam s' ol X var body_ ov'). }
  exists lam, s', ol, ov'. split; [done|].
  split; [apply fresh_obj_None|]. do 3 (split; [done|]).
  unfold bound_var_type, bound_var, body, child_if_has_bound_var.
  rewrite !(bind_Ok _ _ _ _ _ Hb).
  rewrite !(bind_Ok _ _ _ _ _ (get_obj_Some _ _ _ Hl')).
  done.
Qed.

Lemma lambda_binds_variable_witness :
  let s := snd (from_math_type PROP None initial_state) in
  ∃ lam s', lambda_ 4%nat PROP NO_MORE_GOALS s = (Ok lam, s') ∧
            bound_var lam s' = (Ok (Some 4%nat), s').
Proof.
  intros s.
  destruct (lambda_binds_variable 4%nat PROP NO_MORE_GOALS s
              (mkObj BoundVarCls "LOCAL_CONSTANT" 4%nat [] (Some PROP)
                     (Some NO_MATH_TYPE) true []))
    as (lam & s' & ol & ov' & H1 & _ & _ & _ & _ & _ & H2 & _).
  - vm_compute. reflexivity.
  - reflexivity.
  - vm_compute. eauto.
  - vm_compute. eauto.
  - exists lam, s'. split; [exact H1 | exact H2].
Defined.

(** ** Equality up to the bound variable *)

Lemma value_run s l o i :
  objs s !! l = Some o → dicts s !! info o = Some i →
  value l s = (Ok (i_value i), s).
Proof.
  intros Ho Hi. unfold value.
  by rewrite (bind_Ok _ _ _ _ _ (get_info_Some _ _ _ _ Ho Hi)).
Qed.

Lemma BoundVar_eq_tagged s a b oa ob ia ib k :
  objs s !! a = Some oa → objs s !! b = Some ob → cls ob = BoundVarCls →
  dicts s !! info oa = Some ia → dicts s !! info ob = Some ib →
  i_bound_var_nb ia = Some k → i_bound_var_nb ib = Some k → k ≠ (-1)%Z →
  BoundVar_eq a b s = (Ok true, s).
Proof.
  intros Ha Hb Hcb Hia Hib Hna Hnb Hk. unfold BoundVar_eq.
  case_bool_decide; [done|].
  rewrite (bind_Ok _ _ _ _ _ (get_obj_Some _ _ _ Hb)). rewrite Hcb.
  rewrite (bind_Ok _ _ _ _ _ (bound_var_nb_Some _ _ _ _ Ha Hia)).
  rewrite Hna. rewrite bool_decide_eq_false_2 by congruence.
  cbn [negb].
  rewrite (bind_Ok _ _ _ _ _ (bound_var_nb_Some _ _ _ _ Hb Hib)).
  rewrite Hnb. unfold ret. by rewrite bool_decide_eq_true_2.
Qed.

Lemma unmark_bound_var_run s l o i :
  objs s !! l = Some o → cls o = BoundVarCls → dicts s !! info o = Some i →
  BoundVar_method l (unmark_bound_var l) s
  = (Ok tt, with_dicts (<[info o := set_bound_var_nb (Some (-1)%Z) i]>) s).
Proof.
  intros Ho Hc Hi. unfold BoundVar_method.
  rewrite (bind_Ok _ _ _ _ _ (get_obj_Some _ _ _ Ho)). rewrite Hc.
  by apply upd_info_run.
Qed.

(** X27: two objects of the store that bind a variable and differ only by
    the bound variable (same node, name, value and math_type, same first
    and third child, any two [BoundVar]s as second child, whatever their
    names) are equal for [MathObject.__eq__]: the comparison returns
    [True], provided the counter of bound variables is not negative. *)
Theorem MathObject_eq_up_to_bound_var (fuel : nat) (s : state) (a b : loc)
    (oa ob : obj) (ia ib : info_dict) (X x y P : loc) (ox oy : obj) :
  objs s !! a = Some oa → objs s !! b = Some ob →
  a ≠ NO_MATH_TYPE → b ≠ NO_MATH_TYPE →
  cls oa = MathObjectCls → cls ob = MathObjectCls →
  node oa ∈ HAVE_BOUND_VAR_NODES → node ob = node oa →
  dicts s !! info oa = Some ia → dicts s !! info ob = Some ib →
  i_name ib = i_name ia → i_value ib = i_value ia →
  _math_type ob = _math_type oa →
  is_Some (objs s !! default NO_MATH_TYPE (_math_type oa)) →
  children oa = [X; x; P] → children ob = [X; y; P] →
  is_Some (objs s !! X) → is_Some (objs s !! P) →
  objs s !! x = Some ox → objs s !! y = Some oy →
  cls ox = BoundVarCls → cls oy = BoundVarCls →
  is_Some (dicts s !! info ox) → is_Some (dicts s !! info oy) →
  (0 ≤ bound_var_counter s)%Z →
  ∃ s', MathObject_eq (S (S fuel)) a b s = (Ok true, s').
Proof.
  intros Ha Hb Hna Hnb Hca Hcb Hn Hnn Hia Hib Hname Hval Hmt HmtS Hcha Hchb
    HX HP Hx Hy Hcx Hcy [ix Hix] [iy Hiy] Hk.
  rewrite MathObject_eq_S.
  destruct (decide (a = b)) as [->|Hab].
  { rewrite bool_decide_eq_true_2 by done. by exists s. }
  rewrite bool_decide_eq_false_2 by done.
  unfold is_no_math_type. rewrite !bool_decide_eq_false_2 by done.
  cbn [orb].
  rewrite (bind_Ok _ _ _ _ _ (get_obj_Some _ _ _ Ha)).
  rewrite (bind_Ok _ _ _ _ _ (name_MathObject _ _ _ _ Ha Hia Hca)).
  rewrite (bind_Ok _ _ _ _ _ (value_run _ _ _ _ Ha Hia)).
  rewrite (bind_Ok _ _ _ _ _ (get_obj_Some _ _ _ Hb)).
  rewrite (bind_Ok _ _ _ _ _ (name_MathObject _ _ _ _ Hb Hib Hcb)).
  rewrite (bind_Ok _ _ _ _ _ (value_run _ _ _ _ Hb Hib)).
  rewrite bool_decide_eq_true_2 by congruence. cbn [negb].
  rewrite (bind_Ok _ _ _ _ _ (math_type_run _ _ _ Ha)).
  rewrite (bind_Ok _ _ _ _ _ (math_type_run _ _ _ Hb)).
  rewrite Hmt.
  rewrite (bind_Ok _ _ _ _ _ (py_eq_same fuel _ s HmtS)). cbn [negb].
  rewrite Hcha, Hchb. rewrite bool_decide_eq_true_2 by done. cbn [negb].
  rewrite (bind_Ok _ _ _ _ _
             (has_bound_var_true_intro a s oa X x P ox Ha Hcha Hn Hx Hcx)).
  destruct (mark_identical_bound_vars_run s x y ox oy ix iy Hx Hy Hix Hiy)
    as (s1 & ix' & iy' & Hmark & Ho1 & _ & Hix' & Hiy' & Htx & Hty & _).
  pose proof Hx as Hx0.
  rewrite <- Ho1 in Hx, Hy, HX, HP.
  rewrite (bind_Ok _ _ _ (Some (x, y)) s1).
  2:{ rewrite (bind_Ok _ _ _ x s) by done.
      rewrite (bind_Ok _ _ _ y s) by done.
      rewrite (bind_Ok _ _ _ tt s1); [done|].
      unfold BoundVar_method.
      rewrite (bind_Ok _ _ _ _ _ (get_obj_Some _ _ _ Hx0)).
      by rewrite Hcx. }
  rewrite (bind_Ok _ _ _ true s1).
  2:{ cbn [zip zip_with children_loop].
      rewrite (bind_Ok _ _ _ _ _ (py_eq_same fuel X s1 HX)).
      rewrite (bind_Ok _ _ _ true s1).
      2:{ unfold py_eq, py_eq_with.
          rewrite (bind_Ok _ _ _ _ _ (get_obj_Some _ _ _ Hx)).
          rewrite (bind_Ok _ _ _ _ _ (get_obj_Some _ _ _ Hy)).
          rewrite Hcx.
          apply (BoundVar_eq_tagged s1 x y ox oy ix' iy'
                   (bound_var_counter s + 1)%Z); try done. lia. }
      by rewrite (bind_Ok _ _ _ _ _ (py_eq_same fuel P s1 HP)). }
  set (s2 := with_dicts (<[info ox := set_bound_var_nb (Some (-1)%Z) ix']>)
               s1).
  assert (∃ iy2, dicts s2 !! info oy = Some iy2) as [iy2 Hiy2].
  { cbn. destruct (decide (info ox = info oy)) as [->|Hne].
    - rewrite lookup_insert_eq. eauto.
    - rewrite lookup_insert_ne by done. eauto. }
  rewrite (bind_Ok _ _ _ tt
             (with_dicts (<[info oy := set_bound_var_nb (Some (-1)%Z) iy2]>)
                s2)).
  2:{ rewrite (bind_Ok _ _ _ _ _
                 (unmark_bound_var_run s1 x ox ix' Hx Hcx Hix')).
      by apply unmark_bound_var_run. }
  eauto.
Qed.

Lemma MathObject_eq_up_to_bound_var_witness :
  let s := snd (name_bound_var 6%nat (Some "y")
             (snd (name_bound_var 5%nat (Some "x")
                (snd (session_forall_forall initial_state))))) in
  ∃ s', MathObject_eq 2 8%nat 9%nat s = (Ok true, s').
Proof.
  intros s.
  apply (MathObject_eq_up_to_bound_var 0 s 8%nat 9%nat
           (mkObj MathObjectCls "QUANT_∀" 8%nat [4%nat; 5%nat; 7%nat] None
                  None false [])
           (mkObj MathObjectCls "QUANT_∀" 9%nat [4%nat; 6%nat; 7%nat] None
                  None false [])
           empty_info empty_info 4%nat 5%nat 6%nat 7%nat
           (mkObj BoundVarCls "LOCAL_CONSTANT" 5%nat [] (Some 4%nat)
                  (Some 8%nat) false [])
           (mkObj BoundVarCls "LOCAL_CONSTANT" 6%nat [] (Some 4%nat)
                  (Some 9%nat) false [])).
  - vm_compute. reflexivity.
  - vm_compute. reflexivity.
  - discriminate.
  - discriminate.
  - reflexivity.
  - reflexivity.
  - cbn [node]. apply (bool_decide_unpack _). vm_compute. exact I.
  - reflexivity.
  - vm_compute. reflexivity.
  - vm_compute. reflexivity.
  - reflexivity.
  - reflexivity.
  - reflexivity.
  - vm_compute. eauto.
  - reflexivity.
  - reflexivity.
  - vm_compute. eauto.
  - vm_compute. eauto.
  - vm_compute. reflexivity.
  - vm_compute. reflexivity.
  - reflexivity.
  - reflexivity.
  - vm_compute. eauto.
  - vm_compute. eauto.
  - vm_compute. discriminate.
Defined.

(** ** Number sets met by the parser *)

Global Instance number_sets_same_preorder : PreOrder number_sets_same.
Proof.
  split; [done|]. unfold number_sets_same. intros s1 s2 s3 H1 H2. congruence.
Qed.

Lemma ns_alloc_obj o : preserves number_sets_same (alloc_obj o).
Proof. intros s a s' [= <- <-]. reflexivity. Qed.

Lemma ns_alloc_dict i : preserves number_sets_same (alloc_dict i).
Proof. intros s a s' [= <- <-]. reflexivity. Qed.

Lemma ns_upd_obj l f : preserves number_sets_same (upd_obj l f).
Proof.
  intros s [] s'. unfold upd_obj. destruct (objs s !! l); [|done].
  intros [= <-]. reflexivity.
Qed.

Lemma ns_upd_dict d f : preserves number_sets_same (upd_dict d f).
Proof.
  intros s [] s'. unfold upd_dict. destruct (dicts s !! d); [|done].
  intros [= <-]. reflexivity.
Qed.

Lemma ns_upd_info l f : preserves number_sets_same (upd_info l f).
Proof.
  unfold upd_info. apply preserves_bind; [apply _ | |].
  - apply preserves_pure; [apply _ | apply pure_get_obj].
  - intros o. apply ns_upd_dict.
Qed.

Create HintDb ns discriminated.
#[export] Hint Resolve ns_alloc_obj ns_alloc_dict ns_upd_obj ns_upd_dict
  ns_upd_info : ns.

Ltac solve_ns := auto 30 with frame ns.

Lemma ns_MathObject_init c node_ info_ children_ mt :
  preserves number_sets_same (MathObject_init c node_ info_ children_ mt).
Proof. unfold MathObject_init. solve_ns. Qed.

#[export] Hint Resolve ns_MathObject_init : ns.

Lemma ns_BoundVar_init node_ d children_ mt p :
  preserves number_sets_same (BoundVar_init node_ d children_ mt p).
Proof.
  unfold BoundVar_init, set_unnamed_bound_var, keep_lean_name, lean_name,
    name_bound_var.
  solve_ns.
Qed.

#[export] Hint Resolve ns_BoundVar_init : ns.

Lemma ns_from_math_type mt p :
  preserves number_sets_same (from_math_type mt p).
Proof. unfold from_math_type. solve_ns. Qed.

Lemma ns_application f v : preserves number_sets_same (application f v).
Proof. unfold application. solve_ns. Qed.

Lemma ns_lambda_ v b mt : preserves number_sets_same (lambda_ v b mt).
Proof. unfold lambda_. solve_ns. Qed.

#[export] Hint Resolve ns_from_math_type ns_application ns_lambda_ : ns.

Lemma ns_replace_child_sequence self idx :
  preserves number_sets_same (replace_child_sequence self idx).
Proof. unfold replace_child_sequence. solve_ns. Qed.

#[export] Hint Resolve ns_replace_child_sequence : ns.

Lemma ns_process_sequences_and_likes self :
  preserves number_sets_same (process_sequences_and_likes self).
Proof. unfold process_sequences_and_likes. solve_ns. Qed.

Lemma number_sets_setitem_inv i v s s' :
  number_sets_setitem i v s = (Ok tt, s') →
  (i < length (number_sets s))%nat ∧ s' = with_number_sets (<[i := v]>) s.
Proof.
  unfold number_sets_setitem. intros H.
  rewrite (bind_Ok _ _ _ s s) in H by done.
  case_bool_decide; [|done]. by injection H as <-.
Qed.

(** The loop of [add_numbers_set] keeps the new name in the list. *)
Lemma add_numbers_set_loop_keeps name_ c : ∀ s s',
  number_sets s !! c = Some name_ →
  add_numbers_set_loop name_ c s = (Ok tt, s') →
  name_ ∈ number_sets s'.
Proof.
  induction c as [|c IH]; intros s s' Hc H; cbn [add_numbers_set_loop] in H.
  { apply ret_inv in H as [_ ->]. by eapply list_elem_of_lookup_2. }
  apply bind_inv_pure in H as (s0 & [= <-] & H); [|by intros ??? [= _ <-]].
  apply bind_inv_pure in H as (old_item & _ & H); [|apply pure_index].
  apply bind_inv_pure in H as (i & _ & H); [|apply pure_index_in].
  apply bind_inv_pure in H as (j & _ & H); [|apply pure_index_in].
  case_bool_decide.
  2:{ apply ret_inv in H as [_ ->]. by eapply list_elem_of_lookup_2. }
  apply bind_inv_Ok in H as ([] & s1 & H1 & H).
  apply bind_inv_Ok in H as ([] & s2 & H2 & H).
  apply number_sets_setitem_inv in H1 as [Hlt1 ->].
  apply number_sets_setitem_inv in H2 as [Hlt2 ->].
  eapply IH; [|exact H]. cbn. apply list_lookup_insert_eq.
  rewrite length_insert. cbn in Hlt2. by rewrite length_insert in Hlt2.
Qed.

Lemma add_numbers_set_keeps name_ s s' :
  add_numbers_set name_ s = (Ok tt, s') →
  name_ ∈ NUMBER_SETS_LIST → name_ ∈ number_sets s'.
Proof.
  unfold add_numbers_set. intros H Hn.
  rewrite (bind_Ok _ _ _ s s) in H by done.
  rewrite bool_decide_eq_true_2 in H by done. cbn [andb] in H.
  case_bool_decide as Hold; cbn [negb] in H.
  { by apply ret_inv in H as [_ ->]. }
  set (s1 := with_number_sets (λ l, l ++ [name_]) s) in *.
  rewrite (bind_Ok _ _ _ tt s1) in H by done.
  rewrite (bind_Ok _ _ _ s1 s1) in H by done.
  eapply add_numbers_set_loop_keeps; [|exact H].
  cbn. rewrite length_app. cbn.
  replace (length (number_sets s) + 1 - 1)%nat with (length (number_sets s))
    by lia.
  apply list_lookup_middle. done.
Qed.

(** The display name of an object is the same when its class, dictionary
    and the content of the dictionary are. *)
Lemma display_name_frame l s s' dn :
  frame ∅ s s' → display_name l s = (Ok dn, s) →
  display_name l s' = (Ok dn, s').
Proof.
  intros (Ho & _ & _ & Hd) H. unfold display_name, name in *.
  apply bind_inv_pure in H as (n & Hn & H); [|solve_pure].
  apply bind_inv_pure in Hn as (o & Hobj & Hn); [|apply pure_get_obj].
  apply get_obj_inv in Hobj as [_ Hobj].
  apply bind_inv_pure in Hn as (i & Hi & Hn); [|apply pure_get_dict].
  apply get_dict_inv in Hi as [_ Hi].
  destruct (Ho l o Hobj) as (o' & Hobj' & Hc & _ & Hinfo).
  rewrite (bind_Ok _ _ _ n s'); [by injection H as <-|].
  rewrite (bind_Ok _ _ _ _ _ (get_obj_Some _ _ _ Hobj')).
  rewrite Hinfo, Hc.
  rewrite (bind_Ok _ _ _ i s').
  2:{ apply get_dict_Some, Hd; [set_solver|done]. }
  destruct (cls o); [by injection Hn as <-|].
  destruct (i_name i); [by injection Hn as <-|done].
Qed.

(** X28: [from_info_and_children] registers the sets of numbers it meets:
    when the object it returns has a display name that is one of ℕ, ℤ, ℚ,
    ℝ, this name is in [number_sets] after the call. *)
Theorem from_info_and_children_registers_number_set (d : dloc)
    (cs : list loc) (s : state) (l : loc) (s' : state) (dn : string) :
  from_info_and_children d cs s = (Ok l, s') →
  display_name l s' = (Ok dn, s') →
  dn ∈ NUMBER_SETS_LIST →
  dn ∈ number_sets s'.
Proof.
  unfold from_info_and_children. intros H Hdn Hin.
  apply bind_inv_Ok in H as (i0 & s0 & _ & H).
  apply bind_inv_Ok in H as (node_ & s1 & _ & H).
  apply bind_inv_Ok in H as ([] & s2 & _ & H).
  apply bind_inv_Ok in H as (mo & s3 & _ & H).
  apply bind_inv_pure in H as (dn0 & Hdn0 & H); [|apply pure_display_name].
  apply bind_inv_Ok in H as ([] & s4 & Hadd & H).
  apply bind_inv_Ok in H as ([] & s5 & Hproc & H).
  apply ret_inv in H as [<- <-].
  assert (F34 : frame ∅ s3 s4)
    by (eapply (preserves_add_numbers_set ∅), Hadd).
  assert (F45 : frame ∅ s4 s')
    by (eapply (preserves_process_sequences_and_likes ∅), Hproc).
  assert (dn0 = dn) as ->.
  { assert (Hdn' : display_name l s' = (Ok dn0, s')).
    { eapply display_name_frame; [|exact Hdn0]. by etrans. }
    congruence. }
  apply ns_process_sequences_and_likes in Hproc. rewrite Hproc.
  by eapply add_numbers_set_keeps.
Qed.

Lemma from_info_and_children_registers_number_set_witness :
  let s := snd (new_info "CONSTANT" (Some "ℚ") None initial_state) in
  ∃ l s', from_info_and_children 4%nat [] s = (Ok l, s') ∧
          "ℚ" ∈ number_sets s'.
Proof.
  intros s.
  assert (H : from_info_and_children 4%nat [] s
              = (Ok 4%nat, snd (from_info_and_children 4%nat [] s)))
    by (vm_compute; reflexivity).
  exists 4%nat, (snd (from_info_and_children 4%nat [] s)).
  split; [exact H|].
  apply (from_info_and_children_registers_number_set 4%nat [] s 4%nat _ "ℚ"
           H).
  - vm_compute. reflexivity.
  - apply (bool_decide_unpack _). vm_compute. exact I.
Defined.

(** ** Implicit definitions at top level *)

Lemma unfold_loop_inv (pm : loc → loc → M bool) (am : loc → M loc) :
  (∀ p t, preserves definitions_same (pm p t)) →
  (∀ p, preserves definitions_same (am p)) →
  ∀ t patterns idx acc s rws s',
    unfold_loop pm am t idx patterns acc s = (Ok rws, s') →
    implicit_definitions s' = implicit_definitions s ∧
    ∃ new, rws = acc ++ new ∧ (length new ≤ length patterns)%nat ∧
      match new with
      | [] => last_used_implicit_definition s'
              = last_used_implicit_definition s
      | _ :: _ =>
          ∃ i d, (idx ≤ i < idx + length patterns)%nat ∧
                 implicit_definitions s !! i = Some d ∧
                 last_used_implicit_definition s' = Some d
      end.
Proof.
  intros Hpm Ham t patterns.
  induction patterns as [|p rest IH]; intros idx acc s rws s' H;
    cbn [unfold_loop] in H.
  { apply ret_inv in H as [-> ->]. split; [done|]. exists [].
    by rewrite app_nil_r. }
  apply bind_inv_pure in H as (po & _ & H); [|apply pure_get_obj].
  apply bind_inv_pure in H as (pl & _ & H); [|apply pure_index].
  apply bind_inv_pure in H as (pr & _ & H); [|apply pure_index].
  apply bind_inv_Ok in H as (m & s1 & Hm & H).
  apply Hpm in Hm as [Hd1 Hl1].
  destruct m.
  - apply bind_inv_Ok in H as (rws1 & s2 & Hrw & H).
    apply bind_inv_pure in Hrw as (s0 & [= <-] & Hrw);
      [|by intros ??? [= _ <-]].
    apply bind_inv_pure in Hrw as (d & Hidx & Hrw); [|apply pure_index].
    unfold index in Hidx. rewrite py_index_nat in Hidx.
    destruct (implicit_definitions s1 !! idx) as [d'|] eqn:Hid1; [|done].
    apply ret_inv in Hidx as [-> _].
    apply bind_inv_Ok in Hrw as ([] & s3 & [= <-] & Hrw).
    apply bind_inv_Ok in Hrw as (rw & s4 & Hrw4 & Hrw).
    apply ret_inv in Hrw as [-> ->].
    apply Ham in Hrw4 as [Hd4 Hl4]. cbn in Hd4, Hl4.
    apply IH in H as (Hd & new & -> & Hlen & Hnew).
    split; [congruence|].
    exists (rw :: new). split; [by rewrite <- app_assoc|].
    split; [cbn; lia|].
    destruct new as [|n0 new'].
    + exists idx, d'. split; [cbn; lia|]. split; [congruence|]. congruence.
    + destruct Hnew as (i & d2 & Hi & Hid & Hl). exists i, d2.
      split; [cbn; lia|]. split; [congruence|done].
  - apply bind_inv_Ok in H as (rws1 & s2 & Hrw & H).
    apply ret_inv in Hrw as [-> ->].
    apply IH in H as (Hd & new & -> & Hlen & Hnew).
    split; [congruence|].
    exists new. split; [done|]. split; [cbn; lia|].
    destruct new as [|n0 new'].
    + congruence.
    + destruct Hnew as (i & d2 & Hi & Hid & Hl). exists i, d2.
      split; [cbn; lia|]. split; [congruence|done].
Qed.

(** X29: when the pattern methods leave the implicit definitions and the
    definition on record alone, [unfold_implicit_definition] returns at
    most one rewrite per definition pattern; if it returns no rewrite the
    definition on record is the one of before, and otherwise it is one of
    the implicit definitions, at the index of a pattern. *)
Theorem unfold_implicit_definition_records_definition
    (pm : loc → loc → M bool) (am : loc → M loc) (t : loc) (s : state)
    (rws : list loc) (s' : state) :
  (∀ p t, preserves definitions_same (pm p t)) →
  (∀ p, preserves definitions_same (am p)) →
  unfold_implicit_definition pm am t s = (Ok rws, s') →
  (length rws ≤ length (definition_patterns s))%nat ∧
  match rws with
  | [] => last_used_implicit_definition s' = last_used_implicit_definition s
  | _ :: _ =>
      ∃ i d, (i < length (definition_patterns s))%nat ∧
             implicit_definitions s !! i = Some d ∧
             last_used_implicit_definition s' = Some d
  end.
Proof.
  intros Hpm Ham H. unfold unfold_implicit_definition in H.
  rewrite (bind_Ok _ _ _ s s) in H by done.
  apply (unfold_loop_inv pm am Hpm Ham) in H as (_ & new & -> & Hlen & Hnew).
  cbn [app]. split; [done|].
  destruct new as [|n0 new']; [done|].
  destruct Hnew as (i & d & Hi & Hid & Hl). exists i, d.
  split; [lia|done].
Qed.

Lemma match_node_definitions_same p t :
  preserves definitions_same (match_node p t).
Proof.
  apply preserves_pure.
  - split; [done|]. intros s1 s2 s3 [? ?] [? ?]. split; congruence.
  - unfold match_node. solve_pure.
Qed.

Lemma no_apply_matching_definitions_same p :
  preserves definitions_same (no_apply_matching p).
Proof. by intros s a s' [= _ <-]. Qed.

Lemma unfold_implicit_definition_records_definition_witness :
  let s := snd (session_two_definitions initial_state) in
  ∃ rws s' i d,
    unfold_implicit_definition match_node no_apply_matching 4%nat s
    = (Ok rws, s') ∧
    implicit_definitions s !! i = Some d ∧
    last_used_implicit_definition s' = Some d.
Proof.
  intros s.
  assert (H : unfold_implicit_definition match_node no_apply_matching 4%nat s
              = (Ok [6; 9]%nat,
                 snd (unfold_implicit_definition match_node
                        no_apply_matching 4%nat s)))
    by (vm_compute; reflexivity).
  destruct (unfold_implicit_definition_records_definition match_node
              no_apply_matching 4%nat s _ _ match_node_definitions_same
              no_apply_matching_definitions_same H)
    as (_ & i & d & _ & Hid & Hl).
  exists [6; 9]%nat,
    (snd (unfold_implicit_definition match_node no_apply_matching 4%nat s)),
    i, d.
  split; [exact H|]. split; [exact Hid | exact Hl].
Defined.
